(** * music-stream-api: a shallow embedding of the storage client, the token
    validator and the HTTP handlers, with the properties of the
    specification stated over it.

  Layout of the development:
  - [GoStrings]: the functions of Go's [strings] and [fmt] the code calls;
  - [Primitive]: [primitive.ObjectID] and [ObjectIDFromHex];
  - [Models]: pkg/models (Track, Playlist) and their BSON documents;
  - [Mongo]: the document database as the driver exposes it;
  - [Youtube]: the video client's types;
  - [Env], [World]: what a run is given, and the state it runs against;
  - [Dao]: the storage client ([MongoClient] and its methods);
  - [Service]: the external token validator ([ExternalHandler]);
  - [Http]: requests, the response writer, the control flow of a handler;
  - [Os]: the files of the working directory and the converter;
  - [Api]: the handlers of the api package with authentication;
  - [PkgApi]: the handlers of src/pkg/api/api.go (no authentication);
  - [Examples]: a concrete environment, store and requests;
  - [Statements]: the predicates the properties are stated with;
  - [Base64], [Handlers]: the rest of the api package (the listings, the
    video steps, the upload of converted audio, playlists, the router);
  - [MoreExamples], [MoreStatements]: what the further properties use;
  - the properties, one block per claim, and then the further properties
    of the code, by subject. *)

From Stdlib Require Import ZArith NArith String Ascii List Lia Bool DecimalString.
From stdpp Require Import base option gmap strings list.

Open Scope string_scope.
Open Scope list_scope.

(** Go's [error] values are compared and reported through their text. *)
Definition error := string.
Definition errors_New (text : string) : error := text.
Definition Error (e : error) : string := e.

(** Results of fallible calls: Go's [(value, err)] pairs. *)
Inductive result (A : Type) : Type :=
| Ok (a : A)
| Err (e : error).
Arguments Ok {A} a.
Arguments Err {A} e.

(** ** Go's strings and fmt *)
Module GoStrings.

(** [strings.Contains(s, substr)]: some suffix of [s] starts with [substr]. *)
Fixpoint Contains (s substr : string) : bool :=
  String.prefix substr s ||
  match s with
  | EmptyString => false
  | String _ s' => Contains s' substr
  end.

(** The scan of [strings.Split] for a non-empty separator: [skip] counts the
    bytes of a separator just matched that are still to be passed over,
    [cur] is the piece being collected. *)
Fixpoint split_scan (sep : string) (skip : nat) (cur : string) (s : string)
  : list string :=
  match s with
  | EmptyString => [cur]
  | String c s' =>
      match skip with
      | S k => split_scan sep k cur s'
      | O =>
          if String.prefix sep s
          then cur :: split_scan sep (String.length sep - 1) "" s'
          else split_scan sep 0 (cur +:+ String c "") s'
      end
  end.

Fixpoint explode (s : string) : list string :=
  match s with
  | EmptyString => []
  | String c s' => String c "" :: explode s'
  end.

(** [strings.Split(s, sep)]; with an empty separator Go splits after each
    UTF-8 sequence, which is each byte for ASCII text. *)
Definition Split (s sep : string) : list string :=
  match sep with
  | EmptyString => explode s
  | _ => split_scan sep 0 "" s
  end.

(** The slice expression [s[:n]] (the caller checks [n <= len(s)]). *)
Definition slice_to (s : string) (n : nat) : string := substring 0 n s.

(** [fmt.Sprintf("%v", n)] for an [int]. *)
Definition Sprint_int (n : Z) : string := NilZero.string_of_int (Z.to_int n).

End GoStrings.

(** ** primitive.ObjectID *)
Module Primitive.

(** The twelve bytes of an ObjectID, read as one big-endian number. *)
Definition ObjectID := N.
Definition NilObjectID : ObjectID := 0%N.

Definition ErrInvalidHex : error :=
  errors_New "the provided hex string is not a valid ObjectID".

Definition hex_digit (c : ascii) : option N :=
  let n := N_of_ascii c in
  if ((48 <=? n) && (n <=? 57))%N then Some (n - 48)%N
  else if ((97 <=? n) && (n <=? 102))%N then Some (n - 87)%N
  else if ((65 <=? n) && (n <=? 70))%N then Some (n - 55)%N
  else None.

Fixpoint hex_value (acc : N) (s : string) : option N :=
  match s with
  | EmptyString => Some acc
  | String c s' =>
      match hex_digit c with
      | Some d => hex_value (16 * acc + d)%N s'
      | None => None
      end
  end.

(** [primitive.ObjectIDFromHex]: twenty-four hexadecimal digits, or an
    error. *)
Definition ObjectIDFromHex (s : string) : result ObjectID :=
  if Nat.eqb (String.length s) 24
  then match hex_value 0 s with
       | Some oid => Ok oid
       | None => Err ErrInvalidHex
       end
  else Err ErrInvalidHex.

End Primitive.
Export Primitive.

(** ** pkg/models *)
Module Models.

Record Track := mkTrack {
  ID : ObjectID;            (* json:"id" bson:"_id" *)
  Name : string;            (* omitempty *)
  Artist : string;          (* omitempty *)
  AlbumName : string;       (* omitempty *)
  AudioFileID : ObjectID;   (* omitempty *)
}.

Record Playlist := mkPlaylist {
  Playlist_ID : ObjectID;
  Playlist_Name : string;
  Tracks : list ObjectID;   (* omitempty *)
}.

(** [models.Track{}] *)
Definition zeroTrack : Track := mkTrack NilObjectID "" "" "" NilObjectID.

(** The BSON document of a track without its [_id], which is the key of
    the document in its collection. A field tagged [omitempty] that holds
    its zero value is left out on encoding and decodes back to the zero
    value, so the zero value stands for the absent field. *)
Record TrackDoc := mkTrackDoc {
  doc_name : string;
  doc_artist : string;
  doc_album : string;
  doc_audioFile : ObjectID;
}.

Record PlaylistDoc := mkPlaylistDoc {
  doc_pname : string;
  doc_tracks : list ObjectID;
}.

Definition track_doc (t : Track) : TrackDoc :=
  mkTrackDoc (Name t) (Artist t) (AlbumName t) (AudioFileID t).

Definition decode_track (kd : ObjectID * TrackDoc) : Track :=
  mkTrack kd.1 (doc_name kd.2) (doc_artist kd.2) (doc_album kd.2)
          (doc_audioFile kd.2).

Definition playlist_doc (p : Playlist) : PlaylistDoc :=
  mkPlaylistDoc (Playlist_Name p) (Tracks p).

Definition decode_playlist (kd : ObjectID * PlaylistDoc) : Playlist :=
  mkPlaylist kd.1 (doc_pname kd.2) (doc_tracks kd.2).

End Models.
Export Models.

(** ** The document database, as the driver exposes it *)
Module Mongo.

(** A value of a filter [map[string]interface{}]: the handlers build filters
from object ids and from query-string values. *)
Inductive Value :=
| VObjectID (oid : ObjectID)
| VString (s : string).

Definition Filter := list (string * Value).

(** A GridFS file document (collection fs.files) and a chunk (fs.chunks). *)
Record FileDoc := mkFileDoc {
  file_length : nat;
  file_name : string;
}.

Record Chunk := mkChunk {
  files_id : ObjectID;
  chunk_n : nat;
  chunk_data : list Byte.byte;
}.

(** The four collections [route] configures: songs, playlists, fs.files and
fs.chunks. A collection holds at most one document per [_id]. *)
Record Store := mkStore {
  songs : gmap ObjectID TrackDoc;
  playlists : gmap ObjectID PlaylistDoc;
  fs_files : gmap ObjectID FileDoc;
  fs_chunks : list Chunk;
}.

Definition set_songs (f : gmap ObjectID TrackDoc → gmap ObjectID TrackDoc)
  (s : Store) : Store :=
  mkStore (f (songs s)) (playlists s) (fs_files s) (fs_chunks s).
Definition set_playlists
  (f : gmap ObjectID PlaylistDoc → gmap ObjectID PlaylistDoc) (s : Store)
  : Store :=
  mkStore (songs s) (f (playlists s)) (fs_files s) (fs_chunks s).
Definition set_fs_files (f : gmap ObjectID FileDoc → gmap ObjectID FileDoc)
  (s : Store) : Store :=
  mkStore (songs s) (playlists s) (f (fs_files s)) (fs_chunks s).
Definition set_fs_chunks (f : list Chunk → list Chunk) (s : Store) : Store :=
  mkStore (songs s) (playlists s) (fs_files s) (f (fs_chunks s)).

(** Every call the storage client makes on the driver, by call site. *)
Inductive StoreCall :=
| TrackFind | TrackCursorAll | TrackInsertOne
| TrackFindOne | TrackFindOneDecode | TrackFindOneAndUpdate
| TrackFindOneAndDelete | TrackFindOneAndDeleteDecode
| AudioDeleteOne | AudioChunkDeleteMany | PlaylistUpdateMany
| PlaylistInsertOne | PlaylistFindOneAndUpdate | PlaylistDeleteOne
| PlaylistFind | PlaylistCursorAll
| GridfsNewBucket | GridfsOpenUploadStream | UploadStreamWrite
| UploadStreamClose | GridfsDownloadToStream | ClientPing.

Definition ErrNoDocuments : error :=
  errors_New "mongo: no documents in result".
Definition ErrDuplicateKey : error :=
  errors_New "E11000 duplicate key error".
Definition ErrImmutableID : error :=
  errors_New "the update would modify the immutable field '_id'".
Definition ErrFileNotFound : error :=
  errors_New "file with given parameters not found".
Definition ErrWrongSize : error :=
  errors_New "downloaded chunks do not add up to the file length".

(** *** Query matching *)

Definition string_field_is (field s : string) : bool :=
  negb (String.eqb field "") && String.eqb field s.

Definition match_track_entry (k : ObjectID) (d : TrackDoc)
  (e : string * Value) : bool :=
  match e with
  | (key, VObjectID oid) =>
      if String.eqb key "_id" then N.eqb k oid
      else if String.eqb key "audioFile"
      then negb (N.eqb (doc_audioFile d) NilObjectID)
           && N.eqb (doc_audioFile d) oid
      else false
  | (key, VString s) =>
      if String.eqb key "name" then string_field_is (doc_name d) s
      else if String.eqb key "artist" then string_field_is (doc_artist d) s
      else if String.eqb key "album" then string_field_is (doc_album d) s
      else false
  end.

Definition match_track (f : Filter) (kd : ObjectID * TrackDoc) : bool :=
  forallb (match_track_entry kd.1 kd.2) f.

(** A filter [{"tracks": id}] matches a playlist whose array holds [id]. *)
Definition match_playlist_entry (k : ObjectID) (d : PlaylistDoc)
  (e : string * Value) : bool :=
  match e with
  | (key, VObjectID oid) =>
      if String.eqb key "_id" then N.eqb k oid
      else if String.eqb key "tracks"
      then existsb (N.eqb oid) (doc_tracks d)
      else false
  | (key, VString s) =>
      if String.eqb key "name" then String.eqb (doc_pname d) s
      else false
  end.

Definition match_playlist (f : Filter) (kd : ObjectID * PlaylistDoc) : bool :=
  forallb (match_playlist_entry kd.1 kd.2) f.

(** [Collection.Find]: the matching documents. *)
Definition Find {D} (matches : Filter → ObjectID * D → bool) (f : Filter)
  (c : gmap ObjectID D) : list (ObjectID * D) :=
  List.filter (matches f) (map_to_list c).

(** [FindOne] and the [FindOneAnd...] calls of the client all filter on
[_id] alone. *)
Definition FindOneByID {D} (id : ObjectID) (c : gmap ObjectID D)
  : result (ObjectID * D) :=
  match c !! id with
  | Some d => Ok (id, d)
  | None => Err ErrNoDocuments
  end.

(** [InsertOne]: the inserted id, or a duplicate-key error. The driver
sets [InsertedID] whenever it returns no error. *)
Definition InsertOne {D} (id : ObjectID) (d : D) (c : gmap ObjectID D)
  : result (option ObjectID * gmap ObjectID D) :=
  match c !! id with
  | Some _ => Err ErrDuplicateKey
  | None => Ok (Some id, <[id := d]> c)
  end.

(** [DeleteOne] with filter [{"_id": id}]: the count and the collection. *)
Definition DeleteOneByID {D} (id : ObjectID) (c : gmap ObjectID D)
  : nat * gmap ObjectID D :=
  match c !! id with
  | Some _ => (1, delete id c)
  | None => (0, c)
  end.

(** *** Update operators *)

(** [{"$set": track}]: the encoder leaves out the [omitempty] fields that
are zero, so those keep their stored value; setting [_id] to another value
is refused by the server. *)
Definition set_track (k : ObjectID) (t : Track) (d : TrackDoc)
  : result TrackDoc :=
  if N.eqb (ID t) k
  then Ok (mkTrackDoc
             (if String.eqb (Name t) "" then doc_name d else Name t)
             (if String.eqb (Artist t) "" then doc_artist d else Artist t)
             (if String.eqb (AlbumName t) "" then doc_album d else AlbumName t)
             (if N.eqb (AudioFileID t) NilObjectID then doc_audioFile d
              else AudioFileID t))
  else Err ErrImmutableID.

(** [{"$push": {"tracks": tid}}] appends; [{"$pull": {"tracks": tid}}]
removes every occurrence. *)
Definition push_track (tid : ObjectID) (d : PlaylistDoc) : PlaylistDoc :=
  mkPlaylistDoc (doc_pname d) (doc_tracks d ++ [tid]).

Definition pull_track (tid : ObjectID) (d : PlaylistDoc) : PlaylistDoc :=
  mkPlaylistDoc (doc_pname d)
    (List.filter (λ x, negb (N.eqb x tid)) (doc_tracks d)).

(** The two updates the handlers send, as [bson.M] values. *)
Inductive Update :=
| Push (tid : ObjectID)
| Pull (tid : ObjectID).

Definition apply_update (u : Update) (d : PlaylistDoc) : PlaylistDoc :=
  match u with
  | Push tid => push_track tid d
  | Pull tid => pull_track tid d
  end.

(** [UpdateMany] with filter [{"tracks": tid}] and [$pull]. *)
Definition UpdateManyPull (tid : ObjectID) (c : gmap ObjectID PlaylistDoc)
  : gmap ObjectID PlaylistDoc :=
  (λ d, if existsb (N.eqb tid) (doc_tracks d) then pull_track tid d else d)
    <$> c.

(** *** GridFS *)

(** The pieces of at most [size] bytes a file is stored in. *)
Fixpoint split_chunks (fuel size : nat) (data : list Byte.byte)
  : list (list Byte.byte) :=
  match fuel, data with
  | _, [] => []
  | O, _ => []
  | S fuel', _ => take size data :: split_chunks fuel' size (drop size data)
  end.

Definition make_chunks (fid : ObjectID) (size : nat) (data : list Byte.byte)
  : list Chunk :=
  imap (λ n piece, mkChunk fid n piece)
       (split_chunks (length data) size data).

(** Closing an upload stream writes the buffered bytes as chunks and then
the file document. *)
Definition store_file (fid : ObjectID) (filename : string) (size : nat)
  (data : list Byte.byte) (s : Store) : Store :=
  set_fs_files (insert fid (mkFileDoc (length data) filename))
    (set_fs_chunks (λ cs, cs ++ make_chunks fid size data) s).

Definition file_bytes (fid : ObjectID) (cs : list Chunk) : list Byte.byte :=
  concat (chunk_data <$> List.filter (λ c, N.eqb (files_id c) fid) cs).

Definition DownloadToStream (fid : ObjectID) (s : Store)
  : result (list Byte.byte) :=
  match fs_files s !! fid with
  | None => Err ErrFileNotFound
  | Some f =>
      let data := file_bytes fid (fs_chunks s) in
      if Nat.eqb (length data) (file_length f) then Ok data
      else Err ErrWrongSize
  end.

End Mongo.
Export Mongo.

(** ** github.com/kkdai/youtube: what the handlers use of it *)
Module Youtube.

Record Format := mkFormat {
  ItagNo : Z;
  MimeType : string;
}.

Record Video := mkVideo {
  Video_ID : string;
  Title : string;
  Formats : list Format;
}.

(** The request of the video endpoints, [models.YoutubeRequest], by the
fields the handlers read. *)
Record YoutubeRequest := mkYoutubeRequest {
  YoutubeLink : string;
  Request_Name : string;
  Request_Artist : string;
  Request_AlbumName : string;
}.

(** An [io.ReadCloser]: the bytes it yields, and the error of reading it. *)
Record Stream := mkStream {
  stream_bytes : list Byte.byte;
  stream_read_err : option error;
}.

(** The interface [YoutubeClient] of the api package. *)
Record YoutubeClient := mkYoutubeClient {
  GetVideo : string → result Video;
  GetStream : Video → Format → result Stream;
}.

End Youtube.
Export Youtube.

(** ** What a run gets from outside the program *)

(** What [json.Unmarshal] and [Decoder.Decode] make of a text, decoding into
a zero [models.Track]: a syntax check comes first and leaves the target
untouched when it fails; an input of the wrong shape decodes what it can
and reports the mismatch. *)
Inductive Decoded :=
| Decodes (t : Track)
| SyntaxError (e : error)
| TypeError (e : error) (partial : Track).

(** The calls on the operating system, by call site. *)
Inductive OsCall :=
| OsCreate | OsCopyToFile | OsLookPath | OsRun | OsReadFile
| OsRemoveVideo | OsRemoveAudio | OsCopyToResponse.

Record Env := mkEnv {
  (** the failure, if any, of each driver call of this run *)
  faults : StoreCall → option error;
  (** the failure, if any, of each call on the operating system *)
  os_faults : OsCall → option error;
  (** the ids [primitive.NewObjectID] hands out, in order *)
  ObjectID_at : nat → ObjectID;
  (** the chunk size of the GridFS bucket *)
  ChunkSizeBytes : nat;
  (** encoding/json, on the form field of an upload and on a request body *)
  json_Unmarshal : string → Decoded;
  json_Decode : string → Decoded;
  json_Decode_Video : string → result Video;
  json_Decode_YoutubeRequest : string → result YoutubeRequest;
  (** the error, if any, of [http.NewRequest] for a method and a URL *)
  http_NewRequest : string → string → option error;
  (** what the converter makes of a video file *)
  ffmpeg : list Byte.byte → result (list Byte.byte);
}.

(** The state a request runs against: the database, the id generator, the
log, and the files of the working directory. *)
Record World := mkWorld {
  db : Store;
  oidCounter : nat;
  logged : list string;
  files : gmap string (list Byte.byte);
}.

Definition with_db (f : Store → Store) (W : World) : World :=
  mkWorld (f (db W)) (oidCounter W) (logged W) (files W).

Definition with_files
  (f : gmap string (list Byte.byte) → gmap string (list Byte.byte))
  (W : World) : World :=
  mkWorld (db W) (oidCounter W) (logged W) (f (files W)).

(** [logrus ... .Error(msg)] *)
Definition logError (msg : string) (W : World) : World :=
  mkWorld (db W) (oidCounter W) (logged W ++ [msg]) (files W).

(** [primitive.NewObjectID()] *)
Definition NewObjectID (E : Env) (W : World) : ObjectID * World :=
  (ObjectID_at E (oidCounter W),
   mkWorld (db W) (S (oidCounter W)) (logged W) (files W)).

(** An [interface{}] holding an upload's file id. *)
Inductive Any :=
| AnyObjectID (oid : ObjectID)
| AnyOther.

(** ** pkg/dao: the storage client *)
Module Dao.

Definition GetTracks (E : Env) (filters : Filter) (W : World)
  : result (list Track) * World :=
  match faults E TrackFind with
  | Some err => (Err err, W)
  | None =>
      let cursor := Find match_track filters (songs (db W)) in
      match faults E TrackCursorAll with
      | Some err => (Err err, W)
      | None => (Ok (decode_track <$> cursor), W)
      end
  end.

(** The deferred [uploadStream.Close()]: it writes what the stream has
buffered; its error is logged. *)
Definition uploadStream_Close (E : Env) (fid : ObjectID) (filename : string)
  (buffer : list Byte.byte) (W : World) : World :=
  match faults E UploadStreamClose with
  | Some err => logError "Error closing upload stream" W
  | None => with_db (store_file fid filename (ChunkSizeBytes E) buffer) W
  end.

Definition UploadAudioFile (E : Env) (audioFile : list Byte.byte)
  (trackName : string) (W : World) : result Any * World :=
  match faults E GridfsNewBucket with
  | Some err => (Err err, W)
  | None =>
      match faults E GridfsOpenUploadStream with
      | Some err => (Err err, W)
      | None =>
          let '(FileID, W1) := NewObjectID E W in
          match faults E UploadStreamWrite with
          | Some err =>
              (Err err, uploadStream_Close E FileID trackName [] W1)
          | None =>
              (Ok (AnyObjectID FileID),
               uploadStream_Close E FileID trackName audioFile W1)
          end
      end
  end.

Definition AddTrack (E : Env) (track : Track) (W : World)
  : option error * World :=
  match faults E TrackInsertOne with
  | Some err => (Some err, W)
  | None =>
      match InsertOne (ID track) (track_doc track) (songs (db W)) with
      | Err err => (Some err, W)
      | Ok (InsertedID, songs') =>
          let W' := with_db (set_songs (λ _, songs')) W in
          match InsertedID with
          | None => (Some (errors_New "no tracks inserted"), W')
          | Some _ => (None, W')
          end
      end
  end.

Definition DownloadAudioFile (E : Env) (audioFileID : ObjectID) (W : World)
  : result (list Byte.byte) * World :=
  match faults E GridfsNewBucket with
  | Some err => (Err err, W)
  | None =>
      match faults E GridfsDownloadToStream with
      | Some err => (Err err, W)
      | None => (DownloadToStream audioFileID (db W), W)
      end
  end.

(** The three guarded assignments of [UpdateTrack]. *)
Definition overwrite_non_empty (updatedTrack track : Track) : Track :=
  let track :=
    if String.eqb (Name updatedTrack) "" then track
    else mkTrack (ID track) (Name updatedTrack) (Artist track)
           (AlbumName track) (AudioFileID track) in
  let track :=
    if String.eqb (Artist updatedTrack) "" then track
    else mkTrack (ID track) (Name track) (Artist updatedTrack)
           (AlbumName track) (AudioFileID track) in
  if String.eqb (AlbumName updatedTrack) "" then track
  else mkTrack (ID track) (Name track) (Artist track)
         (AlbumName updatedTrack) (AudioFileID track).

Definition UpdateTrack (E : Env) (id : ObjectID) (updatedTrack : Track)
  (W : World) : option error * World :=
  match faults E TrackFindOne with
  | Some err => (Some err, W)
  | None =>
      match FindOneByID id (songs (db W)) with
      | Err err => (Some err, W)
      | Ok findResult =>
          match faults E TrackFindOneDecode with
          | Some err => (Some err, W)
          | None =>
              let track :=
                overwrite_non_empty updatedTrack (decode_track findResult) in
              match faults E TrackFindOneAndUpdate with
              | Some err => (Some err, W)
              | None =>
                  match set_track id track findResult.2 with
                  | Err err => (Some err, W)
                  | Ok d => (None, with_db (set_songs (insert id d)) W)
                  end
              end
          end
      end
  end.

Definition DeleteTrack (E : Env) (id : ObjectID) (W : World)
  : option error * World :=
  match faults E TrackFindOneAndDelete with
  | Some err => (Some err, W)
  | None =>
      match FindOneByID id (songs (db W)) with
      | Err err => (Some err, W)
      | Ok result =>
          let W := with_db (set_songs (delete id)) W in
          match faults E TrackFindOneAndDeleteDecode with
          | Some err => (Some err, W)
          | None =>
              let track := decode_track result in
              match faults E AudioDeleteOne with
              | Some err => (Some err, W)
              | None =>
                  let W :=
                    with_db (set_fs_files
                      (λ c, (DeleteOneByID (AudioFileID track) c).2)) W in
                  match faults E AudioChunkDeleteMany with
                  | Some err => (Some err, W)
                  | None =>
                      let W :=
                        with_db (set_fs_chunks
                          (List.filter (λ c,
                             negb (N.eqb (files_id c) (AudioFileID track)))))
                          W in
                      (* [_, err = ...UpdateMany(...)] and then [return nil] *)
                      match faults E PlaylistUpdateMany with
                      | Some err => (None, W)
                      | None =>
                          (None,
                           with_db (set_playlists
                             (UpdateManyPull (ID track))) W)
                      end
                  end
              end
          end
      end
  end.

Definition AddPlaylist (E : Env) (playlist : Playlist) (W : World)
  : option error * World :=
  match faults E PlaylistInsertOne with
  | Some err => (Some err, W)
  | None =>
      match InsertOne (Playlist_ID playlist) (playlist_doc playlist)
              (playlists (db W)) with
      | Err err => (Some err, W)
      | Ok (InsertedID, playlists') =>
          let W' := with_db (set_playlists (λ _, playlists')) W in
          match InsertedID with
          | None => (Some (errors_New "no playlist inserted"), W')
          | Some _ => (None, W')
          end
      end
  end.

Definition UpdatePlaylist (E : Env) (playlistId : ObjectID) (update : Update)
  (W : World) : option error * World :=
  match faults E PlaylistFindOneAndUpdate with
  | Some err => (Some err, W)
  | None =>
      match FindOneByID playlistId (playlists (db W)) with
      | Err err => (Some err, W)
      | Ok results =>
          (None,
           with_db (set_playlists
             (insert playlistId (apply_update update results.2))) W)
      end
  end.

Definition DeletePlaylist (E : Env) (id : ObjectID) (W : World)
  : option error * World :=
  match faults E PlaylistDeleteOne with
  | Some err => (Some err, W)
  | None =>
      let '(DeletedCount, playlists') :=
        DeleteOneByID id (playlists (db W)) in
      let W' := with_db (set_playlists (λ _, playlists')) W in
      if Nat.eqb DeletedCount 0
      then (Some (errors_New "no documents were deleted"), W')
      else (None, W')
  end.

Definition GetPlaylists (E : Env) (filters : Filter) (W : World)
  : result (list Playlist) * World :=
  match faults E PlaylistFind with
  | Some err => (Err err, W)
  | None =>
      let cursor := Find match_playlist filters (playlists (db W)) in
      match faults E PlaylistCursorAll with
      | Some err => (Err err, W)
      | None => (Ok (decode_playlist <$> cursor), W)
      end
  end.

Definition Ping (E : Env) (W : World) : option error * World :=
  (faults E ClientPing, W).

End Dao.

(** ** pkg/service: the external token validator *)
Module Service.

Record HttpRequest := mkHttpRequest {
  Method : string;
  URL : string;
  RequestHeader : list (string * string);
}.

Record HttpResponse := mkHttpResponse {
  StatusCode : Z;
}.

Definition StatusOK : Z := 200.

(** [HttpClient.Do] answers with a response or with a transport error. *)
Record ExternalHandler := mkExternalHandler {
  HttpClient : HttpRequest → result HttpResponse;
  LoginServiceURL : string;
}.

Definition ValidateToken (E : Env) (e : ExternalHandler) (token : string)
  : option error :=
  if String.eqb (LoginServiceURL e) ""
  then Some (errors_New "login service url cannot be emtpy")
  else
    let url := "http://" +:+ LoginServiceURL e +:+ "/token" in
    match http_NewRequest E "POST" url with
    | Some err => Some err
    | None =>
        let req :=
          mkHttpRequest "POST" url [("Authorization", "Bearer " +:+ token)] in
        match HttpClient e req with
        | Err err => Some err
        | Ok resp =>
            if negb (Z.eqb (StatusCode resp) StatusOK)
            then Some (errors_New ("non-200 status code received: "
                                   +:+ GoStrings.Sprint_int (StatusCode resp)))
            else None
        end
    end.

(** The interface [service.ExtHandler] the handlers are given. *)
Record ExtHandler := mkExtHandler {
  ext_ValidateToken : string → option error;
}.

Definition ExternalHandler_ExtHandler (E : Env) (e : ExternalHandler)
  : ExtHandler :=
  mkExtHandler (ValidateToken E e).

End Service.

(** ** The requests, the response writer and the control flow of a handler

The deferred closes of request bodies, files and streams change nothing
that is modelled here, and are left out. *)
Module Http.

Definition StatusOK : Z := 200.
Definition StatusBadRequest : Z := 400.
Definition StatusUnauthorized : Z := 401.
Definition StatusInternalServerError : Z := 500.

Definition ErrMissingFile : error :=
  errors_New "http: no such file".

(** A part of a multipart form: its bytes, and the error of reading it. *)
Record FormPart := mkFormPart {
  part_bytes : list Byte.byte;
  part_read_err : option error;
}.

(** A request as the handlers look at it: headers, the variables of the
route, the body, and what parsing the form gives. *)
Record Request := mkRequest {
  Header : gmap string string;
  Vars : gmap string string;
  Body : string;
  ParseForm : option error;
  FormFiles : gmap string FormPart;
  FormValues : gmap string string;
}.

(** [r.Header.Get(key)], [mux.Vars(r)[key]], [r.FormValue(key)]: the empty
string when the key is absent. *)
Definition Header_Get (r : Request) (key : string) : string :=
  default "" (Header r !! key).
Definition mux_Vars (r : Request) (key : string) : string :=
  default "" (Vars r !! key).
Definition FormValue (r : Request) (key : string) : string :=
  default "" (FormValues r !! key).
Definition FormFile (r : Request) (key : string) : result FormPart :=
  match FormFiles r !! key with
  | Some f => Ok f
  | None => Err ErrMissingFile
  end.

(** What a handler encodes into the response. *)
Inductive Payload :=
| PString (s : string)
| PTracks (l : list Track)
| PPlaylists (l : list Playlist)
| PVideo (v : Video).

Inductive BodyItem :=
| ErrorJSON (message : string)       (* {"error": message} *)
| ValueJSON (body : Payload)
| RawBytes (bs : list Byte.byte).

(** The response: the status line is written once, by the first
[WriteHeader] or the first write of the body. *)
Record ResponseWriter := mkResponseWriter {
  Code : option Z;
  Written : list BodyItem;
}.

Definition WriteHeader (code : Z) (w : ResponseWriter) : ResponseWriter :=
  match Code w with
  | Some _ => w
  | None => mkResponseWriter (Some code) (Written w)
  end.

Definition Write (item : BodyItem) (w : ResponseWriter) : ResponseWriter :=
  let w := WriteHeader StatusOK w in
  mkResponseWriter (Code w) (Written w ++ [item]).

(** The calls a handler makes on its collaborators, in order. *)
Inductive Call :=
| CallValidateToken (token : string)
| CallGetVideo (videoId : string)
| CallGetStream (video : Video) (format : Format).

Record HState := mkHState {
  world : World;
  w : ResponseWriter;
  calls : list Call;
}.

(** How a step of a handler ends: it goes on with a value, the handler
returns, or it panics. *)
Inductive Flow (A : Type) : Type :=
| Next (a : A)
| Returned
| Panicked (msg : string).
Arguments Next {A} a.
Arguments Returned {A}.
Arguments Panicked {A} msg.

Definition H (A : Type) : Type := HState → Flow A * HState.

#[global] Instance H_ret : MRet H := λ A a s, (Next a, s).
#[global] Instance H_bind : MBind H := λ A B f m s,
  match m s with
  | (Next a, s') => f a s'
  | (Returned, s') => (Returned, s')
  | (Panicked msg, s') => (Panicked msg, s')
  end.

(** The [return] statement, and a run-time panic. *)
Definition Return {A} : H A := λ s, (Returned, s).
Definition panic {A} (msg : string) : H A := λ s, (Panicked msg, s).

(** A call of the storage client. *)
Definition dao {A} (op : World → A * World) : H A := λ s,
  let '(a, W) := op (world s) in
  (Next a, mkHState W (w s) (calls s)).

Definition logrus_Error (msg : string) : H unit := λ s,
  (Next (), mkHState (logError msg (world s)) (w s) (calls s)).

Definition on_w (f : ResponseWriter → ResponseWriter) : H unit := λ s,
  (Next (), mkHState (world s) (f (w s)) (calls s)).

Definition respondWithSuccess (code : Z) (body : Payload) : H unit :=
  on_w (WriteHeader code) ;; on_w (Write (ValueJSON body)).

Definition respondWithError (code : Z) (message : string) : H unit :=
  on_w (WriteHeader code) ;;
  if String.eqb message ""
  then logrus_Error "Body is nil, unable to write response"
  else on_w (Write (ErrorJSON message)).

(** [ext.ValidateToken(token)] *)
Definition ValidateToken (ext : Service.ExtHandler) (token : string)
  : H (option error) := λ s,
  (Next (Service.ext_ValidateToken ext token),
   mkHState (world s) (w s) (calls s ++ [CallValidateToken token])).

(** [client.GetVideo(videoId)] and [client.GetStream(video, format)] *)
Definition call_GetVideo (client : YoutubeClient) (videoId : string)
  : H (result Video) := λ s,
  (Next (GetVideo client videoId),
   mkHState (world s) (w s) (calls s ++ [CallGetVideo videoId])).

Definition call_GetStream (client : YoutubeClient) (video : Video)
  (format : Format) : H (result Stream) := λ s,
  (Next (GetStream client video format),
   mkHState (world s) (w s) (calls s ++ [CallGetStream video format])).

(** [v, err := ...; if err != nil { onErr; return }] *)
Definition check {A} (r : result A) (onErr : error → H unit) : H A :=
  match r with
  | Ok a => mret a
  | Err err => onErr err ;; Return
  end.

(** [if err := ...; err != nil { onErr; return }] *)
Definition check_err (r : option error) (onErr : error → H unit) : H unit :=
  match r with
  | None => mret ()
  | Some err => onErr err ;; Return
  end.

(** The indexing [l[i]] of a slice. *)
Definition index {A} (l : list A) (i : nat) : H A :=
  match l !! i with
  | Some a => mret a
  | None => panic "runtime error: index out of range"
  end.

(** A handler starts with nothing written. *)
Definition start (W : World) : HState :=
  mkHState W (mkResponseWriter None []) [].

Definition serve (h : H unit) (W : World) : Flow unit * HState :=
  h (start W).

End Http.

(** ** The calls on the operating system *)
Module Os.

Definition ErrNotExist : error := errors_New "no such file or directory".

(** [os.Create(name)]: the file exists and is empty afterwards. *)
Definition Create (E : Env) (name : string) (W : World)
  : option error * World :=
  match os_faults E OsCreate with
  | Some err => (Some err, W)
  | None => (None, with_files (insert name []) W)
  end.

(** [io.Copy(file, stream)] *)
Definition CopyToFile (E : Env) (name : string) (stream : Stream) (W : World)
  : option error * World :=
  match stream_read_err stream with
  | Some err => (Some err, W)
  | None =>
      match os_faults E OsCopyToFile with
      | Some err => (Some err, W)
      | None => (None, with_files (insert name (stream_bytes stream)) W)
      end
  end.

(** [exec.LookPath("ffmpeg")] *)
Definition LookPath (E : Env) (W : World) : result string * World :=
  match os_faults E OsLookPath with
  | Some err => (Err err, W)
  | None => (Ok "ffmpeg", W)
  end.

(** [cmd.Run()] of [ffmpeg -y -loglevel quiet -i video.mp4 video.mp3] *)
Definition Run (E : Env) (W : World) : option error * World :=
  match os_faults E OsRun with
  | Some err => (Some err, W)
  | None =>
      match files W !! "video.mp4" with
      | None => (Some ErrNotExist, W)
      | Some video =>
          match ffmpeg E video with
          | Err err => (Some err, W)
          | Ok audio => (None, with_files (insert "video.mp3" audio) W)
          end
      end
  end.

(** [ioutil.ReadFile(name)] *)
Definition ReadFile (E : Env) (name : string) (W : World)
  : result (list Byte.byte) * World :=
  match os_faults E OsReadFile with
  | Some err => (Err err, W)
  | None =>
      match files W !! name with
      | None => (Err ErrNotExist, W)
      | Some bs => (Ok bs, W)
      end
  end.

(** [os.Remove(name)] *)
Definition Remove (E : Env) (c : OsCall) (name : string) (W : World)
  : option error * World :=
  match os_faults E c with
  | Some err => (Some err, W)
  | None =>
      match files W !! name with
      | None => (Some ErrNotExist, W)
      | Some _ => (None, with_files (delete name) W)
      end
  end.

End Os.

(** ** The api package: the handlers of the authenticated API *)
Module Api.
Import Http.

Definition getAuthToken (r : Request) : result string :=
  let tokenHeader := Header_Get r "Authorization" in
  if String.eqb tokenHeader ""
  then Err (errors_New "no authorization header found")
  else if (Nat.leb 7 (String.length tokenHeader)
           && negb (String.eqb (GoStrings.slice_to tokenHeader 7) "Bearer "))
          || negb (Nat.eqb (length (GoStrings.Split tokenHeader " ")) 2)
  then Err (errors_New
              "authorization header must be in format 'Bearer' <token>")
  else Ok (default "" (GoStrings.Split tokenHeader " " !! 1)).

(** The two checks every handler but [checkHealth] starts with: the token
is taken from the header, then validated. *)
Definition authenticate (ext : Service.ExtHandler) (r : Request) : H unit :=
  token ← check (getAuthToken r) (λ err,
    logrus_Error "Error retrieving auth token" ;;
    respondWithError StatusBadRequest (Error err));
  err ← ValidateToken ext token;
  check_err err (λ err,
    logrus_Error "Authentication failed" ;;
    respondWithError StatusUnauthorized "Authentication failed").

(** The three assignments of the defaults, as [uploadTrack], [updateTrack]
and the video uploads each write them. *)
Definition with_defaults (track : Track) : Track :=
  mkTrack (ID track)
    (if String.eqb (Name track) "" then "Unknown" else Name track)
    (if String.eqb (Artist track) "" then "Unknown Artist" else Artist track)
    (if String.eqb (AlbumName track) "" then "Unknown Album"
     else AlbumName track)
    (AudioFileID track).

Definition set_ID (id : ObjectID) (track : Track) : Track :=
  mkTrack id (Name track) (Artist track) (AlbumName track)
    (AudioFileID track).

Definition set_AudioFileID (id : ObjectID) (track : Track) : Track :=
  mkTrack (ID track) (Name track) (Artist track) (AlbumName track) id.

Definition checkHealth (E : Env) : H unit :=
  err ← dao (Dao.Ping E);
  check_err err (λ _,
    respondWithError StatusInternalServerError
      "API is running but unable to connect to database") ;;
  respondWithSuccess StatusOK
    (PString "API is running and connected to database") ;;
  Return.

Definition uploadTrack (E : Env) (ext : Service.ExtHandler) (r : Request)
  : H unit :=
  authenticate ext r ;;
  check_err (ParseForm r) (λ err,
    logrus_Error "Error parsing request form" ;;
    respondWithError StatusBadRequest (Error err)) ;;
  f ← check (FormFile r "input") (λ err,
    logrus_Error "Failed to find file with key 'input'" ;;
    respondWithError StatusBadRequest (Error err));
  check_err (part_read_err f) (λ err,
    logrus_Error "Error reading file" ;;
    respondWithError StatusInternalServerError (Error err)) ;;
  let buf := part_bytes f in
  let body := FormValue r "body" in
  (* an error of [json.Unmarshal] is answered, and the handler goes on *)
  track ← match json_Unmarshal E body with
          | Decodes track => mret track
          | SyntaxError err =>
              logrus_Error "Error reading request body" ;;
              respondWithError StatusBadRequest (Error err) ;;
              mret zeroTrack
          | TypeError err track =>
              logrus_Error "Error reading request body" ;;
              respondWithError StatusBadRequest (Error err) ;;
              mret track
          end;
  id ← dao (NewObjectID E);
  let track := with_defaults (set_ID id track) in
  audioID ← dao (Dao.UploadAudioFile E buf (Name track));
  audioID ← check audioID (λ err,
    logrus_Error "Error adding track to database" ;;
    respondWithError StatusInternalServerError (Error err));
  audioFileID ← match audioID with
                | AnyObjectID oid => mret oid
                | AnyOther =>
                    logrus_Error
                      "Did not receive valid audioFileID from upload stream" ;;
                    respondWithError StatusInternalServerError
                      "invalid audioID received from handler" ;;
                    Return
                end;
  let track := set_AudioFileID audioFileID track in
  err ← dao (Dao.AddTrack E track);
  check_err err (λ err,
    logrus_Error "Error adding track to database" ;;
    respondWithError StatusInternalServerError (Error err)) ;;
  respondWithSuccess StatusOK (PString "Track added successfully") ;;
  Return.

(** The loop over [video.Formats] of [getStream] and of
[uploadTrackFromYoutubeLink]: [formatIndex] starts at 0 and is set, once,
at the first format whose MIME type contains "audio/mp4". *)
Fixpoint formatIndex_from (i : nat) (formats : list Format) : nat :=
  match formats with
  | [] => 0
  | format :: rest =>
      if GoStrings.Contains (MimeType format) "audio/mp4" then i
      else formatIndex_from (S i) rest
  end.

Definition formatIndex (formats : list Format) : nat :=
  formatIndex_from 0 formats.

Definition getStream (E : Env) (ext : Service.ExtHandler)
  (client : YoutubeClient) (r : Request) : H unit :=
  authenticate ext r ;;
  video ← check (json_Decode_Video E (Body r)) (λ err,
    logrus_Error "Error decoding request body" ;;
    respondWithError StatusBadRequest "Error decoding request body");
  format ← index (Formats video) (formatIndex (Formats video));
  stream ← call_GetStream client video format;
  stream ← check stream (λ err,
    logrus_Error "Error getting video stream" ;;
    respondWithError StatusInternalServerError (Error err));
  err ← dao (Os.Create E "video.mp4");
  check_err err (λ err,
    logrus_Error "Error creating file" ;;
    respondWithError StatusInternalServerError (Error err)) ;;
  err ← dao (Os.CopyToFile E "video.mp4" stream);
  check_err err (λ err,
    logrus_Error "Error encoding response body" ;;
    respondWithError StatusInternalServerError (Error err)) ;;
  respondWithSuccess StatusOK (PString "Stream file created successfully").

Definition getTrackAudio (E : Env) (ext : Service.ExtHandler) (r : Request)
  : H unit :=
  let id := mux_Vars r "id" in
  authenticate ext r ;;
  objectID ← check (ObjectIDFromHex id) (λ err,
    logrus_Error "Error creating objectID" ;;
    respondWithError StatusBadRequest (Error err));
  let filter := [("_id", VObjectID objectID)] in
  tracks ← dao (Dao.GetTracks E filter);
  tracks ← check tracks (λ err,
    logrus_Error "Error getting track" ;;
    respondWithError StatusInternalServerError (Error err));
  track0 ← index tracks 0;
  audioFileBytes ← dao (Dao.DownloadAudioFile E (AudioFileID track0));
  audioFileBytes ← check audioFileBytes (λ err,
    logrus_Error "Error getting audio for track" ;;
    respondWithError StatusInternalServerError (Error err));
  check_err (os_faults E OsCopyToResponse) (λ err,
    logrus_Error "Error writing file to response" ;;
    respondWithError StatusInternalServerError (Error err)) ;;
  on_w (Write (RawBytes audioFileBytes)).

Definition updateTrack (E : Env) (ext : Service.ExtHandler) (r : Request)
  : H unit :=
  authenticate ext r ;;
  id ← check (ObjectIDFromHex (mux_Vars r "id")) (λ err,
    logrus_Error "Error creating objectID from hex" ;;
    respondWithError StatusBadRequest (Error err));
  updatedTrack ← match json_Decode E (Body r) with
                 | Decodes track => mret track
                 | SyntaxError err | TypeError err _ =>
                     logrus_Error "Error decoding request body" ;;
                     respondWithError StatusBadRequest (Error err) ;;
                     Return
                 end;
  let updatedTrack := with_defaults updatedTrack in
  err ← dao (Dao.UpdateTrack E id updatedTrack);
  check_err err (λ err,
    logrus_Error "Error updating track in database" ;;
    respondWithError StatusInternalServerError (Error err)) ;;
  respondWithSuccess StatusOK (PString "Track updated successfully") ;;
  Return.

Definition deleteTrack (E : Env) (ext : Service.ExtHandler) (r : Request)
  : H unit :=
  authenticate ext r ;;
  id ← check (ObjectIDFromHex (mux_Vars r "id")) (λ err,
    logrus_Error "Error creating objectID from hex" ;;
    respondWithError StatusBadRequest (Error err));
  err ← dao (Dao.DeleteTrack E id);
  check_err err (λ err,
    logrus_Error "Error deleting track" ;;
    respondWithError StatusInternalServerError (Error err)) ;;
  respondWithSuccess StatusOK (PString "Track deleted successfully") ;;
  Return.

Definition addTrackToPlaylist (E : Env) (ext : Service.ExtHandler)
  (r : Request) : H unit :=
  authenticate ext r ;;
  let playlistId := mux_Vars r "playlistid" in
  let trackId := mux_Vars r "trackid" in
  pid ← check (ObjectIDFromHex playlistId) (λ err,
    logrus_Error "Error creating objectId from hex" ;;
    respondWithError StatusBadRequest (Error err));
  tid ← check (ObjectIDFromHex trackId) (λ err,
    logrus_Error "Error creating objectId from hex" ;;
    respondWithError StatusBadRequest (Error err));
  tracks ← dao (Dao.GetTracks E [("_id", VObjectID tid)]);
  check tracks (λ err,
    logrus_Error "No track with given ID found in database" ;;
    respondWithError StatusInternalServerError (Error err)) ;;
  let update := Push tid in
  err ← dao (Dao.UpdatePlaylist E pid update);
  check_err err (λ err,
    logrus_Error "Error adding track to playlist" ;;
    respondWithError StatusInternalServerError (Error err)) ;;
  respondWithSuccess StatusOK
    (PString "Track successfully added to playlist") ;;
  Return.

Definition removeTrackFromPlaylist (E : Env) (ext : Service.ExtHandler)
  (r : Request) : H unit :=
  authenticate ext r ;;
  let playlistId := mux_Vars r "playlistid" in
  let trackId := mux_Vars r "trackid" in
  pid ← check (ObjectIDFromHex playlistId) (λ err,
    logrus_Error "Error creating objectId from hex" ;;
    respondWithError StatusBadRequest (Error err));
  tid ← check (ObjectIDFromHex trackId) (λ err,
    logrus_Error "Error creating objectId from hex" ;;
    respondWithError StatusBadRequest (Error err));
  tracks ← dao (Dao.GetTracks E [("_id", VObjectID tid)]);
  check tracks (λ err,
    logrus_Error "No track with given ID found in database" ;;
    respondWithError StatusInternalServerError (Error err)) ;;
  let update := Pull tid in
  err ← dao (Dao.UpdatePlaylist E pid update);
  check_err err (λ err,
    logrus_Error "Error removing track from playlist" ;;
    respondWithError StatusInternalServerError (Error err)) ;;
  respondWithSuccess StatusOK
    (PString "Track successfully removed from playlist") ;;
  Return.

Definition deletePlaylist (E : Env) (ext : Service.ExtHandler) (r : Request)
  : H unit :=
  authenticate ext r ;;
  id ← check (ObjectIDFromHex (mux_Vars r "id")) (λ err,
    logrus_Error "Error creating objectID from hex" ;;
    respondWithError StatusBadRequest (Error err));
  err ← dao (Dao.DeletePlaylist E id);
  check_err err (λ err,
    logrus_Error "Error deleting track" ;;
    respondWithError StatusInternalServerError (Error err)) ;;
  respondWithSuccess StatusOK (PString "Playlist deleted successfully") ;;
  Return.

(** Deprecated *)
Definition uploadTrackFromYoutubeLink (E : Env) (client : YoutubeClient)
  (ext : Service.ExtHandler) (r : Request) : H unit :=
  authenticate ext r ;;
  ytRequest ← check (json_Decode_YoutubeRequest E (Body r)) (λ err,
    logrus_Error "Error decoding request into JSON" ;;
    respondWithError StatusBadRequest (Error err));
  afterV ← index (GoStrings.Split (YoutubeLink ytRequest) "v=") 1;
  videoId ← index (GoStrings.Split afterV "&") 0;
  video ← call_GetVideo client videoId;
  video ← check video (λ err,
    logrus_Error "Error getting video" ;;
    respondWithError StatusInternalServerError (Error err));
  format ← index (Formats video) (formatIndex (Formats video));
  stream ← call_GetStream client video format;
  stream ← check stream (λ err,
    logrus_Error "Error getting video stream" ;;
    respondWithError StatusInternalServerError (Error err));
  err ← dao (Os.Create E "video.mp4");
  check_err err (λ err,
    logrus_Error "Error creating file" ;;
    respondWithError StatusInternalServerError (Error err)) ;;
  err ← dao (Os.CopyToFile E "video.mp4" stream);
  check_err err (λ err,
    logrus_Error "Error encoding response body" ;;
    respondWithError StatusInternalServerError (Error err)) ;;
  ffmpeg ← dao (Os.LookPath E);
  check ffmpeg (λ err,
    logrus_Error "Error locating ffmpeg" ;;
    respondWithError StatusInternalServerError (Error err)) ;;
  err ← dao (Os.Run E);
  check_err err (λ err,
    logrus_Error "Error executing ffmpeg command" ;;
    respondWithError StatusInternalServerError (Error err)) ;;
  audioBytes ← dao (Os.ReadFile E "video.mp3");
  audioBytes ← check audioBytes (λ err,
    logrus_Error "Error reading file" ;;
    respondWithError StatusInternalServerError (Error err));
  err ← dao (Os.Remove E OsRemoveVideo "video.mp4");
  (if err is Some _ then logrus_Error "Error deleting video file"
   else mret ()) ;;
  err ← dao (Os.Remove E OsRemoveAudio "video.mp3");
  (if err is Some _ then logrus_Error "Error deleting audio file"
   else mret ()) ;;
  id ← dao (NewObjectID E);
  let track := mkTrack id (Request_Name ytRequest) (Request_Artist ytRequest)
                 (Request_AlbumName ytRequest) NilObjectID in
  let track := with_defaults track in
  audioID ← dao (Dao.UploadAudioFile E audioBytes (Name track));
  audioID ← check audioID (λ err,
    logrus_Error "Error adding track to database" ;;
    respondWithError StatusInternalServerError (Error err));
  audioFileID ← match audioID with
                | AnyObjectID oid => mret oid
                | AnyOther =>
                    logrus_Error
                      "Did not receive valid audioFileID from upload stream" ;;
                    (* [err.Error()] on the nil [err] of the upload *)
                    panic "runtime error: nil pointer dereference"
                end;
  let track := set_AudioFileID audioFileID track in
  err ← dao (Dao.AddTrack E track);
  check_err err (λ err,
    logrus_Error "Error adding track to database" ;;
    respondWithError StatusInternalServerError (Error err)) ;;
  respondWithSuccess StatusOK (PString "Track added successfully") ;;
  Return.

End Api.

(** ** src/pkg/api/api.go: the same handlers before authentication was
added; they take the storage client alone *)
Module PkgApi.
Import Http.

Definition uploadTrack (E : Env) (r : Request) : H unit :=
  check_err (ParseForm r) (λ err,
    logrus_Error "Error parsing request form" ;;
    respondWithError StatusBadRequest (Error err)) ;;
  f ← check (FormFile r "input") (λ err,
    logrus_Error "Failed to find file with key 'input'" ;;
    respondWithError StatusBadRequest (Error err));
  check_err (part_read_err f) (λ err,
    logrus_Error "Error reading file" ;;
    respondWithError StatusInternalServerError (Error err)) ;;
  let buf := part_bytes f in
  let body := FormValue r "body" in
  track ← match json_Unmarshal E body with
          | Decodes track => mret track
          | SyntaxError err =>
              logrus_Error "Error reading request body" ;;
              respondWithError StatusBadRequest (Error err) ;;
              mret zeroTrack
          | TypeError err track =>
              logrus_Error "Error reading request body" ;;
              respondWithError StatusBadRequest (Error err) ;;
              mret track
          end;
  id ← dao (NewObjectID E);
  let track := Api.with_defaults (Api.set_ID id track) in
  audioID ← dao (Dao.UploadAudioFile E buf (Name track));
  audioID ← check audioID (λ err,
    logrus_Error "Error adding track to database" ;;
    respondWithError StatusInternalServerError (Error err));
  audioFileID ← match audioID with
                | AnyObjectID oid => mret oid
                | AnyOther =>
                    logrus_Error
                      "Did not receive valid audioFileID from upload stream" ;;
                    (* [err.Error()] on the nil [err] of the upload *)
                    panic "runtime error: nil pointer dereference"
                end;
  let track := Api.set_AudioFileID audioFileID track in
  err ← dao (Dao.AddTrack E track);
  check_err err (λ err,
    logrus_Error "Error adding track to database" ;;
    respondWithError StatusInternalServerError (Error err)) ;;
  respondWithSuccess StatusOK (PString "Track added successfully") ;;
  Return.

Definition getTrackAudio (E : Env) (r : Request) : H unit :=
  let id := mux_Vars r "id" in
  objectID ← check (ObjectIDFromHex id) (λ err,
    logrus_Error "Error creating objectID" ;;
    respondWithError StatusBadRequest (Error err));
  let filter := [("_id", VObjectID objectID)] in
  tracks ← dao (Dao.GetTracks E filter);
  tracks ← check tracks (λ err,
    logrus_Error "Error getting track" ;;
    respondWithError StatusInternalServerError (Error err));
  track0 ← index tracks 0;
  audioFileBytes ← dao (Dao.DownloadAudioFile E (AudioFileID track0));
  audioFileBytes ← check audioFileBytes (λ err,
    logrus_Error "Error getting audio for track" ;;
    respondWithError StatusInternalServerError (Error err));
  check_err (os_faults E OsCopyToResponse) (λ err,
    logrus_Error "Error writing file to response" ;;
    respondWithError StatusInternalServerError (Error err)) ;;
  on_w (Write (RawBytes audioFileBytes)).

Definition updateTrack (E : Env) (r : Request) : H unit :=
  id ← check (ObjectIDFromHex (mux_Vars r "id")) (λ err,
    logrus_Error "Error creating objectID from hex" ;;
    respondWithError StatusBadRequest (Error err));
  updatedTrack ← match json_Decode E (Body r) with
                 | Decodes track => mret track
                 | SyntaxError err | TypeError err _ =>
                     logrus_Error "Error decoding request body" ;;
                     respondWithError StatusBadRequest (Error err) ;;
                     Return
                 end;
  err ← dao (Dao.UpdateTrack E id updatedTrack);
  check_err err (λ err,
    logrus_Error "Error updating track in database" ;;
    respondWithError StatusInternalServerError (Error err)) ;;
  respondWithSuccess StatusOK (PString "Track updated successfully") ;;
  Return.

Definition addTrackToPlaylist (E : Env) (r : Request) : H unit :=
  let playlistId := mux_Vars r "playlistid" in
  let trackId := mux_Vars r "trackid" in
  pid ← check (ObjectIDFromHex playlistId) (λ err,
    logrus_Error "Error creating objectId from hex" ;;
    respondWithError StatusBadRequest (Error err));
  tid ← check (ObjectIDFromHex trackId) (λ err,
    logrus_Error "Error creating objectId from hex" ;;
    respondWithError StatusBadRequest (Error err));
  tracks ← dao (Dao.GetTracks E [("_id", VObjectID tid)]);
  check tracks (λ err,
    logrus_Error "No track with given ID found in database" ;;
    respondWithError StatusInternalServerError (Error err)) ;;
  let update := Push tid in
  err ← dao (Dao.UpdatePlaylist E pid update);
  check_err err (λ err,
    logrus_Error "Error adding track to playlist" ;;
    respondWithError StatusInternalServerError (Error err)) ;;
  respondWithSuccess StatusOK
    (PString "Track successfully added to playlist") ;;
  Return.

End PkgApi.

(** * Concrete runs *)

(** An environment in which no call fails: ids are handed out from 1000
upwards, chunks hold four bytes, and the decoders know the few texts the
examples below send. *)
Module Examples.
Import Http.

(** The double quote, and a JSON object with one string member. *)
Definition dquote : string := String (ascii_of_nat 34) EmptyString.

Definition json_member (key value : string) : string :=
  "{" +:+ dquote +:+ key +:+ dquote +:+ ":" +:+ dquote +:+ value +:+ dquote
  +:+ "}".

Definition decode_example (s : string) : Decoded :=
  if String.eqb s "{}" then Decodes zeroTrack
  else if String.eqb s (json_member "name" "")
  then Decodes zeroTrack
  else if String.eqb s (json_member "name" "New")
  then Decodes (mkTrack NilObjectID "New" "" "" NilObjectID)
  else if String.eqb s (json_member "artist" "Band")
  then Decodes (mkTrack NilObjectID "" "Band" "" NilObjectID)
  else SyntaxError "invalid character in JSON input".

Definition env0 : Env := {|
  faults := λ _, None;
  os_faults := λ _, None;
  ObjectID_at := λ n, N.of_nat (1000 + n);
  ChunkSizeBytes := 4;
  json_Unmarshal := decode_example;
  json_Decode := decode_example;
  json_Decode_Video := λ _, Err "unexpected end of JSON input";
  json_Decode_YoutubeRequest := λ _, Err "unexpected end of JSON input";
  http_NewRequest := λ _ _, None;
  ffmpeg := λ video, Ok video;
|}.

(** The same environment with one driver call failing. *)
Definition StoreCall_eqb (a b : StoreCall) : bool :=
  match a, b with
  | TrackFind, TrackFind | TrackCursorAll, TrackCursorAll
  | TrackInsertOne, TrackInsertOne | TrackFindOne, TrackFindOne
  | TrackFindOneDecode, TrackFindOneDecode
  | TrackFindOneAndUpdate, TrackFindOneAndUpdate
  | TrackFindOneAndDelete, TrackFindOneAndDelete
  | TrackFindOneAndDeleteDecode, TrackFindOneAndDeleteDecode
  | AudioDeleteOne, AudioDeleteOne
  | AudioChunkDeleteMany, AudioChunkDeleteMany
  | PlaylistUpdateMany, PlaylistUpdateMany
  | PlaylistInsertOne, PlaylistInsertOne
  | PlaylistFindOneAndUpdate, PlaylistFindOneAndUpdate
  | PlaylistDeleteOne, PlaylistDeleteOne | PlaylistFind, PlaylistFind
  | PlaylistCursorAll, PlaylistCursorAll
  | GridfsNewBucket, GridfsNewBucket
  | GridfsOpenUploadStream, GridfsOpenUploadStream
  | UploadStreamWrite, UploadStreamWrite
  | UploadStreamClose, UploadStreamClose
  | GridfsDownloadToStream, GridfsDownloadToStream
  | ClientPing, ClientPing => true
  | _, _ => false
  end.

Definition env_failing (c : StoreCall) (err : error) : Env := {|
  faults := λ c', if StoreCall_eqb c c' then Some err else None;
  os_faults := os_faults env0;
  ObjectID_at := ObjectID_at env0;
  ChunkSizeBytes := ChunkSizeBytes env0;
  json_Unmarshal := json_Unmarshal env0;
  json_Decode := json_Decode env0;
  json_Decode_Video := json_Decode_Video env0;
  json_Decode_YoutubeRequest := json_Decode_YoutubeRequest env0;
  http_NewRequest := http_NewRequest env0;
  ffmpeg := ffmpeg env0;
|}.

(** A video with two formats, the second of them audio, and a client that
knows it. *)
Definition video0 : Video :=
  mkVideo "abc" "A video"
    [mkFormat 18 "video/mp4; codecs=avc1";
     mkFormat 140 "audio/mp4; codecs=mp4a"].

Definition client0 : YoutubeClient := {|
  GetVideo := λ videoId,
    if String.eqb videoId "abc" then Ok video0 else Err "video not found";
  GetStream := λ _ _, Ok (mkStream [Byte.x01; Byte.x02] None);
|}.

Definition env_video : Env := {|
  faults := faults env0;
  os_faults := os_faults env0;
  ObjectID_at := ObjectID_at env0;
  ChunkSizeBytes := ChunkSizeBytes env0;
  json_Unmarshal := json_Unmarshal env0;
  json_Decode := json_Decode env0;
  json_Decode_Video := λ _, Ok video0;
  json_Decode_YoutubeRequest := λ _,
    Ok (mkYoutubeRequest "https://www.youtube.com/watch?v=abc&t=1" "" "" "");
  http_NewRequest := http_NewRequest env0;
  ffmpeg := ffmpeg env0;
|}.

(** Two login services: one answers 418 to every request, one 200. *)
Definition login_teapot : Service.ExternalHandler :=
  Service.mkExternalHandler (λ _, Ok (Service.mkHttpResponse 418))
    "login:8080".

Definition login_ok : Service.ExternalHandler :=
  Service.mkExternalHandler (λ _, Ok (Service.mkHttpResponse 200))
    "login:8080".

(** A validator that accepts every token. *)
Definition ext_ok : Service.ExtHandler := Service.mkExtHandler (λ _, None).

(** One track (id 1, audio file 7 in two chunks) and one playlist (id 2)
that holds it. *)
Definition store0 : Store := {|
  songs := {[ 1%N := mkTrackDoc "Song" "Singer" "Album" 7%N ]};
  playlists := {[ 2%N := mkPlaylistDoc "Mix" [1%N] ]};
  fs_files := {[ 7%N := mkFileDoc 6 "Song" ]};
  fs_chunks := [ mkChunk 7%N 0 [Byte.x01; Byte.x02; Byte.x03; Byte.x04];
                 mkChunk 7%N 1 [Byte.x05; Byte.x06] ];
|}.

Definition world0 : World := mkWorld store0 0 [] ∅.

Definition hex_1 : string := "000000000000000000000001".
Definition hex_2 : string := "000000000000000000000002".
Definition hex_9 : string := "000000000000000000000009".

Definition bearer : gmap string string :=
  {[ "Authorization" := "Bearer test" ]}.

Definition request0 : Request := {|
  Header := bearer; Vars := ∅; Body := ""; ParseForm := None;
  FormFiles := ∅; FormValues := ∅;
|}.

Definition with_Vars (vars : gmap string string) (r : Request) : Request :=
  mkRequest (Header r) vars (Body r) (ParseForm r) (FormFiles r)
    (FormValues r).
Definition with_Body (body : string) (r : Request) : Request :=
  mkRequest (Header r) (Vars r) body (ParseForm r) (FormFiles r)
    (FormValues r).
Definition with_Header (header : gmap string string) (r : Request)
  : Request :=
  mkRequest header (Vars r) (Body r) (ParseForm r) (FormFiles r)
    (FormValues r).
Definition with_upload (bytes : list Byte.byte) (body : string) (r : Request)
  : Request :=
  mkRequest (Header r) (Vars r) (Body r) (ParseForm r)
    {[ "input" := mkFormPart bytes None ]} {[ "body" := body ]}.

End Examples.

(** * What the properties are stated with *)
Module Statements.
Import Http.

(** The one request [ValidateToken] sends to the login service. *)
Definition login_url (e : Service.ExternalHandler) : string :=
  "http://" +:+ Service.LoginServiceURL e +:+ "/token".

Definition login_request (e : Service.ExternalHandler) (token : string)
  : Service.HttpRequest :=
  Service.mkHttpRequest "POST" (login_url e)
    [("Authorization", "Bearer " +:+ token)].

(** The request passes the two checks of [authenticate] with [token]. *)
Definition authorized (ext : Service.ExtHandler) (r : Request)
  (token : string) : Prop :=
  Api.getAuthToken r = Ok token ∧ Service.ext_ValidateToken ext token = None.

(** A token: a text without a space. *)
Fixpoint no_space (s : string) : bool :=
  match s with
  | EmptyString => true
  | String c s' => negb (Ascii.eqb c " ") && no_space s'
  end.

(** None of the driver calls listed fails in this run. *)
Definition succeed (E : Env) (cs : list StoreCall) : Prop :=
  Forall (λ c, faults E c = None) cs.

(** The state a handler leaves behind, and its parts. *)
Definition final (h : H unit) (W : World) : HState := (serve h W).2.
Definition status (h : H unit) (W : World) : option Z := Code (w (final h W)).
Definition store_after (h : H unit) (W : World) : Store :=
  db (world (final h W)).

(** The test of the loop over the formats. *)
Definition is_audio_mp4 (format : Format) : bool :=
  GoStrings.Contains (MimeType format) "audio/mp4".

(** The format the specification names: the first one whose MIME type
contains "audio/mp4", or the one at index 0 when there is none. *)
Definition specified_format (formats : list Format) (format : Format) : Prop :=
  (∃ i, formats !! i = Some format ∧ is_audio_mp4 format = true ∧
        ∀ j f, j < i → formats !! j = Some f → is_audio_mp4 f = false)
  ∨ ((∀ f, f ∈ formats → is_audio_mp4 f = false) ∧
     formats !! 0 = Some format).

(** A partial update as the specification words it: a field that is not
empty in the request replaces the stored one, an empty one leaves it as it
is, and the audio reference stays. *)
Definition only_non_empty_overwrite (sent : Track) (stored now : TrackDoc)
  : Prop :=
  doc_name now
    = (if String.eqb (Name sent) "" then doc_name stored else Name sent) ∧
  doc_artist now
    = (if String.eqb (Artist sent) "" then doc_artist stored
       else Artist sent) ∧
  doc_album now
    = (if String.eqb (AlbumName sent) "" then doc_album stored
       else AlbumName sent) ∧
  doc_audioFile now = doc_audioFile stored.

(** The update of the authenticated handler: an empty field of the request
is replaced by its default before the storage client sees it. *)
Definition defaults_overwrite (sent : Track) (stored now : TrackDoc) : Prop :=
  doc_name now
    = (if String.eqb (Name sent) "" then "Unknown" else Name sent) ∧
  doc_artist now
    = (if String.eqb (Artist sent) "" then "Unknown Artist"
       else Artist sent) ∧
  doc_album now
    = (if String.eqb (AlbumName sent) "" then "Unknown Album"
       else AlbumName sent) ∧
  doc_audioFile now = doc_audioFile stored.

(** The document of a track created from the fields [sent], with the audio
file [fid]. *)
Definition created_from (sent : Track) (fid : ObjectID) : TrackDoc :=
  mkTrackDoc
    (if String.eqb (Name sent) "" then "Unknown" else Name sent)
    (if String.eqb (Artist sent) "" then "Unknown Artist" else Artist sent)
    (if String.eqb (AlbumName sent) "" then "Unknown Album"
     else AlbumName sent)
    fid.

(** The fields an upload goes on with, whatever [json.Unmarshal] said. *)
Definition decoded_track (d : Decoded) : Track :=
  match d with
  | Decodes t => t
  | SyntaxError _ => zeroTrack
  | TypeError _ t => t
  end.

(** The store after the upload of [bytes] as the file [fid] and the
insertion of the track [tid] made from the fields [sent]. *)
Definition uploaded (E : Env) (tid fid : ObjectID) (sent : Track)
  (bytes : list Byte.byte) (before after : Store) : Prop :=
  songs after = <[tid := created_from sent fid]> (songs before) ∧
  playlists after = playlists before ∧
  fs_files after
  = <[fid := mkFileDoc (length bytes) (doc_name (created_from sent fid))]>
      (fs_files before) ∧
  fs_chunks after
  = fs_chunks before ++ make_chunks fid (ChunkSizeBytes E) bytes.

(** The answers of [uploadTrack] to what [json.Unmarshal] said. *)
Definition upload_status (d : Decoded) : Z :=
  match d with
  | Decodes _ => 200
  | SyntaxError _ | TypeError _ _ => 400
  end.

Definition upload_written (d : Decoded) : list BodyItem :=
  match d with
  | Decodes _ => []
  | SyntaxError err | TypeError err _ =>
      if String.eqb (Error err) "" then [] else [ErrorJSON (Error err)]
  end ++ [ValueJSON (PString "Track added successfully")].

(** A step of a handler that calls none of its collaborators. *)
Definition quiet {A} (m : H A) : Prop := ∀ s, calls (m s).2 = calls s.

(** What the handler [h] leaves of an upload of [bytes] it answered with
400 for the syntax error [err]: the error and then the message of success
are written, the file and a track with the three defaults are stored under
the next two ids, and the store has changed. *)
Definition stored_despite_400 (E : Env) (err : error)
  (bytes : list Byte.byte) (W : World) (h : H unit) : Prop :=
  let tid := ObjectID_at E (oidCounter W) in
  let fid := ObjectID_at E (S (oidCounter W)) in
  status h W = Some 400%Z ∧
  Written (w (final h W)) = upload_written (SyntaxError err) ∧
  uploaded E tid fid zeroTrack bytes (db W) (store_after h W) ∧
  songs (store_after h W) !! tid
  = Some (mkTrackDoc "Unknown" "Unknown Artist" "Unknown Album" fid) ∧
  store_after h W ≠ db W.

(** No playlist refers to the track, no file document and no chunk is left
of the audio file. *)
Definition cascaded (tid fid : ObjectID) (s : Store) : Prop :=
  songs s !! tid = None ∧
  (∀ pid p, playlists s !! pid = Some p → tid ∉ doc_tracks p) ∧
  fs_files s !! fid = None ∧
  (∀ c, c ∈ fs_chunks s → files_id c ≠ fid).

(** What [DeleteTrack] does up to its last call, when the track is stored
and the first four calls succeed. *)
Definition after_delete (id : ObjectID) (d : TrackDoc) (s : Store) : Store :=
  set_fs_chunks
    (List.filter (λ c, negb (N.eqb (files_id c) (doc_audioFile d))))
    (set_fs_files (λ c, (DeleteOneByID (doc_audioFile d) c).2)
       (set_songs (delete id) s)).

End Statements.

(** * The rest of the api package *)

(** ** encoding/base64, as encoding/json applies it to a [[]byte] *)
Module Base64.

(** The character of a six-bit value in the standard alphabet. *)
Definition digit (n : N) : ascii :=
  if (n <? 26)%N then ascii_of_N (65 + n)
  else if (n <? 52)%N then ascii_of_N (97 + (n - 26))
  else if (n <? 62)%N then ascii_of_N (48 + (n - 52))
  else if (n =? 62)%N then "+"%char
  else "/"%char.

Definition quad (a b c : N) (pad : nat) : string :=
  let d0 := digit (a / 4) in
  let d1 := digit ((a mod 4) * 16 + b / 16) in
  let d2 := digit ((b mod 16) * 4 + c / 64) in
  let d3 := digit (c mod 64) in
  match pad with
  | 0 => String d0 (String d1 (String d2 (String d3 "")))
  | 1 => String d0 (String d1 (String d2 "="))
  | _ => String d0 (String d1 "==")
  end.

(** [base64.StdEncoding.EncodeToString] *)
Fixpoint EncodeToString (bs : list Byte.byte) : string :=
  match bs with
  | [] => ""
  | [a] => quad (Byte.to_N a) 0 0 2
  | [a; b] => quad (Byte.to_N a) (Byte.to_N b) 0 1
  | a :: b :: c :: rest =>
      quad (Byte.to_N a) (Byte.to_N b) (Byte.to_N c) 0
      +:+ EncodeToString rest
  end.

End Base64.

Module Handlers.
Import Http.

(** [models.UploadRequest], by the fields [uploadAudioBytes] reads. *)
Record UploadRequest := mkUploadRequest {
  Upload_YoutubeRequest : YoutubeRequest;
  AudioBytes : list Byte.byte;
}.

(** What the process is started with, besides [Env]: the outcome of
[mongo.Connect], the environment variable LOGIN_URL, [http.DefaultClient],
the video client, and encoding/json on the two request bodies [Env] does
not know. *)
Record Process := mkProcess {
  mongo_Connect : option error;
  LOGIN_URL : string;
  DefaultClient : Service.HttpRequest → result Service.HttpResponse;
  youtube_Client : YoutubeClient;
  json_Decode_Playlist : string → result Playlist;
  json_Decode_UploadRequest : string → result UploadRequest;
}.

(** A request with the query of its URL, as [r.URL.Query()] gives it: the
values of each key, in the order they were sent. *)
Record Incoming := mkIncoming {
  request :> Request;
  URL_Query : gmap string (list string);
}.

(** [for key, val := range query { filters[key] = val[0] }] *)
Fixpoint query_filters (query : list (string * list string)) : H Filter :=
  match query with
  | [] => mret []
  | (key, val) :: rest =>
      val0 ← index val 0;
      filters ← query_filters rest;
      mret ((key, VString val0) :: filters)
  end.

(** [respondWithSuccessBytes]: the bytes go out as a JSON string, in
base64. ([ioutil.ReadFile] gives no nil slice without an error, so the
branch for a nil body is not taken.) *)
Definition respondWithSuccessBytes (code : Z) (body : list Byte.byte)
  : H unit :=
  on_w (WriteHeader code) ;;
  on_w (Write (ValueJSON (PString (Base64.EncodeToString body)))).

Definition getVideo (E : Env) (ext : Service.ExtHandler)
  (client : YoutubeClient) (r : Request) : H unit :=
  Api.authenticate ext r ;;
  ytRequest ← check (json_Decode_YoutubeRequest E (Body r)) (λ err,
    logrus_Error "Error decoding request into JSON" ;;
    respondWithError StatusBadRequest (Error err));
  afterV ← index (GoStrings.Split (YoutubeLink ytRequest) "v=") 1;
  videoId ← index (GoStrings.Split afterV "&") 0;
  video ← call_GetVideo client videoId;
  video ← check video (λ err,
    logrus_Error "Error getting video" ;;
    respondWithError StatusInternalServerError (Error err));
  respondWithSuccess StatusOK (PVideo video).

Definition convertStreamToAudio (E : Env) (ext : Service.ExtHandler)
  (r : Request) : H unit :=
  Api.authenticate ext r ;;
  ffmpeg ← dao (Os.LookPath E);
  check ffmpeg (λ err,
    logrus_Error "Error locating ffmpeg" ;;
    respondWithError StatusInternalServerError (Error err)) ;;
  err ← dao (Os.Run E);
  check_err err (λ err,
    logrus_Error "Error executing ffmpeg command" ;;
    respondWithError StatusInternalServerError (Error err)) ;;
  audioBytes ← dao (Os.ReadFile E "video.mp3");
  audioBytes ← check audioBytes (λ err,
    logrus_Error "Error reading file" ;;
    respondWithError StatusInternalServerError (Error err));
  err ← dao (Os.Remove E OsRemoveVideo "video.mp4");
  (if err is Some _ then logrus_Error "Error deleting video file"
   else mret ()) ;;
  err ← dao (Os.Remove E OsRemoveAudio "video.mp3");
  (if err is Some _ then logrus_Error "Error deleting audio file"
   else mret ()) ;;
  respondWithSuccessBytes StatusOK audioBytes.

Definition uploadAudioBytes (E : Env) (P : Process)
  (ext : Service.ExtHandler) (r : Request) : H unit :=
  Api.authenticate ext r ;;
  uploadRequest ← check (json_Decode_UploadRequest P (Body r)) (λ err,
    logrus_Error "Error decoding request body" ;;
    respondWithError StatusBadRequest "Error decoding request body");
  id ← dao (NewObjectID E);
  let track :=
    mkTrack id (Request_Name (Upload_YoutubeRequest uploadRequest))
      (Request_Artist (Upload_YoutubeRequest uploadRequest))
      (Request_AlbumName (Upload_YoutubeRequest uploadRequest))
      NilObjectID in
  let track := Api.with_defaults track in
  audioID ← dao (Dao.UploadAudioFile E (AudioBytes uploadRequest)
                   (Name track));
  audioID ← check audioID (λ err,
    logrus_Error "Error adding track to database" ;;
    respondWithError StatusInternalServerError (Error err));
  audioFileID ← match audioID with
                | AnyObjectID oid => mret oid
                | AnyOther =>
                    logrus_Error
                      "Did not receive valid audioFileID from upload stream" ;;
                    (* [err.Error()] on the nil [err] of the upload *)
                    panic "runtime error: nil pointer dereference"
                end;
  let track := Api.set_AudioFileID audioFileID track in
  err ← dao (Dao.AddTrack E track);
  check_err err (λ err,
    logrus_Error "Error adding track to database" ;;
    respondWithError StatusInternalServerError (Error err)) ;;
  respondWithSuccess StatusOK (PString "Track added successfully") ;;
  Return.

Definition getTracks (E : Env) (ext : Service.ExtHandler) (r : Incoming)
  : H unit :=
  Api.authenticate ext r ;;
  check_err (ParseForm r) (λ err,
    logrus_Error "Error parsing request form" ;;
    respondWithError StatusBadRequest (Error err)) ;;
  filters ← query_filters (map_to_list (URL_Query r));
  trackList ← dao (Dao.GetTracks E filters);
  trackList ← check trackList (λ err,
    logrus_Error "Error retrieving tracks" ;;
    respondWithError StatusInternalServerError (Error err));
  respondWithSuccess StatusOK (PTracks trackList) ;;
  Return.

Definition addPlaylist (E : Env) (P : Process) (ext : Service.ExtHandler)
  (r : Request) : H unit :=
  Api.authenticate ext r ;;
  playlist ← check (json_Decode_Playlist P (Body r)) (λ err,
    logrus_Error "Error decoding request body" ;;
    respondWithError StatusBadRequest (Error err));
  id ← dao (NewObjectID E);
  let playlist := mkPlaylist id (Playlist_Name playlist) (Tracks playlist) in
  err ← dao (Dao.AddPlaylist E playlist);
  check_err err (λ err,
    logrus_Error "Error creating playlist" ;;
    respondWithError StatusInternalServerError (Error err)) ;;
  respondWithSuccess StatusOK (PString "Playlist created successfully") ;;
  Return.

Definition getPlaylists (E : Env) (ext : Service.ExtHandler) (r : Incoming)
  : H unit :=
  Api.authenticate ext r ;;
  check_err (ParseForm r) (λ err,
    logrus_Error "Error parsing request form" ;;
    respondWithError StatusBadRequest (Error err)) ;;
  filters ← query_filters (map_to_list (URL_Query r));
  playlists ← dao (Dao.GetPlaylists E filters);
  playlists ← check playlists (λ err,
    logrus_Error "Error retrieving tracks" ;;
    respondWithError StatusInternalServerError (Error err));
  respondWithSuccess StatusOK (PPlaylists playlists) ;;
  Return.

(** A route of the router: path, method and handler. *)
Record Route := mkRoute {
  route_path : string;
  route_method : string;
  route_handler : Incoming → H unit;
}.

(** [route]: the database client is created, the collaborators are built,
and the handlers are registered in this order. *)
Definition route (E : Env) (P : Process) (W : World)
  : result (list Route) * World :=
  match mongo_Connect P with
  | Some err => (Err err, logError "Error creating database client" W)
  | None =>
      let client := youtube_Client P in
      let extHandler :=
        Service.ExternalHandler_ExtHandler E
          (Service.mkExternalHandler (DefaultClient P) (LOGIN_URL P)) in
      (Ok [
         mkRoute "/health" "GET" (λ _, Api.checkHealth E);
         mkRoute "/track" "POST" (λ r, Api.uploadTrack E extHandler r);
         mkRoute "/track/{id}" "GET" (λ r, Api.getTrackAudio E extHandler r);
         mkRoute "/track/{id}" "PUT" (λ r, Api.updateTrack E extHandler r);
         mkRoute "/track/{id}" "DELETE"
           (λ r, Api.deleteTrack E extHandler r);
         mkRoute "/tracks" "GET" (getTracks E extHandler);
         mkRoute "/video" "POST" (λ r, getVideo E extHandler client r);
         mkRoute "/stream" "POST"
           (λ r, Api.getStream E extHandler client r);
         mkRoute "/convert" "POST"
           (λ r, convertStreamToAudio E extHandler r);
         mkRoute "/upload" "POST" (λ r, uploadAudioBytes E P extHandler r);
         mkRoute "/playlist" "POST" (λ r, addPlaylist E P extHandler r);
         mkRoute "/playlist/{playlistid}/track/{trackid}" "POST"
           (λ r, Api.addTrackToPlaylist E extHandler r);
         mkRoute "/playlist/{playlistid}/track/{trackid}" "DELETE"
           (λ r, Api.removeTrackFromPlaylist E extHandler r);
         mkRoute "/playlist/{id}" "DELETE"
           (λ r, Api.deletePlaylist E extHandler r);
         mkRoute "/playlists" "GET" (getPlaylists E extHandler);
         mkRoute "/youtube/track" "POST"
           (λ r, Api.uploadTrackFromYoutubeLink E client extHandler r)
       ], W)
  end.

End Handlers.

(** * What the further properties are stated with *)
Module MoreExamples.
Import Http Handlers Examples.

(** A process whose login service accepts every token, and one whose login
service answers 418. *)
Definition process0 : Process := {|
  mongo_Connect := None;
  LOGIN_URL := "login:8080";
  DefaultClient := λ _, Ok (Service.mkHttpResponse 200);
  youtube_Client := client0;
  json_Decode_Playlist := λ body,
    if String.eqb body "mix" then Ok (mkPlaylist 5%N "Road" [1%N; 9%N])
    else Err "unexpected end of JSON input";
  json_Decode_UploadRequest := λ body,
    if String.eqb body "upload"
    then Ok (mkUploadRequest (mkYoutubeRequest "" "Tune" "" "")
               [Byte.x01; Byte.x02; Byte.x03; Byte.x04; Byte.x05])
    else Err "unexpected end of JSON input";
|}.

Definition process_teapot : Process := {|
  mongo_Connect := None;
  LOGIN_URL := "login:8080";
  DefaultClient := λ _, Ok (Service.mkHttpResponse 418);
  youtube_Client := client0;
  json_Decode_Playlist := json_Decode_Playlist process0;
  json_Decode_UploadRequest := json_Decode_UploadRequest process0;
|}.

Definition incoming (r : Request) : Incoming := mkIncoming r ∅.

(** A request without an Authorization header. *)
Definition anonymous : Request := with_Header ∅ request0.

(** An environment whose request body names a short link, which has no
"v=" in it. *)
Definition env_short_link : Env := {|
  faults := faults env0;
  os_faults := os_faults env0;
  ObjectID_at := ObjectID_at env0;
  ChunkSizeBytes := ChunkSizeBytes env0;
  json_Unmarshal := json_Unmarshal env0;
  json_Decode := json_Decode env0;
  json_Decode_Video := json_Decode_Video env0;
  json_Decode_YoutubeRequest := λ _,
    Ok (mkYoutubeRequest "https://youtu.be/abc" "" "" "");
  http_NewRequest := http_NewRequest env0;
  ffmpeg := ffmpeg env0;
|}.


(** A listing request for the playlists named "Road". *)
Definition by_name : Incoming :=
  mkIncoming request0 {[ "name" := ["Road"] ]}.

End MoreExamples.

Module MoreStatements.
Import Http Handlers Statements.

(** The validator [route] builds from the process. *)
Definition route_validator (E : Env) (P : Process) : Service.ExtHandler :=
  Service.ExternalHandler_ExtHandler E
    (Service.mkExternalHandler (DefaultClient P) (LOGIN_URL P)).

(** The handler returns with the status [code] after the calls [made], and
has changed neither the database nor the files, nor drawn an id. *)
Definition answers_unchanged (code : Z) (made : list Call) (h : H unit)
  (W : World) : Prop :=
  ∃ s, serve h W = (Returned, s) ∧
       Code (w s) = Some code ∧
       calls s = made ∧
       db (world s) = db W ∧
       files (world s) = files W ∧
       oidCounter (world s) = oidCounter W.

(** The route variable [key] of the request is no object id. *)
Definition bad_id (r : Request) (key : string) : Prop :=
  ∃ err, ObjectIDFromHex (mux_Vars r key) = Err err.

(** The handler returns after the calls [made] with the status [code] and
the one error [message], and the database is as it was. *)
Definition fails_with (code : Z) (message : string) (made : list Call)
  (h : H unit) (W : World) : Prop :=
  ∃ s, serve h W = (Returned, s) ∧
       w s = mkResponseWriter (Some code) [ErrorJSON message] ∧
       calls s = made ∧
       db (world s) = db W.

(** A step that leaves a part of the world, [view], as it is. *)
Definition preserves {X A} (view : World → X) (m : H A) : Prop :=
  ∀ s, view (world (m s).2) = view (world s).

(** The views that do not look at the log. *)
Class LogBlind {X} (view : World → X) : Prop :=
  log_blind : ∀ msg V, view (logError msg V) = view V.

(** All of the database but the playlists. *)
Definition tracks_and_audio (W : World)
  : gmap ObjectID TrackDoc * gmap ObjectID FileDoc * list Chunk :=
  (songs (db W), fs_files (db W), fs_chunks (db W)).

Definition playlists_of (W : World) : gmap ObjectID PlaylistDoc :=
  playlists (db W).


(** The track is stored, as it is. *)
Definition stored (t : Track) (W : World) : Prop :=
  songs (db W) !! ID t = Some (track_doc t).

(** What follows the id of the video in a link: nothing, or "&" and
further parameters. *)
Definition link_tail (tail : string) : Prop :=
  tail = "" ∨ ∃ t, tail = "&" +:+ t.

(** The fields of a track a video request names. *)
Definition requested (ytRequest : YoutubeRequest) : Track :=
  mkTrack NilObjectID (Request_Name ytRequest) (Request_Artist ytRequest)
    (Request_AlbumName ytRequest) NilObjectID.

End MoreStatements.

(** * Properties *)
Import Http Statements.

(** ** Strings *)

Lemma prefix_refl (s : string) : String.prefix s s = true.
Proof.
  induction s as [|c s IH]; simpl; [reflexivity|].
  destruct (ascii_dec c c); [exact IH | congruence].
Qed.

Lemma Contains_self (s : string) : GoStrings.Contains s s = true.
Proof.
  destruct s as [|c s]; simpl; [reflexivity|]. rewrite prefix_refl.
  destruct (ascii_dec c c); [reflexivity | congruence].
Qed.

Lemma Contains_append (p s : string) : GoStrings.Contains (p +:+ s) s = true.
Proof.
  induction p as [|c p IH]; simpl.
  - apply Contains_self.
  - rewrite IH. apply orb_true_r.
Qed.

(** ** The token validator *)

Lemma ValidateToken_sent (E : Env) (e : Service.ExternalHandler)
  (token : string) :
  Service.LoginServiceURL e ≠ "" →
  http_NewRequest E "POST" (login_url e) = None →
  Service.ValidateToken E e token =
    match Service.HttpClient e (login_request e token) with
    | Err err => Some err
    | Ok resp =>
        if negb (Z.eqb (Service.StatusCode resp) Service.StatusOK)
        then Some (errors_New
                     ("non-200 status code received: "
                      +:+ GoStrings.Sprint_int (Service.StatusCode resp)))
        else None
    end.
Proof.
  intros Hurl Hreq. unfold Service.ValidateToken.
  destruct (String.eqb_spec (Service.LoginServiceURL e) "");
    [contradiction|].
  fold (login_url e). rewrite Hreq. reflexivity.
Qed.

Lemma ValidateToken_not_sent (E : Env) (e : Service.ExternalHandler)
  (token : string) :
  Service.LoginServiceURL e = "" ∨
  http_NewRequest E "POST" (login_url e) ≠ None →
  Service.ValidateToken E e token ≠ None.
Proof.
  unfold Service.ValidateToken. intros [Hurl | Hreq].
  - rewrite Hurl. simpl. discriminate.
  - destruct (String.eqb (Service.LoginServiceURL e) ""); [discriminate|].
    fold (login_url e).
    destruct (http_NewRequest E "POST" (login_url e));
      [discriminate | contradiction].
Qed.

(** C5. [ValidateToken] succeeds exactly when the login service answers
the request with status 200; an answer with another status gives an error
whose text contains that status code, and a transport error is returned as
it is. (When the URL is not configured or no request can be built, nothing
is sent and the call fails.) *)
Theorem ValidateToken_success_iff_200 (E : Env)
  (e : Service.ExternalHandler) (token : string) :
  (Service.ValidateToken E e token = None ↔
     Service.LoginServiceURL e ≠ "" ∧
     http_NewRequest E "POST" (login_url e) = None ∧
     ∃ resp, Service.HttpClient e (login_request e token) = Ok resp ∧
             Service.StatusCode resp = 200%Z) ∧
  (∀ resp,
     Service.LoginServiceURL e ≠ "" →
     http_NewRequest E "POST" (login_url e) = None →
     Service.HttpClient e (login_request e token) = Ok resp →
     Service.StatusCode resp ≠ 200%Z →
     ∃ err, Service.ValidateToken E e token = Some err ∧
            GoStrings.Contains (Error err)
              (GoStrings.Sprint_int (Service.StatusCode resp)) = true) ∧
  (∀ err,
     Service.LoginServiceURL e ≠ "" →
     http_NewRequest E "POST" (login_url e) = None →
     Service.HttpClient e (login_request e token) = Err err →
     Service.ValidateToken E e token = Some err).
Proof.
  split; [split | split].
  - intros Hnone.
    destruct (decide (Service.LoginServiceURL e = "")) as [Hurl | Hurl].
    { exfalso. eapply ValidateToken_not_sent; eauto. }
    destruct (http_NewRequest E "POST" (login_url e)) as [err|] eqn:Hreq.
    { exfalso. eapply (ValidateToken_not_sent E e token); [|exact Hnone].
      right. rewrite Hreq. discriminate. }
    rewrite (ValidateToken_sent E e token Hurl Hreq) in Hnone.
    repeat split; [exact Hurl|].
    destruct (Service.HttpClient e (login_request e token)) as [resp|err];
      [|discriminate].
    exists resp. split; [reflexivity|].
    destruct (Z.eqb_spec (Service.StatusCode resp) Service.StatusOK) as [Hc|Hc];
      [exact Hc | discriminate].
  - intros (Hurl & Hreq & resp & Hdo & Hcode).
    rewrite (ValidateToken_sent E e token Hurl Hreq), Hdo, Hcode.
    reflexivity.
  - intros resp Hurl Hreq Hdo Hcode.
    rewrite (ValidateToken_sent E e token Hurl Hreq), Hdo.
    destruct (Z.eqb_spec (Service.StatusCode resp) Service.StatusOK) as [Hc|Hc];
      [contradiction|]. simpl.
    eexists. split; [reflexivity|]. apply Contains_append.
  - intros err Hurl Hreq Hdo.
    rewrite (ValidateToken_sent E e token Hurl Hreq), Hdo. reflexivity.
Qed.

Lemma ValidateToken_success_iff_200_witness :
  Service.ValidateToken Examples.env0 Examples.login_ok "test" = None ∧
  ∃ err,
    Service.ValidateToken Examples.env0 Examples.login_teapot "test"
    = Some err ∧
    GoStrings.Contains (Error err) "418" = true.
Proof.
  split.
  - apply (proj1 (ValidateToken_success_iff_200 Examples.env0
                    Examples.login_ok "test")).
    split; [discriminate|]. split; [reflexivity|].
    exists (Service.mkHttpResponse 200). split; reflexivity.
  - apply (proj1 (proj2 (ValidateToken_success_iff_200 Examples.env0
                           Examples.login_teapot "test"))
             (Service.mkHttpResponse 418)).
    + discriminate.
    + reflexivity.
    + reflexivity.
    + discriminate.
Defined.

(** ** Stepping through a handler *)

Lemma bind_Next {A B} (m : H A) (k : A → H B) (s s' : HState) (a : A) :
  m s = (Next a, s') → (m ≫= k) s = k a s'.
Proof. intros Hm. unfold mbind, H_bind. rewrite Hm. reflexivity. Qed.

Lemma bind_Returned {A B} (m : H A) (k : A → H B) (s s' : HState) :
  m s = (Returned, s') → (m ≫= k) s = (Returned, s').
Proof. intros Hm. unfold mbind, H_bind. rewrite Hm. reflexivity. Qed.

Lemma authenticate_ok (ext : Service.ExtHandler) (r : Request)
  (token : string) (s : HState) :
  authorized ext r token →
  Api.authenticate ext r s =
    (Next (), mkHState (world s) (w s) (calls s ++ [CallValidateToken token])).
Proof.
  intros [Htok Hval]. unfold Api.authenticate.
  rewrite Htok. unfold mbind, H_bind, check, mret, H_ret, ValidateToken.
  rewrite Hval. reflexivity.
Qed.

(** A header that [getAuthToken] refuses is answered with 400, and the
validator is not called. *)
Lemma authenticate_refused (ext : Service.ExtHandler) (r : Request)
  (err : error) (W : World) :
  Api.getAuthToken r = Err err →
  ∃ s, Api.authenticate ext r (start W) = (Returned, s) ∧
       Code (w s) = Some StatusBadRequest ∧ calls s = [].
Proof.
  intros Htok. unfold Api.authenticate. rewrite Htok.
  unfold check, respondWithError, mbind, H_bind, logrus_Error, on_w, Return.
  simpl. destruct (String.eqb (Error err) ""); simpl; eauto.
Qed.

Ltac step :=
  erewrite bind_Next;
  [| first [ apply authenticate_ok; eassumption | reflexivity ] ].

(** The handlers unfolded down to their steps. *)
Ltac handler_steps :=
  unfold serve, Api.authenticate, check, check_err, respondWithError,
    respondWithSuccess, ValidateToken, logrus_Error, on_w, Return, dao,
    FormFile, mbind, H_bind, mret, H_ret.

(** The case analysis of a run [Hrun : h s = (flow, s')], one scrutinee at
a time, innermost first. *)
Ltac has_match e :=
  match e with context [match _ with _ => _ end] => idtac end.

Ltac cases_of Hrun :=
  repeat (match type of Hrun with
          | context [match ?scrutinee with _ => _ end] =>
              tryif has_match scrutinee then fail
              else destruct scrutinee eqn:?
          end; cbn in Hrun).

(** ** The storage client on a working store *)

Lemma filter_none {A} (f : A → bool) (l : list A) :
  Forall (λ x, f x = false) l → List.filter f l = [].
Proof.
  induction 1 as [|x l Hx _ IH]; [reflexivity|].
  cbn [List.filter]. rewrite Hx. exact IH.
Qed.

Lemma succeed_cons (E : Env) (c : StoreCall) (cs : list StoreCall) :
  succeed E (c :: cs) → faults E c = None ∧ succeed E cs.
Proof. intros Hs. inversion Hs; subst. split; assumption. Qed.

Ltac working :=
  repeat match goal with
  | Hs : succeed _ (_ :: _) |- _ =>
      apply succeed_cons in Hs; destruct Hs as [? Hs]
  | Hs : succeed _ [] |- _ => clear Hs
  end.

Lemma GetTracks_succeeds (E : Env) (f : Filter) (W : World) :
  succeed E [TrackFind; TrackCursorAll] →
  Dao.GetTracks E f W
  = (Ok (decode_track <$> Find match_track f (songs (db W))), W).
Proof.
  intros Hs. working. unfold Dao.GetTracks.
  repeat match goal with Hc : faults E _ = None |- _ => rewrite Hc; clear Hc end.
  reflexivity.
Qed.

Lemma Find_track_absent (id : ObjectID) (c : gmap ObjectID TrackDoc) :
  c !! id = None → Find match_track [("_id", VObjectID id)] c = [].
Proof.
  intros Hnone. unfold Find. apply filter_none.
  apply Forall_forall. intros [k d] Hin. apply elem_of_map_to_list in Hin.
  unfold match_track. simpl.
  destruct (N.eqb_spec k id) as [->|]; [congruence | reflexivity].
Qed.

Lemma UpdatePlaylist_succeeds (E : Env) (pid : ObjectID) (u : Update)
  (p : PlaylistDoc) (W : World) :
  faults E PlaylistFindOneAndUpdate = None →
  playlists (db W) !! pid = Some p →
  Dao.UpdatePlaylist E pid u W
  = (None, with_db (set_playlists (insert pid (apply_update u p))) W).
Proof.
  intros Hc Hp. unfold Dao.UpdatePlaylist, FindOneByID. rewrite Hc, Hp.
  reflexivity.
Qed.

(** ** C10: the audio of a track that does not exist *)

(** C10. A request for the audio of a track with a well-formed id that no
stored track has: the query succeeds with an empty list, the handler takes
its first element without a check, and the run ends in an out-of-range
panic with nothing written to the response (in the authenticated handler
and in the one of pkg/api alike). *)
Theorem getTrackAudio_index_out_of_range (E : Env)
  (ext : Service.ExtHandler) (r : Request) (token : string) (id : ObjectID)
  (W : World) :
  authorized ext r token →
  ObjectIDFromHex (mux_Vars r "id") = Ok id →
  succeed E [TrackFind; TrackCursorAll] →
  songs (db W) !! id = None →
  serve (Api.getTrackAudio E ext r) W =
    (Panicked "runtime error: index out of range",
     mkHState W (mkResponseWriter None []) [CallValidateToken token]) ∧
  serve (PkgApi.getTrackAudio E r) W =
    (Panicked "runtime error: index out of range", start W).
Proof.
  intros Hauth Hhex Hs Hnone.
  assert (Dao.GetTracks E [("_id", VObjectID id)] W = (Ok [], W)) as Hget.
  { rewrite (GetTracks_succeeds E _ W Hs), (Find_track_absent id _ Hnone).
    reflexivity. }
  split.
  - unfold serve, Api.getTrackAudio. step. rewrite Hhex. step. 
    erewrite bind_Next; [| unfold dao; simpl; rewrite Hget; reflexivity].
    reflexivity.
  - unfold serve, PkgApi.getTrackAudio. rewrite Hhex. step.
    erewrite bind_Next; [| unfold dao; simpl; rewrite Hget; reflexivity].
    reflexivity.
Qed.

Lemma getTrackAudio_index_out_of_range_witness :
  serve (Api.getTrackAudio Examples.env0 Examples.ext_ok
           (Examples.with_Vars {[ "id" := Examples.hex_9 ]}
              Examples.request0)) Examples.world0 =
    (Panicked "runtime error: index out of range",
     mkHState Examples.world0 (mkResponseWriter None [])
       [CallValidateToken "test"]) ∧
  serve (PkgApi.getTrackAudio Examples.env0
           (Examples.with_Vars {[ "id" := Examples.hex_9 ]}
              Examples.request0)) Examples.world0 =
    (Panicked "runtime error: index out of range", start Examples.world0).
Proof.
  apply (getTrackAudio_index_out_of_range Examples.env0 Examples.ext_ok
           _ "test" 9%N Examples.world0).
  - split; reflexivity.
  - reflexivity.
  - repeat constructor.
  - reflexivity.
Defined.

(** ** C1: adding a track that does not exist to a playlist *)

Lemma dao_step {A} (op : World → A * World) (s : HState) (a : A) (W : World) :
  op (world s) = (a, W) → dao op s = (Next a, mkHState W (w s) (calls s)).
Proof. intros Hop. unfold dao. rewrite Hop. reflexivity. Qed.

(** C1 on the code. The track id is well formed and no stored track has
it; the playlist exists and the store works. The query for the track
succeeds with an empty list, which the handler does not look at: it answers
200 and the playlist now ends with the unknown track id (in the
authenticated handler and in the one of pkg/api alike). *)
Theorem addTrackToPlaylist_accepts_unknown_track (E : Env)
  (ext : Service.ExtHandler) (r : Request) (token : string)
  (pid tid : ObjectID) (p : PlaylistDoc) (W : World) :
  authorized ext r token →
  ObjectIDFromHex (mux_Vars r "playlistid") = Ok pid →
  ObjectIDFromHex (mux_Vars r "trackid") = Ok tid →
  succeed E [TrackFind; TrackCursorAll; PlaylistFindOneAndUpdate] →
  songs (db W) !! tid = None →
  playlists (db W) !! pid = Some p →
  (status (Api.addTrackToPlaylist E ext r) W = Some 200%Z ∧
   playlists (store_after (Api.addTrackToPlaylist E ext r) W) !! pid
   = Some (mkPlaylistDoc (doc_pname p) (doc_tracks p ++ [tid]))) ∧
  (status (PkgApi.addTrackToPlaylist E r) W = Some 200%Z ∧
   playlists (store_after (PkgApi.addTrackToPlaylist E r) W) !! pid
   = Some (mkPlaylistDoc (doc_pname p) (doc_tracks p ++ [tid]))).
Proof.
  intros Hauth Hpid Htid Hs Hnone Hp.
  assert (Dao.GetTracks E [("_id", VObjectID tid)] W = (Ok [], W)) as Hget.
  { rewrite GetTracks_succeeds, (Find_track_absent tid _ Hnone);
      [reflexivity|]. working. repeat constructor; assumption. }
  working.
  assert (Hupd := UpdatePlaylist_succeeds E pid (Push tid) p W
                    ltac:(assumption) Hp).
  split.
  - unfold status, store_after, final, serve, Api.addTrackToPlaylist.
    step. rewrite Hpid, Htid. step. step.
    erewrite bind_Next; [| apply dao_step; exact Hget]. step.
    erewrite bind_Next; [| apply dao_step; exact Hupd]. 
    simpl. split; [reflexivity|]. apply lookup_insert_eq.
  - unfold status, store_after, final, serve, PkgApi.addTrackToPlaylist.
    rewrite Hpid, Htid. step. step.
    erewrite bind_Next; [| apply dao_step; exact Hget]. step.
    erewrite bind_Next; [| apply dao_step; exact Hupd]. 
    simpl. split; [reflexivity|]. apply lookup_insert_eq.
Qed.

Lemma addTrackToPlaylist_accepts_unknown_track_witness :
  let r := Examples.with_Vars
             {[ "playlistid" := Examples.hex_2; "trackid" := Examples.hex_9 ]}
             Examples.request0 in
  (status (Api.addTrackToPlaylist Examples.env0 Examples.ext_ok r)
     Examples.world0 = Some 200%Z ∧
   playlists (store_after
                (Api.addTrackToPlaylist Examples.env0 Examples.ext_ok r)
                Examples.world0) !! 2%N
   = Some (mkPlaylistDoc "Mix" [1%N; 9%N])) ∧
  (status (PkgApi.addTrackToPlaylist Examples.env0 r) Examples.world0
   = Some 200%Z ∧
   playlists (store_after (PkgApi.addTrackToPlaylist Examples.env0 r)
                Examples.world0) !! 2%N
   = Some (mkPlaylistDoc "Mix" [1%N; 9%N])).
Proof.
  apply (addTrackToPlaylist_accepts_unknown_track Examples.env0
           Examples.ext_ok _ "test" 2%N 9%N (mkPlaylistDoc "Mix" [1%N])
           Examples.world0).
  - split; reflexivity.
  - reflexivity.
  - reflexivity.
  - repeat constructor.
  - reflexivity.
  - reflexivity.
Defined.

(** ** C7: the Authorization header *)

Lemma getAuthToken_missing (r : Request) :
  Header_Get r "Authorization" = "" →
  Api.getAuthToken r = Err (errors_New "no authorization header found").
Proof. intros Hh. unfold Api.getAuthToken. rewrite Hh. reflexivity. Qed.

(** A header of seven bytes or more is accepted only when it starts with
"Bearer ". *)
Lemma getAuthToken_long_not_Bearer (r : Request) :
  (7 <= String.length (Header_Get r "Authorization"))%nat →
  GoStrings.slice_to (Header_Get r "Authorization") 7 ≠ "Bearer " →
  ∃ err, Api.getAuthToken r = Err err.
Proof.
  intros Hlen Hpre. unfold Api.getAuthToken.
  destruct (String.eqb (Header_Get r "Authorization") ""); [eauto|].
  apply Nat.leb_le in Hlen. rewrite Hlen.
  destruct (String.eqb_spec
              (GoStrings.slice_to (Header_Get r "Authorization") 7) "Bearer ");
    [contradiction|]. simpl. eauto.
Qed.

(** A header shorter than seven bytes is not compared with "Bearer " at
all: two pieces around one space are enough, and the second is taken as
the token. *)
Lemma getAuthToken_short (r : Request) (scheme token : string) :
  Header_Get r "Authorization" ≠ "" →
  (String.length (Header_Get r "Authorization") < 7)%nat →
  GoStrings.Split (Header_Get r "Authorization") " " = [scheme; token] →
  Api.getAuthToken r = Ok token.
Proof.
  intros Hne Hlen Hsplit. unfold Api.getAuthToken.
  destruct (String.eqb_spec (Header_Get r "Authorization") "");
    [contradiction|].
  destruct (Nat.leb_spec 7 (String.length (Header_Get r "Authorization")));
    [lia|].
  rewrite Hsplit. reflexivity.
Qed.

Lemma append_cons (c : ascii) (s s' : string) :
  String c s +:+ s' = String c (s +:+ s').
Proof. reflexivity. Qed.

Lemma append_empty (s : string) : s +:+ "" = s.
Proof.
  induction s as [|c s IH]; [reflexivity|]. rewrite append_cons, IH.
  reflexivity.
Qed.

Lemma append_String (s : string) (c : ascii) (s' : string) :
  (s +:+ String c "") +:+ s' = s +:+ String c s'.
Proof.
  induction s as [|c0 s IH]; [reflexivity|]. rewrite !append_cons, IH.
  reflexivity.
Qed.

Lemma split_scan_no_space (s cur : string) :
  no_space s = true → GoStrings.split_scan " " 0 cur s = [cur +:+ s].
Proof.
  revert cur. induction s as [|c s IH]; intros cur Hs.
  - cbn [GoStrings.split_scan]. rewrite append_empty. reflexivity.
  - cbn [no_space] in Hs. apply andb_true_iff in Hs as [Hc Hs].
    apply negb_true_iff, Ascii.eqb_neq in Hc.
    cbn [GoStrings.split_scan String.prefix].
    destruct (ascii_dec " " c) as [Heq|_]; [congruence|].
    rewrite (IH _ Hs), append_String. reflexivity.
Qed.

Lemma split_scan_word (word rest cur : string) :
  no_space word = true →
  GoStrings.split_scan " " 0 cur (word +:+ String " " rest)
  = (cur +:+ word) :: GoStrings.split_scan " " 0 "" rest.
Proof.
  revert cur. induction word as [|c word IH]; intros cur Hword.
  - rewrite append_empty.
    change ("" +:+ String " " rest) with (String " " rest).
    cbn [GoStrings.split_scan String.prefix String.length Nat.sub].
    destruct (ascii_dec " " " ") as [_|Hne]; [|congruence].
    destruct rest; reflexivity.
  - cbn [no_space] in Hword. apply andb_true_iff in Hword as [Hc Hword].
    apply negb_true_iff, Ascii.eqb_neq in Hc.
    rewrite append_cons. cbn [GoStrings.split_scan String.prefix].
    destruct (ascii_dec " " c) as [Heq|_]; [congruence|].
    rewrite (IH _ Hword), append_String. reflexivity.
Qed.

Lemma Split_Bearer (token : string) :
  no_space token = true →
  GoStrings.Split ("Bearer " +:+ token) " " = ["Bearer"; token].
Proof.
  intros Htoken. unfold GoStrings.Split.
  change ("Bearer " +:+ token) with ("Bearer" +:+ String " " token).
  rewrite split_scan_word by reflexivity.
  rewrite (split_scan_no_space token "" Htoken). reflexivity.
Qed.

(** The headers the specification asks for are accepted: "Bearer ", then a
token without a space, gives the token. *)
Lemma getAuthToken_Bearer (r : Request) (token : string) :
  Header_Get r "Authorization" = "Bearer " +:+ token →
  no_space token = true →
  Api.getAuthToken r = Ok token.
Proof.
  intros Hh Htoken. unfold Api.getAuthToken.
  rewrite Hh, (Split_Bearer token Htoken). destruct token; reflexivity.
Qed.

(** C7 on the code. A header shorter than seven bytes that one space cuts
in two is accepted whatever stands before the space: the second piece is
taken for the token and handed to the validator; no 400 is written. *)
Theorem short_header_reaches_validator (ext : Service.ExtHandler)
  (r : Request) (scheme token : string) (s : HState) :
  Header_Get r "Authorization" ≠ "" →
  (String.length (Header_Get r "Authorization") < 7)%nat →
  GoStrings.Split (Header_Get r "Authorization") " " = [scheme; token] →
  Api.getAuthToken r = Ok token ∧
  calls (Api.authenticate ext r s).2 = calls s ++ [CallValidateToken token] ∧
  (Service.ext_ValidateToken ext token = None →
   Api.authenticate ext r s =
     (Next (),
      mkHState (world s) (w s) (calls s ++ [CallValidateToken token]))).
Proof.
  intros Hne Hlen Hsplit.
  assert (Htok := getAuthToken_short r scheme token Hne Hlen Hsplit).
  split; [exact Htok|]. split.
  - unfold Api.authenticate. rewrite Htok. handler_steps. cbn.
    destruct (Service.ext_ValidateToken ext token); reflexivity.
  - intros Hval. apply authenticate_ok. split; assumption.
Qed.

Lemma short_header_reaches_validator_witness :
  let r := Examples.with_Header {[ "Authorization" := "Foo x" ]}
             Examples.request0 in
  Api.getAuthToken r = Ok "x" ∧
  calls (Api.authenticate Examples.ext_ok r (start Examples.world0)).2
  = [] ++ [CallValidateToken "x"] ∧
  (Service.ext_ValidateToken Examples.ext_ok "x" = None →
   Api.authenticate Examples.ext_ok r (start Examples.world0) =
     (Next (),
      mkHState Examples.world0 (mkResponseWriter None [])
        ([] ++ [CallValidateToken "x"]))).
Proof.
  intros r.
  apply (short_header_reaches_validator Examples.ext_ok r "Foo" "x"
           (start Examples.world0)).
  - discriminate.
  - vm_compute. lia.
  - reflexivity.
Defined.

(** The same header on a whole request: "Foo x" is not of the form
"Bearer <token>", yet the handler passes "x" to the validator and, the
validator willing, answers 200 instead of 400. *)
Lemma short_header_answered_200 :
  let r := Examples.with_Header {[ "Authorization" := "Foo x" ]}
             (Examples.with_Vars
                {[ "playlistid" := Examples.hex_2;
                   "trackid" := Examples.hex_1 ]} Examples.request0) in
  Api.getAuthToken r = Ok "x" ∧
  calls (final (Api.addTrackToPlaylist Examples.env0 Examples.ext_ok r)
           Examples.world0) = [CallValidateToken "x"] ∧
  status (Api.addTrackToPlaylist Examples.env0 Examples.ext_ok r)
    Examples.world0 = Some 200%Z.
Proof. vm_compute. repeat split; reflexivity. Qed.

(** ** C2 and C4: deleting a track *)

Lemma not_in_pull_track (tid : ObjectID) (d : PlaylistDoc) :
  tid ∉ doc_tracks (pull_track tid d).
Proof.
  unfold pull_track. simpl. intros Hin.
  apply list_elem_of_In, filter_In in Hin. destruct Hin as [_ Hne].
  rewrite N.eqb_refl in Hne. discriminate.
Qed.

Lemma existsb_eqb_false (tid : ObjectID) (l : list ObjectID) :
  existsb (N.eqb tid) l = false → tid ∉ l.
Proof.
  intros Hex Hin. apply list_elem_of_In in Hin.
  assert (existsb (N.eqb tid) l = true) as Htrue.
  { apply existsb_exists. exists tid. split; [exact Hin | apply N.eqb_refl]. }
  congruence.
Qed.

Lemma UpdateManyPull_clean (tid pid : ObjectID)
  (c : gmap ObjectID PlaylistDoc) (p : PlaylistDoc) :
  UpdateManyPull tid c !! pid = Some p → tid ∉ doc_tracks p.
Proof.
  unfold UpdateManyPull. rewrite lookup_fmap.
  destruct (c !! pid) as [d|]; simpl; [|discriminate].
  intros [= <-].
  destruct (existsb (N.eqb tid) (doc_tracks d)) eqn:Hex.
  - apply not_in_pull_track.
  - apply existsb_eqb_false. exact Hex.
Qed.

Lemma DeleteOneByID_gone {D} (id : ObjectID) (c : gmap ObjectID D) :
  (DeleteOneByID id c).2 !! id = None.
Proof.
  unfold DeleteOneByID. destruct (c !! id) eqn:Hc; simpl.
  - apply lookup_delete_eq.
  - exact Hc.
Qed.

Lemma DeleteTrack_run (E : Env) (id : ObjectID) (d : TrackDoc) (W : World) :
  songs (db W) !! id = Some d →
  succeed E [TrackFindOneAndDelete; TrackFindOneAndDeleteDecode;
             AudioDeleteOne; AudioChunkDeleteMany] →
  Dao.DeleteTrack E id W =
    (None,
     match faults E PlaylistUpdateMany with
     | Some _ => with_db (after_delete id d) W
     | None =>
         with_db (λ s, set_playlists (UpdateManyPull id) (after_delete id d s))
           W
     end).
Proof.
  intros Hd Hs. working. unfold Dao.DeleteTrack, FindOneByID.
  rewrite Hd.
  repeat match goal with Hc : faults E _ = None |- _ => rewrite Hc; clear Hc end.
  destruct (faults E PlaylistUpdateMany); reflexivity.
Qed.

(** C2. Deleting a stored track on a working store succeeds, and then: the
track is gone, no playlist holds its id any more, and neither the file
document of its audio nor any chunk of it is left. *)
Theorem DeleteTrack_cascades (E : Env) (id : ObjectID) (d : TrackDoc)
  (W : World) :
  songs (db W) !! id = Some d →
  succeed E [TrackFindOneAndDelete; TrackFindOneAndDeleteDecode;
             AudioDeleteOne; AudioChunkDeleteMany; PlaylistUpdateMany] →
  (Dao.DeleteTrack E id W).1 = None ∧
  cascaded id (doc_audioFile d) (db (Dao.DeleteTrack E id W).2).
Proof.
  intros Hd Hs.
  assert (faults E PlaylistUpdateMany = None) as Hlast by (working; assumption).
  rewrite (DeleteTrack_run E id d W Hd).
  2: { working. repeat constructor; assumption. }
  rewrite Hlast. split; [reflexivity|]. unfold cascaded. simpl.
  repeat split.
  - apply lookup_delete_eq.
  - intros pid p. apply UpdateManyPull_clean.
  - apply DeleteOneByID_gone.
  - intros c Hin. apply list_elem_of_In, filter_In in Hin.
    destruct Hin as [_ Hne]. apply negb_true_iff, N.eqb_neq in Hne. exact Hne.
Qed.

Lemma DeleteTrack_cascades_witness :
  (Dao.DeleteTrack Examples.env0 1%N Examples.world0).1 = None ∧
  cascaded 1%N 7%N (db (Dao.DeleteTrack Examples.env0 1%N Examples.world0).2).
Proof.
  apply (DeleteTrack_cascades Examples.env0 1%N
           (mkTrackDoc "Song" "Singer" "Album" 7%N) Examples.world0).
  - reflexivity.
  - repeat constructor.
Defined.

(** C4 on the code. When the update that cleans the playlists fails,
[DeleteTrack] has already deleted the track and its audio; it drops the
error, returns nil, and the playlists keep the id of the deleted track. *)
Theorem DeleteTrack_drops_cleanup_error (E : Env) (id : ObjectID)
  (d : TrackDoc) (W : World) (err : error) :
  songs (db W) !! id = Some d →
  succeed E [TrackFindOneAndDelete; TrackFindOneAndDeleteDecode;
             AudioDeleteOne; AudioChunkDeleteMany] →
  faults E PlaylistUpdateMany = Some err →
  (Dao.DeleteTrack E id W).1 = None ∧
  playlists (db (Dao.DeleteTrack E id W).2) = playlists (db W).
Proof.
  intros Hd Hs Hlast. rewrite (DeleteTrack_run E id d W Hd Hs), Hlast.
  split; reflexivity.
Qed.

Lemma DeleteTrack_drops_cleanup_error_witness :
  (Dao.DeleteTrack (Examples.env_failing PlaylistUpdateMany "connection lost")
     1%N Examples.world0).1 = None ∧
  playlists (db (Dao.DeleteTrack
                   (Examples.env_failing PlaylistUpdateMany "connection lost")
                   1%N Examples.world0).2)
  = playlists (db Examples.world0).
Proof.
  apply (DeleteTrack_drops_cleanup_error
           (Examples.env_failing PlaylistUpdateMany "connection lost") 1%N
           (mkTrackDoc "Song" "Singer" "Album" 7%N) Examples.world0
           "connection lost").
  - reflexivity.
  - repeat constructor.
  - reflexivity.
Defined.

(** Seen from the API: the request to delete track 1 is answered 200
although the cleanup failed, and playlist 2 still lists the track. *)
Lemma deleteTrack_answers_200_after_failed_cleanup :
  let E := Examples.env_failing PlaylistUpdateMany "connection lost" in
  let r := Examples.with_Vars {[ "id" := Examples.hex_1 ]}
             Examples.request0 in
  status (Api.deleteTrack E Examples.ext_ok r) Examples.world0 = Some 200%Z ∧
  songs (store_after (Api.deleteTrack E Examples.ext_ok r) Examples.world0)
    !! 1%N = None ∧
  playlists (store_after (Api.deleteTrack E Examples.ext_ok r)
               Examples.world0) !! 2%N
  = Some (mkPlaylistDoc "Mix" [1%N]).
Proof. vm_compute. repeat split; reflexivity. Qed.

(** The calls before the last one are checked: the error of the first of
them that fails is what [DeleteTrack] returns. *)
Lemma DeleteTrack_returns_error (E : Env) (id : ObjectID) (d : TrackDoc)
  (W : World) (pre post : list StoreCall) (c : StoreCall) (err : error) :
  [TrackFindOneAndDelete; TrackFindOneAndDeleteDecode; AudioDeleteOne;
   AudioChunkDeleteMany] = pre ++ c :: post →
  succeed E pre →
  faults E c = Some err →
  songs (db W) !! id = Some d →
  (Dao.DeleteTrack E id W).1 = Some err.
Proof.
  intros Hcalls Hs Hc Hd. unfold Dao.DeleteTrack, FindOneByID.
  do 4 (destruct pre as [|? pre];
        [ simpl in Hcalls; injection Hcalls as <- <-; working;
          repeat match goal with
                 | Hok : faults E _ = None |- _ => rewrite Hok; clear Hok
                 end;
          rewrite ?Hd, Hc; reflexivity
        | simpl in Hcalls; injection Hcalls as <- Hcalls ]).
  destruct pre; discriminate.
Qed.

(** The other operations return the error of a failing call as it is. *)
Lemma storage_errors_verbatim (E : Env) (W : World) (err : error) :
  (∀ f, faults E TrackFind = Some err →
        Dao.GetTracks E f W = (Err err, W)) ∧
  (∀ f, faults E TrackFind = None → faults E TrackCursorAll = Some err →
        Dao.GetTracks E f W = (Err err, W)) ∧
  (∀ t, faults E TrackInsertOne = Some err →
        Dao.AddTrack E t W = (Some err, W)) ∧
  (∀ id t, faults E TrackFindOne = Some err →
           Dao.UpdateTrack E id t W = (Some err, W)) ∧
  (∀ p, faults E PlaylistInsertOne = Some err →
        Dao.AddPlaylist E p W = (Some err, W)) ∧
  (∀ id u, faults E PlaylistFindOneAndUpdate = Some err →
           Dao.UpdatePlaylist E id u W = (Some err, W)) ∧
  (∀ id, faults E PlaylistDeleteOne = Some err →
         Dao.DeletePlaylist E id W = (Some err, W)) ∧
  (∀ f, faults E PlaylistFind = Some err →
        Dao.GetPlaylists E f W = (Err err, W)) ∧
  (∀ id, faults E GridfsNewBucket = None →
         faults E GridfsDownloadToStream = Some err →
         Dao.DownloadAudioFile E id W = (Err err, W)) ∧
  (∀ bs name, faults E GridfsNewBucket = Some err →
              Dao.UploadAudioFile E bs name W = (Err err, W)) ∧
  (faults E ClientPing = Some err → Dao.Ping E W = (Some err, W)).
Proof.
  unfold Dao.GetTracks, Dao.AddTrack, Dao.UpdateTrack, Dao.AddPlaylist,
    Dao.UpdatePlaylist, Dao.DeletePlaylist, Dao.GetPlaylists,
    Dao.DownloadAudioFile, Dao.UploadAudioFile, Dao.Ping.
  repeat split; intros;
    repeat match goal with
           | Hc : faults E _ = _ |- _ => rewrite Hc; clear Hc
           end;
    reflexivity.
Qed.


(** ** C3: updating a track *)

Lemma overwrite_non_empty_fields (sent track : Track) :
  Name (Dao.overwrite_non_empty sent track)
  = (if String.eqb (Name sent) "" then Name track else Name sent) ∧
  Artist (Dao.overwrite_non_empty sent track)
  = (if String.eqb (Artist sent) "" then Artist track else Artist sent) ∧
  AlbumName (Dao.overwrite_non_empty sent track)
  = (if String.eqb (AlbumName sent) "" then AlbumName track
     else AlbumName sent) ∧
  ID (Dao.overwrite_non_empty sent track) = ID track ∧
  AudioFileID (Dao.overwrite_non_empty sent track) = AudioFileID track.
Proof.
  unfold Dao.overwrite_non_empty.
  destruct (String.eqb (Name sent) ""), (String.eqb (Artist sent) ""),
    (String.eqb (AlbumName sent) ""); simpl; repeat split; reflexivity.
Qed.

Lemma omitempty_string (sent stored : string) :
  (if String.eqb (if String.eqb sent "" then stored else sent) ""
   then stored
   else if String.eqb sent "" then stored else sent)
  = (if String.eqb sent "" then stored else sent).
Proof.
  destruct (String.eqb_spec sent "") as [->|Hne].
  - destruct (String.eqb_spec stored ""); congruence.
  - destruct (String.eqb_spec sent ""); congruence.
Qed.

Lemma omitempty_ObjectID (x : ObjectID) :
  (if N.eqb x NilObjectID then x else x) = x.
Proof. destruct (N.eqb x NilObjectID); reflexivity. Qed.

(** The storage client itself keeps to the partial update of the
specification. *)
Lemma UpdateTrack_succeeds (E : Env) (id : ObjectID) (sent : Track)
  (stored : TrackDoc) (W : World) :
  succeed E [TrackFindOne; TrackFindOneDecode; TrackFindOneAndUpdate] →
  songs (db W) !! id = Some stored →
  ∃ now,
    Dao.UpdateTrack E id sent W
    = (None, with_db (set_songs (insert id now)) W) ∧
    only_non_empty_overwrite sent stored now.
Proof.
  intros Hs Hd. working. unfold Dao.UpdateTrack, FindOneByID. rewrite Hd.
  repeat match goal with
         | Hok : faults E _ = _ |- _ => rewrite Hok; clear Hok
         end.
  destruct (overwrite_non_empty_fields sent (decode_track (id, stored)))
    as (Hn & Har & Hal & Hid & Hau).
  unfold set_track. rewrite Hid, Hn, Har, Hal, Hau. simpl.
  rewrite N.eqb_refl. eexists. split; [reflexivity|].
  unfold only_non_empty_overwrite. simpl.
  repeat split; first [apply omitempty_string | apply omitempty_ObjectID].
Qed.

Lemma with_defaults_fields (sent : Track) :
  Name (Api.with_defaults sent) ≠ "" ∧
  Artist (Api.with_defaults sent) ≠ "" ∧
  AlbumName (Api.with_defaults sent) ≠ "".
Proof.
  unfold Api.with_defaults. simpl.
  destruct (String.eqb_spec (Name sent) ""),
    (String.eqb_spec (Artist sent) ""), (String.eqb_spec (AlbumName sent) "");
    repeat split; (assumption || discriminate).
Qed.

Lemma defaults_then_overwrite (sent : Track) (stored now : TrackDoc) :
  only_non_empty_overwrite (Api.with_defaults sent) stored now →
  defaults_overwrite sent stored now.
Proof.
  destruct (with_defaults_fields sent) as (Hn & Har & Hal).
  unfold only_non_empty_overwrite, defaults_overwrite.
  intros (H1 & H2 & H3 & H4).
  destruct (String.eqb_spec (Name (Api.with_defaults sent)) "");
    [contradiction|].
  destruct (String.eqb_spec (Artist (Api.with_defaults sent)) "");
    [contradiction|].
  destruct (String.eqb_spec (AlbumName (Api.with_defaults sent)) "");
    [contradiction|].
  repeat split; assumption.
Qed.

(** C3 as stated, refuted. The stored track is "Song" by "Singer" on
"Album"; the request gives the name as the empty string and names no other
field. The update succeeds, and none of the three fields, all empty in the
request, is left as it was stored: each is now its default. *)
Lemma updateTrack_replaces_empty_fields :
  let r := Examples.with_Body (Examples.json_member "name" "")
             (Examples.with_Vars {[ "id" := Examples.hex_1 ]}
                Examples.request0) in
  let sent := zeroTrack in
  let stored := mkTrackDoc "Song" "Singer" "Album" 7%N in
  let now := mkTrackDoc "Unknown" "Unknown Artist" "Unknown Album" 7%N in
  json_Decode Examples.env0 (Body r) = Decodes sent ∧
  songs (db Examples.world0) !! 1%N = Some stored ∧
  status (Api.updateTrack Examples.env0 Examples.ext_ok r) Examples.world0
  = Some 200%Z ∧
  songs (store_after (Api.updateTrack Examples.env0 Examples.ext_ok r)
           Examples.world0) !! 1%N = Some now ∧
  ¬ only_non_empty_overwrite sent stored now.
Proof.
  repeat split; try (vm_compute; reflexivity).
  intros (Hname & _). vm_compute in Hname. discriminate.
Qed.

(** C3 as amended. An update of a stored track through the authenticated
handler, on a working store: it answers 200; the track is still stored
under its id; a name, artist or album that is not empty in the request
replaces the stored one, an empty one is replaced by its default; the audio
reference is the stored one. *)
Theorem updateTrack_overwrites_with_defaults (E : Env)
  (ext : Service.ExtHandler) (r : Request) (token : string) (id : ObjectID)
  (sent : Track) (stored : TrackDoc) (W : World) :
  authorized ext r token →
  ObjectIDFromHex (mux_Vars r "id") = Ok id →
  json_Decode E (Body r) = Decodes sent →
  succeed E [TrackFindOne; TrackFindOneDecode; TrackFindOneAndUpdate] →
  songs (db W) !! id = Some stored →
  status (Api.updateTrack E ext r) W = Some 200%Z ∧
  ∃ now,
    songs (store_after (Api.updateTrack E ext r) W) !! id = Some now ∧
    defaults_overwrite sent stored now.
Proof.
  intros Hauth Hhex Hdec Hs Hd.
  destruct (UpdateTrack_succeeds E id (Api.with_defaults sent) stored W Hs Hd)
    as (now & Hupd & Hnow).
  unfold status, store_after, final, serve, Api.updateTrack.
  step. rewrite Hhex, Hdec. step. step.
  erewrite bind_Next; [| apply dao_step; exact Hupd].
  simpl. split; [reflexivity|]. exists now. split.
  - apply lookup_insert_eq.
  - apply defaults_then_overwrite. exact Hnow.
Qed.

Lemma updateTrack_overwrites_with_defaults_witness :
  let r := Examples.with_Body (Examples.json_member "artist" "Band")
             (Examples.with_Vars {[ "id" := Examples.hex_1 ]}
                Examples.request0) in
  status (Api.updateTrack Examples.env0 Examples.ext_ok r) Examples.world0
  = Some 200%Z ∧
  ∃ now,
    songs (store_after (Api.updateTrack Examples.env0 Examples.ext_ok r)
             Examples.world0) !! 1%N = Some now ∧
    defaults_overwrite (mkTrack NilObjectID "" "Band" "" NilObjectID)
      (mkTrackDoc "Song" "Singer" "Album" 7%N) now.
Proof.
  apply (updateTrack_overwrites_with_defaults Examples.env0 Examples.ext_ok
           _ "test" 1%N).
  - split; reflexivity.
  - reflexivity.
  - reflexivity.
  - repeat constructor.
  - reflexivity.
Defined.

(** The handler of pkg/api hands the request to the storage client as it
is, and keeps to the partial update of the specification. *)
Lemma PkgApi_updateTrack_only_non_empty (E : Env) (r : Request)
  (id : ObjectID) (sent : Track) (stored : TrackDoc) (W : World) :
  ObjectIDFromHex (mux_Vars r "id") = Ok id →
  json_Decode E (Body r) = Decodes sent →
  succeed E [TrackFindOne; TrackFindOneDecode; TrackFindOneAndUpdate] →
  songs (db W) !! id = Some stored →
  status (PkgApi.updateTrack E r) W = Some 200%Z ∧
  ∃ now,
    songs (store_after (PkgApi.updateTrack E r) W) !! id = Some now ∧
    only_non_empty_overwrite sent stored now.
Proof.
  intros Hhex Hdec Hs Hd.
  destruct (UpdateTrack_succeeds E id sent stored W Hs Hd)
    as (now & Hupd & Hnow).
  unfold status, store_after, final, serve, PkgApi.updateTrack.
  rewrite Hhex, Hdec. step. step.
  erewrite bind_Next; [| apply dao_step; exact Hupd].
  simpl. split; [reflexivity|]. exists now. split.
  - apply lookup_insert_eq.
  - exact Hnow.
Qed.

(** ** C6 and C9: uploading a track *)

Lemma UploadAudioFile_succeeds (E : Env) (bs : list Byte.byte)
  (name : string) (W : World) :
  succeed E [GridfsNewBucket; GridfsOpenUploadStream; UploadStreamWrite;
             UploadStreamClose] →
  Dao.UploadAudioFile E bs name W =
    (Ok (AnyObjectID (ObjectID_at E (oidCounter W))),
     with_db (store_file (ObjectID_at E (oidCounter W)) name
                (ChunkSizeBytes E) bs) (NewObjectID E W).2).
Proof.
  intros Hs. working. unfold Dao.UploadAudioFile, Dao.uploadStream_Close.
  repeat match goal with
         | Hok : faults E _ = _ |- _ => rewrite Hok; clear Hok
         end.
  reflexivity.
Qed.

Lemma AddTrack_succeeds (E : Env) (track : Track) (W : World) :
  faults E TrackInsertOne = None →
  songs (db W) !! ID track = None →
  Dao.AddTrack E track W =
    (None, with_db (set_songs (λ _, <[ID track := track_doc track]>
                                      (songs (db W)))) W).
Proof.
  intros Hc Hfresh. unfold Dao.AddTrack, InsertOne. rewrite Hc, Hfresh.
  reflexivity.
Qed.

(** The chunks of a file put together are the file. *)
Lemma split_chunks_concat (size : nat) (data : list Byte.byte) (fuel : nat) :
  (0 < size)%nat → (length data <= fuel)%nat →
  concat (split_chunks fuel size data) = data.
Proof.
  intros Hsize. revert data.
  induction fuel as [|fuel IH]; intros data Hlen.
  - destruct data; [reflexivity | simpl in Hlen; lia].
  - destruct data as [|b data]; [reflexivity|].
    cbn [split_chunks concat].
    rewrite IH.
    + apply take_drop.
    + rewrite length_drop. simpl in *. lia.
Qed.

Section UploadRun.
Variable E : Env.
Variable r : Request.
Variable f : FormPart.
Variable W : World.
Hypothesis Hform : ParseForm r = None.
Hypothesis Hfile : FormFiles r !! "input" = Some f.
Hypothesis Hread : part_read_err f = None.
Hypothesis Hworks :
  succeed E [GridfsNewBucket; GridfsOpenUploadStream; UploadStreamWrite;
             UploadStreamClose; TrackInsertOne].
Hypothesis Hfresh : songs (db W) !! ObjectID_at E (oidCounter W) = None.

Lemma upload_calls_succeed :
  succeed E [GridfsNewBucket; GridfsOpenUploadStream; UploadStreamWrite;
             UploadStreamClose] ∧
  faults E TrackInsertOne = None.
Proof.
  clear -Hworks. working. split; [repeat constructor|]; assumption.
Qed.

Lemma Api_uploadTrack_run (ext : Service.ExtHandler) (token : string) :
  authorized ext r token →
  ∃ s, serve (Api.uploadTrack E ext r) W = (Returned, s) ∧
       Code (w s)
       = Some (upload_status (json_Unmarshal E (FormValue r "body"))) ∧
       Written (w s)
       = upload_written (json_Unmarshal E (FormValue r "body")) ∧
       uploaded E (ObjectID_at E (oidCounter W))
         (ObjectID_at E (S (oidCounter W)))
         (decoded_track (json_Unmarshal E (FormValue r "body")))
         (part_bytes f) (db W) (db (world s)).
Proof.
  intros [Htok Hval]. destruct upload_calls_succeed as [Hup Hins].
  unfold Api.uploadTrack. handler_steps.
  rewrite Htok. cbn. rewrite Hval, Hform, Hfile. cbn. rewrite Hread. cbn.
  unfold upload_written.
  destruct (json_Unmarshal E (FormValue r "body")) as [t | err | err t];
    try destruct (String.eqb (Error err) ""); cbn;
    (rewrite UploadAudioFile_succeeds by exact Hup); cbn;
    (rewrite AddTrack_succeeds by (first [exact Hins | exact Hfresh])); cbn;
    (eexists; split; [reflexivity|]); cbn; repeat split.
Qed.

Lemma PkgApi_uploadTrack_run :
  ∃ s, serve (PkgApi.uploadTrack E r) W = (Returned, s) ∧
       Code (w s)
       = Some (upload_status (json_Unmarshal E (FormValue r "body"))) ∧
       Written (w s)
       = upload_written (json_Unmarshal E (FormValue r "body")) ∧
       uploaded E (ObjectID_at E (oidCounter W))
         (ObjectID_at E (S (oidCounter W)))
         (decoded_track (json_Unmarshal E (FormValue r "body")))
         (part_bytes f) (db W) (db (world s)).
Proof.
  destruct upload_calls_succeed as [Hup Hins].
  unfold PkgApi.uploadTrack. handler_steps.
  rewrite Hform, Hfile. cbn. rewrite Hread. cbn.
  unfold upload_written.
  destruct (json_Unmarshal E (FormValue r "body")) as [t | err | err t];
    try destruct (String.eqb (Error err) ""); cbn;
    (rewrite UploadAudioFile_succeeds by exact Hup); cbn;
    (rewrite AddTrack_succeeds by (first [exact Hins | exact Hfresh])); cbn;
    (eexists; split; [reflexivity|]); cbn; repeat split.
Qed.

End UploadRun.

(** C9. An upload whose form file is read but whose "body" field is not
valid JSON: the handler answers 400 and goes on all the same. With a
working store it uploads the bytes of the file and inserts a track whose
name, artist and album are the defaults, so the store is not the one the
request found (in the authenticated handler and in the one of pkg/api
alike). *)
Theorem uploadTrack_goes_on_after_bad_json (E : Env)
  (ext : Service.ExtHandler) (r : Request) (token : string) (f : FormPart)
  (err : error) (W : World) :
  authorized ext r token →
  ParseForm r = None →
  FormFiles r !! "input" = Some f →
  part_read_err f = None →
  json_Unmarshal E (FormValue r "body") = SyntaxError err →
  succeed E [GridfsNewBucket; GridfsOpenUploadStream; UploadStreamWrite;
             UploadStreamClose; TrackInsertOne] →
  songs (db W) !! ObjectID_at E (oidCounter W) = None →
  stored_despite_400 E err (part_bytes f) W (Api.uploadTrack E ext r) ∧
  stored_despite_400 E err (part_bytes f) W (PkgApi.uploadTrack E r).
Proof.
  intros Hauth Hform Hfile Hread Hjson Hs Hfresh.
  assert (∀ h s,
            serve h W = (Returned, s) →
            Code (w s) = Some 400%Z →
            Written (w s) = upload_written (SyntaxError err) →
            uploaded E (ObjectID_at E (oidCounter W))
              (ObjectID_at E (S (oidCounter W))) zeroTrack (part_bytes f)
              (db W) (db (world s)) →
            stored_despite_400 E err (part_bytes f) W h) as Hgoal.
  { intros h s Hrun Hcode Hwritten Hup.
    unfold stored_despite_400, status, store_after, final.
    rewrite Hrun. simpl.
    assert (songs (db (world s)) !! ObjectID_at E (oidCounter W)
            = Some (mkTrackDoc "Unknown" "Unknown Artist" "Unknown Album"
                      (ObjectID_at E (S (oidCounter W))))) as Hsong.
    { destruct Hup as (-> & _). apply lookup_insert_eq. }
    repeat split; try assumption; try apply Hup.
    intros Heq. rewrite Heq in Hsong. congruence. }
  split.
  - destruct (Api_uploadTrack_run E r f W Hform Hfile Hread Hs Hfresh
                ext token Hauth) as (s & Hrun & Hcode & Hwritten & Hup).
    rewrite Hjson in Hcode, Hwritten, Hup. eapply Hgoal; eassumption.
  - destruct (PkgApi_uploadTrack_run E r f W Hform Hfile Hread Hs Hfresh)
      as (s & Hrun & Hcode & Hwritten & Hup).
    rewrite Hjson in Hcode, Hwritten, Hup. eapply Hgoal; eassumption.
Qed.

Lemma uploadTrack_goes_on_after_bad_json_witness :
  let r := Examples.with_upload [Byte.x0a; Byte.x0b; Byte.x0c; Byte.x0d;
                                 Byte.x0e] "not json" Examples.request0 in
  stored_despite_400 Examples.env0 "invalid character in JSON input"
    [Byte.x0a; Byte.x0b; Byte.x0c; Byte.x0d; Byte.x0e] Examples.world0
    (Api.uploadTrack Examples.env0 Examples.ext_ok r) ∧
  stored_despite_400 Examples.env0 "invalid character in JSON input"
    [Byte.x0a; Byte.x0b; Byte.x0c; Byte.x0d; Byte.x0e] Examples.world0
    (PkgApi.uploadTrack Examples.env0 r).
Proof.
  intros r.
  apply (uploadTrack_goes_on_after_bad_json Examples.env0 Examples.ext_ok r
           "test"
           (mkFormPart [Byte.x0a; Byte.x0b; Byte.x0c; Byte.x0d; Byte.x0e]
              None)
           "invalid character in JSON input" Examples.world0).
  - split; reflexivity.
  - reflexivity.
  - reflexivity.
  - reflexivity.
  - reflexivity.
  - repeat constructor.
  - reflexivity.
Defined.

Lemma UploadAudioFile_Ok (E : Env) (bs : list Byte.byte) (name : string)
  (W W' : World) (a : Any) :
  Dao.UploadAudioFile E bs name W = (Ok a, W') →
  a = AnyObjectID (ObjectID_at E (oidCounter W)) ∧
  songs (db W') = songs (db W).
Proof.
  unfold Dao.UploadAudioFile, Dao.uploadStream_Close.
  intros Hup. cases_of Hup; try discriminate.
  all: injection Hup as <- <-; split; reflexivity.
Qed.

Lemma AddTrack_None (E : Env) (track : Track) (W W' : World) :
  Dao.AddTrack E track W = (None, W') →
  songs (db W') = <[ID track := track_doc track]> (songs (db W)).
Proof.
  unfold Dao.AddTrack, InsertOne.
  intros Hadd. cases_of Hadd; try discriminate.
  injection Hadd as <-. reflexivity.
Qed.

(** C6. An upload that is answered 200 has decoded its "body" field, and
the track it stored, under the id drawn for it, holds each of name, artist
and album as sent when it is not empty and the default -- "Unknown",
"Unknown Artist", "Unknown Album" -- when it is. *)
Theorem uploadTrack_stores_defaults (E : Env) (ext : Service.ExtHandler)
  (r : Request) (W : World) :
  status (Api.uploadTrack E ext r) W = Some 200%Z →
  ∃ sent,
    json_Unmarshal E (FormValue r "body") = Decodes sent ∧
    songs (store_after (Api.uploadTrack E ext r) W)
      !! ObjectID_at E (oidCounter W)
    = Some (created_from sent (ObjectID_at E (S (oidCounter W)))).
Proof.
  unfold status, store_after, final.
  destruct (serve (Api.uploadTrack E ext r) W) as [flow s] eqn:Hrun.
  cbn [snd]. intros H200. revert Hrun.
  unfold Api.uploadTrack. handler_steps. unfold WriteHeader, Write.
  intros Hrun. cases_of Hrun.
  all: injection Hrun as <- <-; cbn in H200; try discriminate.
  all: match goal with
       | Hup : Dao.UploadAudioFile _ _ _ _ = _,
         Hadd : Dao.AddTrack _ _ _ = _ |- _ =>
           apply UploadAudioFile_Ok in Hup as [[= ->] Hsongs];
           apply AddTrack_None in Hadd
       end.
  all: eexists; split; [reflexivity|]; cbn.
  all: match goal with Hadd : songs _ = _ |- _ => rewrite Hadd end.
  all: apply lookup_insert_eq.
Qed.

Lemma uploadTrack_stores_defaults_witness :
  let r := Examples.with_upload [Byte.x0a; Byte.x0b]
             (Examples.json_member "name" "New") Examples.request0 in
  ∃ sent,
    json_Unmarshal Examples.env0 (FormValue r "body") = Decodes sent ∧
    songs (store_after (Api.uploadTrack Examples.env0 Examples.ext_ok r)
             Examples.world0) !! 1000%N
    = Some (created_from sent 1001%N).
Proof.
  intros r.
  apply (uploadTrack_stores_defaults Examples.env0 Examples.ext_ok r
           Examples.world0).
  vm_compute. reflexivity.
Defined.

(** The example of the specification: an upload with the form file "input"
and the body {"name":""} is answered 200 and the stored track is named
"Unknown". *)
Lemma upload_with_empty_name :
  let r := Examples.with_upload [Byte.x0a; Byte.x0b]
             (Examples.json_member "name" "") Examples.request0 in
  status (Api.uploadTrack Examples.env0 Examples.ext_ok r) Examples.world0
  = Some 200%Z ∧
  songs (store_after (Api.uploadTrack Examples.env0 Examples.ext_ok r)
           Examples.world0) !! 1000%N
  = Some (mkTrackDoc "Unknown" "Unknown Artist" "Unknown Album" 1001%N).
Proof. vm_compute. split; reflexivity. Qed.

(** With a working store an upload whose "body" decodes is answered 200. *)
Lemma uploadTrack_succeeds (E : Env) (ext : Service.ExtHandler)
  (r : Request) (token : string) (f : FormPart) (sent : Track) (W : World) :
  authorized ext r token →
  ParseForm r = None →
  FormFiles r !! "input" = Some f →
  part_read_err f = None →
  json_Unmarshal E (FormValue r "body") = Decodes sent →
  succeed E [GridfsNewBucket; GridfsOpenUploadStream; UploadStreamWrite;
             UploadStreamClose; TrackInsertOne] →
  songs (db W) !! ObjectID_at E (oidCounter W) = None →
  status (Api.uploadTrack E ext r) W = Some 200%Z.
Proof.
  intros Hauth Hform Hfile Hread Hjson Hs Hfresh.
  destruct (Api_uploadTrack_run E r f W Hform Hfile Hread Hs Hfresh
              ext token Hauth) as (s & Hrun & Hcode & _).
  unfold status, final. rewrite Hrun. simpl. rewrite Hcode, Hjson.
  reflexivity.
Qed.

(** ** C8: the format of the stream *)

Lemma formatIndex_from_none (i : nat) (formats : list Format) :
  (∀ f, f ∈ formats → is_audio_mp4 f = false) →
  Api.formatIndex_from i formats = 0.
Proof.
  revert i. induction formats as [|f formats IH]; intros i Hnone;
    [reflexivity|].
  simpl. fold (is_audio_mp4 f). rewrite (Hnone f); [|left].
  apply IH. intros f' Hin. apply Hnone. right. exact Hin.
Qed.

Lemma formatIndex_from_first (i k : nat) (formats : list Format)
  (format : Format) :
  formats !! k = Some format →
  is_audio_mp4 format = true →
  (∀ j f, j < k → formats !! j = Some f → is_audio_mp4 f = false) →
  Api.formatIndex_from i formats = i + k.
Proof.
  revert i k. induction formats as [|f formats IH]; intros i k Hk Hyes Hno;
    [discriminate|].
  simpl. fold (is_audio_mp4 f). destruct k as [|k].
  - injection Hk as ->. rewrite Hyes. lia.
  - rewrite (Hno 0 f); [|lia|reflexivity].
    rewrite (IH (S i) k); [lia | exact Hk | exact Hyes |].
    intros j f' Hj Hf'. apply (Hno (S j) f'); [lia | exact Hf'].
Qed.

(** The loop finds the format the specification names. *)
Lemma formatIndex_specified (formats : list Format) (format : Format) :
  specified_format formats format →
  formats !! Api.formatIndex formats = Some format.
Proof.
  unfold Api.formatIndex. intros [(k & Hk & Hyes & Hno) | (Hnone & H0)].
  - rewrite (formatIndex_from_first 0 k formats format Hk Hyes Hno).
    exact Hk.
  - rewrite (formatIndex_from_none 0 formats Hnone). exact H0.
Qed.

(** Whatever the formats, one of them is named unless there is none. *)
Lemma specified_format_exists (formats : list Format) :
  formats ≠ [] → ∃ format, specified_format formats format.
Proof.
  intros Hne.
  assert (∀ l : list Format,
            (∀ f, f ∈ l → is_audio_mp4 f = false) ∨
            ∃ k format, l !! k = Some format ∧ is_audio_mp4 format = true ∧
              ∀ j f, j < k → l !! j = Some f → is_audio_mp4 f = false)
    as Hfirst.
  { induction l as [|f l IH].
    - left. intros f Hin. inversion Hin.
    - destruct (is_audio_mp4 f) eqn:Hf.
      + right. exists 0, f. repeat split; [exact Hf|]. intros; lia.
      + destruct IH as [Hnone | (k & format & Hk & Hyes & Hno)].
        * left. intros f' Hin. inversion Hin; subst; auto.
        * right. exists (S k), format. repeat split; [exact Hk | exact Hyes |].
          intros [|j] f' Hj Hf'.
          -- injection Hf' as <-. exact Hf.
          -- apply (Hno j f'); [lia | exact Hf']. }
  destruct (Hfirst formats) as [Hnone | (k & format & Hk & Hyes & Hno)].
  - destruct formats as [|f formats]; [contradiction|].
    exists f. right. split; [exact Hnone | reflexivity].
  - exists format. left. exists k. repeat split; assumption.
Qed.

(** The steps that call no collaborator. *)

Lemma quiet_bind {A B} (m : H A) (k : A → H B) :
  quiet m → (∀ a, quiet (k a)) → quiet (m ≫= k).
Proof.
  intros Hm Hk s. unfold mbind, H_bind. specialize (Hm s).
  destruct (m s) as [[a| |msg] s']; simpl in *;
    [rewrite Hk|..]; exact Hm.
Qed.

Lemma quiet_mret {A} (a : A) : quiet (mret a).
Proof. intros s. reflexivity. Qed.

Lemma quiet_Return {A} : quiet (@Return A).
Proof. intros s. reflexivity. Qed.

Lemma quiet_panic {A} (msg : string) : quiet (@panic A msg).
Proof. intros s. reflexivity. Qed.

Lemma quiet_dao {A} (op : World → A * World) : quiet (dao op).
Proof. intros s. unfold dao. destruct (op (world s)). reflexivity. Qed.

Lemma quiet_logrus_Error (msg : string) : quiet (logrus_Error msg).
Proof. intros s. reflexivity. Qed.

Lemma quiet_on_w (f : ResponseWriter → ResponseWriter) : quiet (on_w f).
Proof. intros s. reflexivity. Qed.

Lemma quiet_respondWithError (code : Z) (message : string) :
  quiet (respondWithError code message).
Proof.
  unfold respondWithError. apply quiet_bind; [apply quiet_on_w|].
  intros _. destruct (String.eqb message "");
    [apply quiet_logrus_Error | apply quiet_on_w].
Qed.

Lemma quiet_respondWithSuccess (code : Z) (body : Payload) :
  quiet (respondWithSuccess code body).
Proof.
  unfold respondWithSuccess. apply quiet_bind; [apply quiet_on_w|].
  intros _. apply quiet_on_w.
Qed.

Lemma quiet_check {A} (r : result A) (onErr : error → H unit) :
  (∀ err, quiet (onErr err)) → quiet (check r onErr).
Proof.
  intros Hq. destruct r; simpl; [apply quiet_mret|].
  apply quiet_bind; [apply Hq | intros; apply quiet_Return].
Qed.

Lemma quiet_check_err (r : option error) (onErr : error → H unit) :
  (∀ err, quiet (onErr err)) → quiet (check_err r onErr).
Proof.
  intros Hq. destruct r; simpl; [|apply quiet_mret].
  apply quiet_bind; [apply Hq | intros; apply quiet_Return].
Qed.

Lemma quiet_index {A} (l : list A) (i : nat) : quiet (index l i).
Proof.
  unfold index. destruct (l !! i); [apply quiet_mret | apply quiet_panic].
Qed.

Create HintDb quiet.
#[local] Hint Resolve quiet_mret quiet_Return quiet_panic quiet_dao
  quiet_logrus_Error quiet_on_w quiet_respondWithError
  quiet_respondWithSuccess quiet_index : quiet.

Ltac quiet_steps :=
  repeat first
    [ progress intros
    | apply quiet_bind
    | apply quiet_check
    | apply quiet_check_err
    | solve [auto with quiet]
    | match goal with
      | |- quiet (match ?x with _ => _ end) => destruct x
      end ].

Lemma index_Some {A} (l : list A) (i : nat) (a : A) (s : HState) :
  l !! i = Some a → index l i s = (Next a, s).
Proof. intros Hl. unfold index. rewrite Hl. reflexivity. Qed.

Ltac step_index :=
  erewrite bind_Next; [| apply index_Some; eassumption].

(** C8. The format handed to [GetStream], by [getStream] and by
[uploadTrackFromYoutubeLink], is the first one of the video whose MIME type
contains "audio/mp4", and the one at index 0 when no MIME type does; no
other call of [GetStream] is made. *)
Theorem stream_format_is_the_specified_one (E : Env)
  (ext : Service.ExtHandler) (client : YoutubeClient) (r : Request)
  (token : string) (video : Video) (format : Format) (W : World) :
  authorized ext r token →
  specified_format (Formats video) format →
  (json_Decode_Video E (Body r) = Ok video →
   calls (final (Api.getStream E ext client r) W)
   = [CallValidateToken token; CallGetStream video format]) ∧
  (∀ ytRequest afterV videoId,
     json_Decode_YoutubeRequest E (Body r) = Ok ytRequest →
     GoStrings.Split (YoutubeLink ytRequest) "v=" !! 1 = Some afterV →
     GoStrings.Split afterV "&" !! 0 = Some videoId →
     GetVideo client videoId = Ok video →
     calls (final (Api.uploadTrackFromYoutubeLink E client ext r) W)
     = [CallValidateToken token; CallGetVideo videoId;
        CallGetStream video format]).
Proof.
  intros Hauth Hspec. apply formatIndex_specified in Hspec. split.
  - intros Hdec. unfold final, serve, Api.getStream.
    step. rewrite Hdec. step. step_index. step.
    match goal with
    | |- calls (?tail ?s).2 = _ =>
        assert (quiet tail) as Hq by quiet_steps; rewrite Hq
    end.
    reflexivity.
  - intros ytRequest afterV videoId Hdec Hv Hid Hvideo.
    unfold final, serve, Api.uploadTrackFromYoutubeLink.
    step. rewrite Hdec. step. step_index. step_index. step.
    rewrite Hvideo. step. step_index. step.
    match goal with
    | |- calls (?tail ?s).2 = _ =>
        assert (quiet tail) as Hq by quiet_steps; rewrite Hq
    end.
    reflexivity.
Qed.

Lemma stream_format_is_the_specified_one_witness :
  let r := Examples.with_Body "video" Examples.request0 in
  (json_Decode_Video Examples.env_video (Body r) = Ok Examples.video0 →
   calls (final (Api.getStream Examples.env_video Examples.ext_ok
                   Examples.client0 r) Examples.world0)
   = [CallValidateToken "test";
      CallGetStream Examples.video0 (mkFormat 140 "audio/mp4; codecs=mp4a")])
  ∧
  (∀ ytRequest afterV videoId,
     json_Decode_YoutubeRequest Examples.env_video (Body r) = Ok ytRequest →
     GoStrings.Split (YoutubeLink ytRequest) "v=" !! 1 = Some afterV →
     GoStrings.Split afterV "&" !! 0 = Some videoId →
     GetVideo Examples.client0 videoId = Ok Examples.video0 →
     calls (final (Api.uploadTrackFromYoutubeLink Examples.env_video
                     Examples.client0 Examples.ext_ok r) Examples.world0)
     = [CallValidateToken "test"; CallGetVideo videoId;
        CallGetStream Examples.video0
          (mkFormat 140 "audio/mp4; codecs=mp4a")]).
Proof.
  intros r.
  apply (stream_format_is_the_specified_one Examples.env_video
           Examples.ext_ok Examples.client0 r "test" Examples.video0
           (mkFormat 140 "audio/mp4; codecs=mp4a") Examples.world0).
  - split; reflexivity.
  - left. exists 1. repeat split.
    intros j f Hj Hf. destruct j as [|j]; [|lia].
    injection Hf as <-. reflexivity.
Defined.

(** A video without formats makes both handlers panic at the index. *)
Lemma getStream_no_formats (E : Env) (ext : Service.ExtHandler)
  (client : YoutubeClient) (r : Request) (token : string) (video : Video)
  (W : World) :
  authorized ext r token →
  json_Decode_Video E (Body r) = Ok video →
  Formats video = [] →
  (serve (Api.getStream E ext client r) W).1
  = Panicked "runtime error: index out of range".
Proof.
  intros Hauth Hdec Hnil. unfold serve, Api.getStream.
  step. rewrite Hdec. step. rewrite Hnil. reflexivity.
Qed.

(** * Further properties of the code *)
Import Handlers MoreStatements.

(** ** Requests that do not pass authentication *)

Lemma authenticate_bad_header (ext : Service.ExtHandler) (r : Request)
  (err : error) (W : World) (k : unit → H unit) :
  Api.getAuthToken r = Err err →
  answers_unchanged StatusBadRequest [] (Api.authenticate ext r ≫= k) W.
Proof.
  intros Htok. unfold answers_unchanged, Api.authenticate. handler_steps.
  rewrite Htok. cbn. destruct (String.eqb (Error err) ""); cbn;
    eexists; repeat split.
Qed.

Lemma authenticate_rejected (ext : Service.ExtHandler) (r : Request)
  (token : string) (err : error) (W : World) (k : unit → H unit) :
  Api.getAuthToken r = Ok token →
  Service.ext_ValidateToken ext token = Some err →
  answers_unchanged StatusUnauthorized [CallValidateToken token]
    (Api.authenticate ext r ≫= k) W.
Proof.
  intros Htok Hval. unfold answers_unchanged, Api.authenticate.
  handler_steps. rewrite Htok. cbn. rewrite Hval. cbn.
  eexists; repeat split.
Qed.

(** X1. Every route of the router but /health starts with the two checks
of the Authorization header. A request whose header [getAuthToken] refuses
is answered 400 without a call of the login service; one whose token the
login service does not accept is answered 401 after that one call. Either
way the handler returns at once: the database and the files are as they
were, no id is drawn, and the video client is not called. *)
Theorem unauthenticated_requests_change_nothing (E : Env) (P : Process)
  (W0 W : World) (routes : list Route) (rt : Route) (r : Incoming) :
  (route E P W0).1 = Ok routes →
  rt ∈ routes →
  route_path rt ≠ "/health" →
  (∀ err, Api.getAuthToken r = Err err →
     answers_unchanged 400 [] (route_handler rt r) W) ∧
  (∀ token err,
     Api.getAuthToken r = Ok token →
     Service.ValidateToken E
       (Service.mkExternalHandler (DefaultClient P) (LOGIN_URL P)) token
     = Some err →
     answers_unchanged 401 [CallValidateToken token] (route_handler rt r) W).
Proof.
  unfold route. destruct (mongo_Connect P); [discriminate|].
  intros [= <-] Hin Hpath.
  repeat (apply elem_of_cons in Hin as [-> | Hin]);
    [ contradiction | .. | apply elem_of_nil in Hin; contradiction ].
  all: split;
    [ intros err Htok; eapply authenticate_bad_header; exact Htok
    | intros token err Htok Hval; eapply authenticate_rejected;
        [exact Htok | exact Hval] ].
Qed.

Lemma unauthenticated_requests_change_nothing_witness :
  answers_unchanged 400 []
    (Api.deleteTrack Examples.env0
       (route_validator Examples.env0 MoreExamples.process_teapot)
       (MoreExamples.incoming MoreExamples.anonymous)) Examples.world0 ∧
  answers_unchanged 401 [CallValidateToken "test"]
    (Api.deleteTrack Examples.env0
       (route_validator Examples.env0 MoreExamples.process_teapot)
       (MoreExamples.incoming
          (Examples.with_Vars {[ "id" := Examples.hex_1 ]}
             Examples.request0))) Examples.world0.
Proof.
  split.
  - refine (proj1 (unauthenticated_requests_change_nothing Examples.env0
      MoreExamples.process_teapot Examples.world0 Examples.world0 _
      (mkRoute "/track/{id}" "DELETE"
         (λ r, Api.deleteTrack Examples.env0
                 (route_validator Examples.env0 MoreExamples.process_teapot)
                 r))
      (MoreExamples.incoming MoreExamples.anonymous) eq_refl _ _) _ _).
    + do 4 apply list_elem_of_further. apply list_elem_of_here.
    + discriminate.
    + reflexivity.
  - refine (proj2 (unauthenticated_requests_change_nothing Examples.env0
      MoreExamples.process_teapot Examples.world0 Examples.world0 _
      (mkRoute "/track/{id}" "DELETE"
         (λ r, Api.deleteTrack Examples.env0
                 (route_validator Examples.env0 MoreExamples.process_teapot)
                 r))
      (MoreExamples.incoming
         (Examples.with_Vars {[ "id" := Examples.hex_1 ]} Examples.request0))
      eq_refl _ _) "test" _ _ _).
    + do 4 apply list_elem_of_further. apply list_elem_of_here.
    + discriminate.
    + reflexivity.
    + reflexivity.
Defined.

(** ** The health check *)

(** X2. The route /health is the one route that asks for no token. Whatever
the request, it answers 200 when the ping of the database succeeds and 500
with a fixed message when it fails (the driver's error is not passed on),
calls no collaborator and leaves the world as it was. *)
Theorem health_check_is_open (E : Env) (P : Process) (W0 W : World)
  (routes : list Route) (rt : Route) (r : Incoming) :
  (route E P W0).1 = Ok routes →
  rt ∈ routes →
  route_path rt = "/health" →
  serve (route_handler rt r) W =
    (Returned,
     mkHState W
       (match faults E ClientPing with
        | None =>
            mkResponseWriter (Some 200%Z)
              [ValueJSON (PString "API is running and connected to database")]
        | Some _ =>
            mkResponseWriter (Some 500%Z)
              [ErrorJSON "API is running but unable to connect to database"]
        end) []).
Proof.
  unfold route. destruct (mongo_Connect P); [discriminate|].
  intros [= <-] Hin Hpath.
  repeat (apply elem_of_cons in Hin as [-> | Hin]); try discriminate Hpath;
    [| apply elem_of_nil in Hin; contradiction].
  cbn. unfold Api.checkHealth, Dao.Ping. handler_steps. cbn.
  destruct (faults E ClientPing); reflexivity.
Qed.

Lemma health_check_is_open_witness :
  serve (Api.checkHealth (Examples.env_failing ClientPing "connection refused"))
    Examples.world0 =
    (Returned,
     mkHState Examples.world0
       (mkResponseWriter (Some 500%Z)
          [ErrorJSON "API is running but unable to connect to database"])
       []).
Proof.
  exact (health_check_is_open
           (Examples.env_failing ClientPing "connection refused")
           MoreExamples.process0 Examples.world0 Examples.world0 _
           (mkRoute "/health" "GET"
              (λ _, Api.checkHealth
                      (Examples.env_failing ClientPing "connection refused")))
           (MoreExamples.incoming MoreExamples.anonymous)
           eq_refl (list_elem_of_here _ _) eq_refl).
Defined.

(** ** Ids that are not ids, and ids nothing is stored under *)

Ltac authorized_run Hauth :=
  let Htok := fresh "Htok" in
  let Hval := fresh "Hval" in
  destruct Hauth as [Htok Hval]; handler_steps; rewrite Htok; cbn;
  rewrite Hval; cbn.

(** X3. A route variable that is not the hexadecimal form of an object id:
the four handlers that take "id" and the two that take "playlistid" and
"trackid" answer 400 as soon as the token is validated. The body is not
decoded, the store is not asked, and nothing is changed. *)
Theorem malformed_id_is_refused (E : Env) (ext : Service.ExtHandler)
  (r : Request) (token : string) (W : World) :
  authorized ext r token →
  (bad_id r "id" →
   Forall (λ h, answers_unchanged 400 [CallValidateToken token] h W)
     [Api.getTrackAudio E ext r; Api.updateTrack E ext r;
      Api.deleteTrack E ext r; Api.deletePlaylist E ext r]) ∧
  (bad_id r "playlistid" ∨ bad_id r "trackid" →
   Forall (λ h, answers_unchanged 400 [CallValidateToken token] h W)
     [Api.addTrackToPlaylist E ext r; Api.removeTrackFromPlaylist E ext r]).
Proof.
  intros Hauth. split.
  - intros [err Hbad]. repeat apply Forall_cons_2; [..|apply Forall_nil_2].
    all: unfold answers_unchanged, Api.getTrackAudio, Api.updateTrack,
           Api.deleteTrack, Api.deletePlaylist;
         destruct Hauth as [Htok Hval]; handler_steps;
         rewrite Htok; cbn; rewrite Hval; cbn; rewrite Hbad; cbn;
         destruct (String.eqb (Error err) ""); cbn; eexists; repeat split.
  - intros Hbad. repeat apply Forall_cons_2; [..|apply Forall_nil_2].
    all: unfold answers_unchanged, Api.addTrackToPlaylist,
           Api.removeTrackFromPlaylist;
         destruct Hauth as [Htok Hval]; handler_steps;
         rewrite Htok; cbn; rewrite Hval; cbn;
         destruct Hbad as [[err Hbad] | [err Hbad]]; rewrite Hbad;
         [| destruct (ObjectIDFromHex (mux_Vars r "playlistid")) as [pid|err']];
         cbn;
         try destruct (String.eqb (Error err) "");
         try destruct (String.eqb (Error err') ""); cbn;
         eexists; repeat split.
Qed.

Lemma malformed_id_is_refused_witness :
  Forall (λ h, answers_unchanged 400 [CallValidateToken "test"] h
                 Examples.world0)
    [Api.getTrackAudio Examples.env0 Examples.ext_ok
       (Examples.with_Vars {[ "id" := "xyz" ]} Examples.request0);
     Api.updateTrack Examples.env0 Examples.ext_ok
       (Examples.with_Vars {[ "id" := "xyz" ]} Examples.request0);
     Api.deleteTrack Examples.env0 Examples.ext_ok
       (Examples.with_Vars {[ "id" := "xyz" ]} Examples.request0);
     Api.deletePlaylist Examples.env0 Examples.ext_ok
       (Examples.with_Vars {[ "id" := "xyz" ]} Examples.request0)].
Proof.
  apply (malformed_id_is_refused Examples.env0 Examples.ext_ok
           (Examples.with_Vars {[ "id" := "xyz" ]} Examples.request0)
           "test" Examples.world0).
  - split; reflexivity.
  - exists ErrInvalidHex. reflexivity.
Defined.

Ltac no_faults :=
  repeat match goal with
         | Hc : faults _ _ = None |- _ => rewrite Hc
         end.

Lemma db_eta (s : Store) :
  mkStore (songs s) (playlists s) (fs_files s) (fs_chunks s) = s.
Proof. destruct s; reflexivity. Qed.

(** X4. Updating or deleting a track under a well-formed id that no stored
track has: the first query of the storage client finds nothing, the handler
answers 500 with the driver's "no documents" error, and the database is as
it was. *)
Theorem unknown_track_is_not_found (E : Env) (ext : Service.ExtHandler)
  (r : Request) (token : string) (id : ObjectID) (sent : Track) (W : World) :
  authorized ext r token →
  ObjectIDFromHex (mux_Vars r "id") = Ok id →
  json_Decode E (Body r) = Decodes sent →
  succeed E [TrackFindOne; TrackFindOneAndDelete] →
  songs (db W) !! id = None →
  Forall (λ h, fails_with 500 "mongo: no documents in result"
                 [CallValidateToken token] h W)
    [Api.updateTrack E ext r; Api.deleteTrack E ext r].
Proof.
  intros Hauth Hhex Hbody Hs Hnone. working.
  repeat apply Forall_cons_2; [..|apply Forall_nil_2].
  - unfold fails_with, Api.updateTrack, Dao.UpdateTrack, FindOneByID.
    authorized_run Hauth. rewrite Hhex, Hbody. cbn.
    no_faults. rewrite Hnone. cbn. eexists; repeat split.
  - unfold fails_with, Api.deleteTrack, Dao.DeleteTrack, FindOneByID.
    authorized_run Hauth. rewrite Hhex. cbn.
    no_faults. rewrite Hnone. cbn. eexists; repeat split.
Qed.

Lemma unknown_track_is_not_found_witness :
  Forall (λ h, fails_with 500 "mongo: no documents in result"
                 [CallValidateToken "test"] h Examples.world0)
    [Api.updateTrack Examples.env0 Examples.ext_ok
       (Examples.with_Body "{}"
          (Examples.with_Vars {[ "id" := Examples.hex_9 ]}
             Examples.request0));
     Api.deleteTrack Examples.env0 Examples.ext_ok
       (Examples.with_Body "{}"
          (Examples.with_Vars {[ "id" := Examples.hex_9 ]}
             Examples.request0))].
Proof.
  apply (unknown_track_is_not_found Examples.env0 Examples.ext_ok
           (Examples.with_Body "{}"
              (Examples.with_Vars {[ "id" := Examples.hex_9 ]}
                 Examples.request0))
           "test" 9%N zeroTrack Examples.world0).
  - split; reflexivity.
  - reflexivity.
  - reflexivity.
  - repeat constructor.
  - reflexivity.
Defined.

(** X5. A well-formed playlist id that no stored playlist has: adding a
track to it and removing one from it answer 500 with the driver's "no
documents" error, deleting it answers 500 with "no documents were deleted",
and the database is as it was each time. *)
Theorem unknown_playlist_is_not_found (E : Env) (ext : Service.ExtHandler)
  (r : Request) (token : string) (pid tid : ObjectID) (W : World) :
  authorized ext r token →
  ObjectIDFromHex (mux_Vars r "id") = Ok pid →
  ObjectIDFromHex (mux_Vars r "playlistid") = Ok pid →
  ObjectIDFromHex (mux_Vars r "trackid") = Ok tid →
  succeed E [TrackFind; TrackCursorAll; PlaylistFindOneAndUpdate;
             PlaylistDeleteOne] →
  playlists (db W) !! pid = None →
  Forall (λ h, fails_with 500 "mongo: no documents in result"
                 [CallValidateToken token] h W)
    [Api.addTrackToPlaylist E ext r; Api.removeTrackFromPlaylist E ext r] ∧
  fails_with 500 "no documents were deleted" [CallValidateToken token]
    (Api.deletePlaylist E ext r) W.
Proof.
  intros Hauth Hid Hpid Htid Hs Hnone.
  working. split.
  - repeat apply Forall_cons_2; [..|apply Forall_nil_2].
    all: unfold fails_with, Api.addTrackToPlaylist,
           Api.removeTrackFromPlaylist, Dao.UpdatePlaylist, Dao.GetTracks,
           FindOneByID;
         authorized_run Hauth; rewrite Hpid, Htid; cbn;
         no_faults; cbn; no_faults; rewrite Hnone; cbn; eexists; repeat split.
  - unfold fails_with, Api.deletePlaylist, Dao.DeletePlaylist, DeleteOneByID.
    authorized_run Hauth. rewrite Hid. cbn. no_faults. rewrite Hnone. cbn.
    eexists; repeat split. cbn. apply db_eta.
Qed.

Lemma unknown_playlist_is_not_found_witness :
  Forall (λ h, fails_with 500 "mongo: no documents in result"
                 [CallValidateToken "test"] h Examples.world0)
    [Api.addTrackToPlaylist Examples.env0 Examples.ext_ok
       (Examples.with_Vars
          {[ "id" := Examples.hex_9; "playlistid" := Examples.hex_9;
             "trackid" := Examples.hex_1 ]} Examples.request0);
     Api.removeTrackFromPlaylist Examples.env0 Examples.ext_ok
       (Examples.with_Vars
          {[ "id" := Examples.hex_9; "playlistid" := Examples.hex_9;
             "trackid" := Examples.hex_1 ]} Examples.request0)] ∧
  fails_with 500 "no documents were deleted" [CallValidateToken "test"]
    (Api.deletePlaylist Examples.env0 Examples.ext_ok
       (Examples.with_Vars
          {[ "id" := Examples.hex_9; "playlistid" := Examples.hex_9;
             "trackid" := Examples.hex_1 ]} Examples.request0))
    Examples.world0.
Proof.
  apply (unknown_playlist_is_not_found Examples.env0 Examples.ext_ok
           (Examples.with_Vars
              {[ "id" := Examples.hex_9; "playlistid" := Examples.hex_9;
                 "trackid" := Examples.hex_1 ]} Examples.request0)
           "test" 9%N 1%N Examples.world0).
  - split; reflexivity.
  - reflexivity.
  - reflexivity.
  - reflexivity.
  - repeat constructor.
  - reflexivity.
Defined.

(** ** A deletion that stops half way *)

(** X6. [DeleteTrack] removes the track document first. Once the track is
found it is gone from the collection whatever the later calls do; when one
of them fails, the error is returned with the chunks of the audio file and
every playlist as they were, so the playlists still hold the id of a track
that no longer exists. The deletion cannot be run again: a second call
finds no track and changes nothing. *)
Theorem DeleteTrack_is_not_atomic (E : Env) (id : ObjectID) (d : TrackDoc)
  (W : World) :
  faults E TrackFindOneAndDelete = None →
  songs (db W) !! id = Some d →
  songs (db (Dao.DeleteTrack E id W).2) = delete id (songs (db W)) ∧
  (∀ err, (Dao.DeleteTrack E id W).1 = Some err →
     fs_chunks (db (Dao.DeleteTrack E id W).2) = fs_chunks (db W) ∧
     playlists (db (Dao.DeleteTrack E id W).2) = playlists (db W)) ∧
  Dao.DeleteTrack E id (Dao.DeleteTrack E id W).2
  = (Some ErrNoDocuments, (Dao.DeleteTrack E id W).2).
Proof.
  intros Hfind Hd.
  assert (∀ V, songs (db V) = delete id (songs (db W)) →
            Dao.DeleteTrack E id V = (Some ErrNoDocuments, V)) as Hagain.
  { intros V HV. unfold Dao.DeleteTrack, FindOneByID.
    rewrite Hfind, HV, lookup_delete_eq. reflexivity. }
  destruct (Dao.DeleteTrack E id W) as [res V] eqn:Hrun. cbn [fst snd].
  unfold Dao.DeleteTrack, FindOneByID in Hrun. rewrite Hfind, Hd in Hrun.
  assert (songs (db V) = delete id (songs (db W)) ∧
          (∀ err, res = Some err →
             fs_chunks (db V) = fs_chunks (db W) ∧
             playlists (db V) = playlists (db W))) as [Hsongs Hrest].
  { cases_of Hrun; injection Hrun as <- <-;
      (split; [reflexivity | intros err' [=]; split; reflexivity]). }
  split; [exact Hsongs|]. split; [exact Hrest|]. apply Hagain, Hsongs.
Qed.

Lemma DeleteTrack_is_not_atomic_witness :
  songs (db (Dao.DeleteTrack
               (Examples.env_failing AudioDeleteOne "connection reset") 1%N
               Examples.world0).2)
  = delete 1%N (songs Examples.store0).
Proof.
  exact (proj1 (DeleteTrack_is_not_atomic
                  (Examples.env_failing AudioDeleteOne "connection reset")
                  1%N (mkTrackDoc "Song" "Singer" "Album" 7%N)
                  Examples.world0 eq_refl eq_refl)).
Defined.

(** ** What is stored can be read back *)

Lemma imap_chunks_of (fid : ObjectID) (g : nat → list Byte.byte → Chunk)
  (pieces : list (list Byte.byte)) :
  (∀ n piece, files_id (g n piece) = fid ∧ chunk_data (g n piece) = piece) →
  List.filter (λ c, N.eqb (files_id c) fid) (imap g pieces) = imap g pieces ∧
  chunk_data <$> imap g pieces = pieces.
Proof.
  revert g. induction pieces as [|piece pieces IH]; intros g Hg.
  - split; reflexivity.
  - destruct (Hg 0 piece) as [Hid Hdata].
    destruct (IH (g ∘ S)) as [IHf IHd]; [intros n p; apply Hg|].
    split; cbn [imap List.filter fmap list_fmap].
    + rewrite Hid, N.eqb_refl. f_equal. exact IHf.
    + rewrite Hdata. f_equal. exact IHd.
Qed.

Lemma imap_chunks_of_other (fid other : ObjectID)
  (g : nat → list Byte.byte → Chunk) (pieces : list (list Byte.byte)) :
  other ≠ fid →
  (∀ n piece, files_id (g n piece) = fid) →
  List.filter (λ c, N.eqb (files_id c) other) (imap g pieces) = [].
Proof.
  intros Hne. revert g. induction pieces as [|piece pieces IH]; intros g Hg.
  - reflexivity.
  - cbn [imap List.filter]. rewrite Hg.
    destruct (N.eqb_spec fid other) as [->|_]; [contradiction|].
    apply (IH (g ∘ S)). intros n p. apply Hg.
Qed.

(** The bytes of a file written behind chunks of other files. *)
Lemma file_bytes_appended (fid : ObjectID) (size : nat)
  (data : list Byte.byte) (cs : list Chunk) :
  (0 < size)%nat →
  (∀ c, c ∈ cs → files_id c ≠ fid) →
  file_bytes fid (cs ++ make_chunks fid size data) = data.
Proof.
  intros Hsize Hfresh. unfold file_bytes, make_chunks.
  rewrite List.filter_app, (filter_none _ cs).
  - destruct (imap_chunks_of fid (λ n piece, mkChunk fid n piece)
                (split_chunks (length data) size data)) as [Hf Hd];
      [intros; split; reflexivity|].
    cbn [app]. rewrite Hf, Hd. apply split_chunks_concat; [exact Hsize | lia].
  - apply Forall_forall. intros c Hin.
    destruct (N.eqb_spec (files_id c) fid) as [Heq|]; [|reflexivity].
    destruct (Hfresh c Hin Heq).
Qed.

Lemma file_bytes_of_other (fid other : ObjectID) (size : nat)
  (data : list Byte.byte) (cs : list Chunk) :
  other ≠ fid →
  file_bytes other (cs ++ make_chunks fid size data) = file_bytes other cs.
Proof.
  intros Hne. unfold file_bytes, make_chunks.
  rewrite List.filter_app, (imap_chunks_of_other fid other) by
    (first [exact Hne | reflexivity]).
  rewrite app_nil_r. reflexivity.
Qed.

Lemma DownloadToStream_written (fid : ObjectID) (name : string) (size : nat)
  (data : list Byte.byte) (cs : list Chunk) (s : Store) :
  (0 < size)%nat →
  (∀ c, c ∈ cs → files_id c ≠ fid) →
  fs_files s !! fid = Some (mkFileDoc (length data) name) →
  fs_chunks s = cs ++ make_chunks fid size data →
  DownloadToStream fid s = Ok data.
Proof.
  intros Hsize Hfresh Hfile Hchunks. unfold DownloadToStream.
  rewrite Hfile, Hchunks, file_bytes_appended by assumption.
  cbn. rewrite Nat.eqb_refl. reflexivity.
Qed.

Lemma DownloadToStream_other (fid other : ObjectID) (name : string)
  (size : nat) (data : list Byte.byte) (s : Store) :
  other ≠ fid →
  DownloadToStream other (store_file fid name size data s)
  = DownloadToStream other s.
Proof.
  intros Hne. unfold DownloadToStream, store_file, set_fs_files, set_fs_chunks.
  cbn [fs_files fs_chunks].
  rewrite lookup_insert_ne by congruence.
  rewrite file_bytes_of_other by exact Hne. reflexivity.
Qed.

(** X7. What [UploadAudioFile] stores, [DownloadAudioFile] gives back: on a
working store whose bucket cuts files into chunks of at least one byte, and
which holds no chunk under the id the upload draws, the upload returns that
id, the download of it returns exactly the uploaded bytes, and the download
of any other file returns what it returned before. *)
Theorem uploaded_audio_downloads_unchanged (E : Env)
  (audioFile : list Byte.byte) (trackName : string) (W : World) :
  succeed E [GridfsNewBucket; GridfsOpenUploadStream; UploadStreamWrite;
             UploadStreamClose; GridfsDownloadToStream] →
  (0 < ChunkSizeBytes E)%nat →
  (∀ c, c ∈ fs_chunks (db W) → files_id c ≠ ObjectID_at E (oidCounter W)) →
  ∃ W1,
    Dao.UploadAudioFile E audioFile trackName W
    = (Ok (AnyObjectID (ObjectID_at E (oidCounter W))), W1) ∧
    Dao.DownloadAudioFile E (ObjectID_at E (oidCounter W)) W1
    = (Ok audioFile, W1) ∧
    ∀ other, other ≠ ObjectID_at E (oidCounter W) →
      (Dao.DownloadAudioFile E other W1).1
      = (Dao.DownloadAudioFile E other W).1.
Proof.
  intros Hs Hsize Hfresh.
  assert (succeed E [GridfsNewBucket; GridfsOpenUploadStream;
                     UploadStreamWrite; UploadStreamClose]) as Hup.
  { inversion Hs as [|? ? ? Hs1]; inversion Hs1 as [|? ? ? Hs2];
      inversion Hs2 as [|? ? ? Hs3]; inversion Hs3; subst.
    repeat constructor; assumption. }
  rewrite (UploadAudioFile_succeeds E _ _ W Hup). working.
  eexists. split; [reflexivity|].
  unfold Dao.DownloadAudioFile. no_faults. cbn. split.
  - erewrite DownloadToStream_written; try reflexivity; try assumption.
    cbn. apply lookup_insert_eq.
  - intros other Hne. apply DownloadToStream_other, Hne.
Qed.

Lemma uploaded_audio_downloads_unchanged_witness :
  ∃ W1,
    Dao.UploadAudioFile Examples.env0
      [Byte.x0a; Byte.x0b; Byte.x0c; Byte.x0d; Byte.x0e] "Tune"
      Examples.world0
    = (Ok (AnyObjectID 1000%N), W1) ∧
    Dao.DownloadAudioFile Examples.env0 1000%N W1
    = (Ok [Byte.x0a; Byte.x0b; Byte.x0c; Byte.x0d; Byte.x0e], W1) ∧
    ∀ other, other ≠ 1000%N →
      (Dao.DownloadAudioFile Examples.env0 other W1).1
      = (Dao.DownloadAudioFile Examples.env0 other Examples.world0).1.
Proof.
  apply (uploaded_audio_downloads_unchanged Examples.env0
           [Byte.x0a; Byte.x0b; Byte.x0c; Byte.x0d; Byte.x0e] "Tune"
           Examples.world0).
  - repeat constructor.
  - cbn. lia.
  - intros c Hin. cbn in Hin.
    repeat (apply elem_of_cons in Hin as [-> | Hin]); [discriminate ..|].
    apply elem_of_nil in Hin. contradiction.
Defined.

(** A query by [_id] finds the one document stored under the id. *)
Lemma only_element {A} (a : A) (l : list A) :
  NoDup l → (∀ x, x ∈ l ↔ x = a) → l = [a].
Proof.
  intros Hnd Hall. destruct l as [|x l].
  - exfalso. eapply elem_of_nil. apply (proj2 (Hall a) eq_refl).
  - assert (x = a) as Hx by (apply Hall; left). subst x.
    destruct l as [|y l]; [reflexivity|].
    assert (y = a) as Hy by (apply Hall; right; left). subst y.
    apply NoDup_cons in Hnd as [Hnotin _]. destruct Hnotin. left.
Qed.

Lemma Find_track_by_id (id : ObjectID) (d : TrackDoc)
  (c : gmap ObjectID TrackDoc) :
  c !! id = Some d → Find match_track [("_id", VObjectID id)] c = [(id, d)].
Proof.
  intros Hd. unfold Find. apply only_element.
  - apply NoDup_ListNoDup, List.NoDup_filter, NoDup_ListNoDup,
      NoDup_map_to_list.
  - intros [k v]. rewrite list_elem_of_In, filter_In, <- list_elem_of_In.
    rewrite elem_of_map_to_list. unfold match_track. cbn.
    rewrite andb_true_r, N.eqb_eq. split.
    + intros [Hk ->]. congruence.
    + intros [= -> ->]. split; [exact Hd | reflexivity].
Qed.

(** X8. A track added under an id that is not taken is what a query for
that id returns afterwards: exactly one track, with the fields it was added
with. *)
Theorem added_track_is_found (E : Env) (track : Track) (W : World) :
  succeed E [TrackInsertOne; TrackFind; TrackCursorAll] →
  songs (db W) !! ID track = None →
  ∃ W1, Dao.AddTrack E track W = (None, W1) ∧
        Dao.GetTracks E [("_id", VObjectID (ID track))] W1 = (Ok [track], W1).
Proof.
  intros Hs Hfresh. working.
  rewrite (AddTrack_succeeds E track W) by assumption.
  eexists. split; [reflexivity|].
  unfold Dao.GetTracks. no_faults. cbn.
  rewrite (Find_track_by_id (ID track) (track_doc track))
    by apply lookup_insert_eq.
  destruct track; reflexivity.
Qed.

Lemma added_track_is_found_witness :
  ∃ W1,
    Dao.AddTrack Examples.env0 (mkTrack 9%N "Tune" "Band" "" 7%N)
      Examples.world0 = (None, W1) ∧
    Dao.GetTracks Examples.env0 [("_id", VObjectID 9%N)] W1
    = (Ok [mkTrack 9%N "Tune" "Band" "" 7%N], W1).
Proof.
  apply (added_track_is_found Examples.env0
           (mkTrack 9%N "Tune" "Band" "" 7%N) Examples.world0).
  - repeat constructor.
  - reflexivity.
Defined.

(** X9. An upload followed by a request for the audio of the new track: on
a working store the second request is answered 200 with exactly the bytes
of the uploaded form file (whatever the first request was answered with,
200 or the 400 of a body that is not JSON). *)
Theorem uploaded_track_plays_back (E : Env) (ext : Service.ExtHandler)
  (r r' : Request) (token token' : string) (f : FormPart) (W : World) :
  authorized ext r token →
  ParseForm r = None →
  FormFiles r !! "input" = Some f →
  part_read_err f = None →
  succeed E [GridfsNewBucket; GridfsOpenUploadStream; UploadStreamWrite;
             UploadStreamClose; TrackInsertOne] →
  succeed E [TrackFind; TrackCursorAll; GridfsDownloadToStream] →
  os_faults E OsCopyToResponse = None →
  (0 < ChunkSizeBytes E)%nat →
  songs (db W) !! ObjectID_at E (oidCounter W) = None →
  (∀ c, c ∈ fs_chunks (db W) →
        files_id c ≠ ObjectID_at E (S (oidCounter W))) →
  authorized ext r' token' →
  ObjectIDFromHex (mux_Vars r' "id") = Ok (ObjectID_at E (oidCounter W)) →
  w (final (Api.getTrackAudio E ext r')
       (world (final (Api.uploadTrack E ext r) W)))
  = mkResponseWriter (Some 200%Z) [RawBytes (part_bytes f)].
Proof.
  intros Hauth Hform Hfile Hread Hup Hget Hcopy Hsize Hfresh Hchunks Hauth'
    Hhex.
  destruct (Api_uploadTrack_run E r f W Hform Hfile Hread Hup Hfresh
              ext token Hauth)
    as (s & Hrun & _ & _ & Hsongs & _ & Hfiles & Hcs).
  unfold final at 2. rewrite Hrun. cbn [snd].
  assert (Hbucket : faults E GridfsNewBucket = None)
    by (inversion Hup; assumption).
  clear Hup. working.
  unfold final, Api.getTrackAudio, Dao.GetTracks, Dao.DownloadAudioFile.
  authorized_run Hauth'. rewrite Hhex. cbn. no_faults. cbn.
  rewrite (Find_track_by_id _
             (created_from
                (decoded_track (json_Unmarshal E (FormValue r "body")))
                (ObjectID_at E (S (oidCounter W)))))
    by (rewrite Hsongs; apply lookup_insert_eq).
  cbn. no_faults.
  erewrite DownloadToStream_written;
    [| exact Hsize | exact Hchunks
     | rewrite Hfiles; apply lookup_insert_eq | exact Hcs].
  cbn. rewrite Hcopy. reflexivity.
Qed.

Lemma uploaded_track_plays_back_witness :
  w (final (Api.getTrackAudio Examples.env0 Examples.ext_ok
              (Examples.with_Vars {[ "id" := "0000000000000000000003e8" ]}
                 Examples.request0))
       (world (final (Api.uploadTrack Examples.env0 Examples.ext_ok
                        (Examples.with_upload
                           [Byte.x0a; Byte.x0b; Byte.x0c; Byte.x0d; Byte.x0e]
                           "not json" Examples.request0))
                 Examples.world0)))
  = mkResponseWriter (Some 200%Z)
      [RawBytes [Byte.x0a; Byte.x0b; Byte.x0c; Byte.x0d; Byte.x0e]].
Proof.
  apply (uploaded_track_plays_back Examples.env0 Examples.ext_ok
           (Examples.with_upload
              [Byte.x0a; Byte.x0b; Byte.x0c; Byte.x0d; Byte.x0e]
              "not json" Examples.request0)
           (Examples.with_Vars {[ "id" := "0000000000000000000003e8" ]}
              Examples.request0)
           "test" "test"
           (mkFormPart [Byte.x0a; Byte.x0b; Byte.x0c; Byte.x0d; Byte.x0e]
              None)
           Examples.world0).
  - split; reflexivity.
  - reflexivity.
  - reflexivity.
  - reflexivity.
  - repeat constructor.
  - repeat constructor.
  - reflexivity.
  - cbn. lia.
  - reflexivity.
  - intros c Hin. cbn in Hin.
    repeat (apply elem_of_cons in Hin as [-> | Hin]); [discriminate ..|].
    apply elem_of_nil in Hin. contradiction.
  - split; reflexivity.
  - reflexivity.
Defined.

(** ** Uploads that fail half way *)



(** X11. When the insertion of the track fails after the audio was
uploaded, the upload handler answers 500 with the error of the insertion
and stores no track, but the file it has just written stays in the bucket,
with no track that refers to it. *)
Theorem failed_insert_leaves_the_audio (E : Env) (ext : Service.ExtHandler)
  (r : Request) (token : string) (f : FormPart) (sent : Track) (err : error)
  (W : World) :
  authorized ext r token →
  ParseForm r = None →
  FormFiles r !! "input" = Some f →
  part_read_err f = None →
  json_Unmarshal E (FormValue r "body") = Decodes sent →
  succeed E [GridfsNewBucket; GridfsOpenUploadStream; UploadStreamWrite;
             UploadStreamClose] →
  faults E TrackInsertOne = Some err →
  err ≠ "" →
  w (final (Api.uploadTrack E ext r) W)
  = mkResponseWriter (Some 500%Z) [ErrorJSON err] ∧
  songs (store_after (Api.uploadTrack E ext r) W) = songs (db W) ∧
  fs_files (store_after (Api.uploadTrack E ext r) W)
    !! ObjectID_at E (S (oidCounter W))
  = Some (mkFileDoc (length (part_bytes f))
            (if String.eqb (Name sent) "" then "Unknown" else Name sent)).
Proof.
  intros Hauth Hform Hfile Hread Hjson Hup Hinsert Hmsg.
  unfold store_after, final, Api.uploadTrack.
  authorized_run Hauth. rewrite Hform, Hfile. cbn. rewrite Hread, Hjson. cbn.
  rewrite (UploadAudioFile_succeeds E _ _ _ Hup). cbn.
  unfold Dao.AddTrack. rewrite Hinsert. cbn.
  apply String.eqb_neq in Hmsg. unfold Error. rewrite Hmsg. cbn.
  rewrite lookup_insert_eq. repeat split.
Qed.

Lemma failed_insert_leaves_the_audio_witness :
  w (final (Api.uploadTrack
              (Examples.env_failing TrackInsertOne "write refused")
              Examples.ext_ok
              (Examples.with_upload [Byte.x0a; Byte.x0b] "{}"
                 Examples.request0)) Examples.world0)
  = mkResponseWriter (Some 500%Z) [ErrorJSON "write refused"] ∧
  songs (store_after (Api.uploadTrack
              (Examples.env_failing TrackInsertOne "write refused")
              Examples.ext_ok
              (Examples.with_upload [Byte.x0a; Byte.x0b] "{}"
                 Examples.request0)) Examples.world0)
  = songs Examples.store0.
Proof.
  split;
    apply (failed_insert_leaves_the_audio
             (Examples.env_failing TrackInsertOne "write refused")
             Examples.ext_ok
             (Examples.with_upload [Byte.x0a; Byte.x0b] "{}"
                Examples.request0)
             "test" (mkFormPart [Byte.x0a; Byte.x0b] None) zeroTrack
             "write refused" Examples.world0);
    first [ split; reflexivity | discriminate | repeat constructor ].
Defined.

(** ** Playlists *)

Lemma filter_without_last (tid : ObjectID) (l : list ObjectID) :
  List.filter (λ x, negb (N.eqb x tid)) (l ++ [tid])
  = List.filter (λ x, negb (N.eqb x tid)) l.
Proof.
  rewrite List.filter_app. cbn. rewrite N.eqb_refl. cbn. apply app_nil_r.
Qed.

Lemma filter_without_absent (tid : ObjectID) (l : list ObjectID) :
  tid ∉ l → List.filter (λ x, negb (N.eqb x tid)) l = l.
Proof.
  induction l as [|x l IH]; intros Hnotin; [reflexivity|].
  apply not_elem_of_cons in Hnotin as [Hne Hnotin]. cbn.
  destruct (N.eqb_spec x tid) as [->|_]; [contradiction|].
  cbn. f_equal. exact (IH Hnotin).
Qed.

(** X12. Adding a track to a stored playlist and then removing it again:
both requests are answered 200, whether or not a track with that id exists.
The removal takes out every occurrence of the id, also those that were
there before the addition, and keeps the other ids in their order; so the
playlist is back as it was exactly when it did not hold the id before. *)
Theorem add_then_remove_track (E : Env) (ext : Service.ExtHandler)
  (r : Request) (token : string) (pid tid : ObjectID) (p : PlaylistDoc)
  (W : World) :
  authorized ext r token →
  ObjectIDFromHex (mux_Vars r "playlistid") = Ok pid →
  ObjectIDFromHex (mux_Vars r "trackid") = Ok tid →
  succeed E [TrackFind; TrackCursorAll; PlaylistFindOneAndUpdate] →
  playlists (db W) !! pid = Some p →
  status (Api.addTrackToPlaylist E ext r) W = Some 200%Z ∧
  status (Api.removeTrackFromPlaylist E ext r)
    (world (final (Api.addTrackToPlaylist E ext r) W)) = Some 200%Z ∧
  playlists (store_after (Api.removeTrackFromPlaylist E ext r)
               (world (final (Api.addTrackToPlaylist E ext r) W))) !! pid
  = Some (mkPlaylistDoc (doc_pname p)
            (List.filter (λ x, negb (N.eqb x tid)) (doc_tracks p))) ∧
  (tid ∉ doc_tracks p →
   playlists (store_after (Api.removeTrackFromPlaylist E ext r)
                (world (final (Api.addTrackToPlaylist E ext r) W))) !! pid
   = Some p).
Proof.
  intros Hauth Hpid Htid Hs Hp. working.
  assert (∀ V, Dao.GetTracks E [("_id", VObjectID tid)] V
               = (Ok (decode_track <$>
                        Find match_track [("_id", VObjectID tid)]
                          (songs (db V))), V)) as Hget.
  { intros V. unfold Dao.GetTracks. no_faults. reflexivity. }
  assert (∃ s, serve (Api.addTrackToPlaylist E ext r) W = (Returned, s) ∧
               Code (w s) = Some 200%Z ∧
               playlists (db (world s))
               = <[pid := push_track tid p]> (playlists (db W)))
    as (s & Hadd & Hcode & Hpush).
  { unfold Api.addTrackToPlaylist. pose proof Hauth as Hauth'.
    authorized_run Hauth'. rewrite Hpid, Htid. cbn. rewrite Hget. cbn.
    rewrite (UpdatePlaylist_succeeds E pid (Push tid) p) by assumption.
    cbn. eexists. repeat split. }
  unfold status, store_after, final. rewrite Hadd. cbn [snd].
  split; [exact Hcode|].
  assert (playlists (db (world s)) !! pid = Some (push_track tid p)) as Hp'.
  { rewrite Hpush. apply lookup_insert_eq. }
  unfold Api.removeTrackFromPlaylist. authorized_run Hauth.
  rewrite Hpid, Htid. cbn. rewrite Hget. cbn.
  rewrite (UpdatePlaylist_succeeds E pid (Pull tid) (push_track tid p))
    by assumption.
  cbn. rewrite lookup_insert_eq.
  assert (pull_track tid (push_track tid p)
          = mkPlaylistDoc (doc_pname p)
              (List.filter (λ x, negb (N.eqb x tid)) (doc_tracks p)))
    as Hback.
  { unfold pull_track, push_track. cbn [doc_pname doc_tracks].
    rewrite filter_without_last. reflexivity. }
  rewrite Hback. split; [reflexivity|]. split; [reflexivity|].
  intros Hnotin. rewrite (filter_without_absent _ _ Hnotin).
  destruct p; reflexivity.
Qed.

Lemma add_then_remove_track_witness :
  playlists (store_after
     (Api.removeTrackFromPlaylist Examples.env0 Examples.ext_ok
        (Examples.with_Vars
           {[ "playlistid" := Examples.hex_2; "trackid" := Examples.hex_1 ]}
           Examples.request0))
     (world (final
        (Api.addTrackToPlaylist Examples.env0 Examples.ext_ok
           (Examples.with_Vars
              {[ "playlistid" := Examples.hex_2;
                 "trackid" := Examples.hex_1 ]} Examples.request0))
        Examples.world0))) !! 2%N
  = Some (mkPlaylistDoc "Mix" []).
Proof.
  apply (add_then_remove_track Examples.env0 Examples.ext_ok
           (Examples.with_Vars
              {[ "playlistid" := Examples.hex_2;
                 "trackid" := Examples.hex_1 ]} Examples.request0)
           "test" 2%N 1%N (mkPlaylistDoc "Mix" [1%N]) Examples.world0).
  - split; reflexivity.
  - reflexivity.
  - reflexivity.
  - repeat constructor.
  - reflexivity.
Defined.

(** X13. Deleting a stored playlist answers 200 and removes that playlist
alone: the other playlists, the tracks it listed and their audio stay. *)
Theorem deletePlaylist_keeps_the_tracks (E : Env) (ext : Service.ExtHandler)
  (r : Request) (token : string) (pid : ObjectID) (p : PlaylistDoc)
  (W : World) :
  authorized ext r token →
  ObjectIDFromHex (mux_Vars r "id") = Ok pid →
  faults E PlaylistDeleteOne = None →
  playlists (db W) !! pid = Some p →
  w (final (Api.deletePlaylist E ext r) W)
  = mkResponseWriter (Some 200%Z)
      [ValueJSON (PString "Playlist deleted successfully")] ∧
  store_after (Api.deletePlaylist E ext r) W
  = set_playlists (delete pid) (db W).
Proof.
  intros Hauth Hid Hc Hp.
  unfold store_after, final, Api.deletePlaylist, Dao.DeletePlaylist,
    DeleteOneByID.
  authorized_run Hauth. rewrite Hid. cbn. rewrite Hc, Hp. cbn.
  split; reflexivity.
Qed.

Lemma deletePlaylist_keeps_the_tracks_witness :
  store_after (Api.deletePlaylist Examples.env0 Examples.ext_ok
                 (Examples.with_Vars {[ "id" := Examples.hex_2 ]}
                    Examples.request0)) Examples.world0
  = set_playlists (delete 2%N) Examples.store0.
Proof.
  apply (deletePlaylist_keeps_the_tracks Examples.env0 Examples.ext_ok
           (Examples.with_Vars {[ "id" := Examples.hex_2 ]}
              Examples.request0)
           "test" 2%N (mkPlaylistDoc "Mix" [1%N]) Examples.world0).
  - split; reflexivity.
  - reflexivity.
  - reflexivity.
  - reflexivity.
Defined.

(** X14. A new playlist is stored under an id the handler draws, not under
the id of the request body; its name and its track ids are those of the
body, taken as they are (whether tracks with these ids exist is not looked
at), and nothing else in the database changes. *)
Theorem addPlaylist_draws_its_own_id (E : Env) (P : Process)
  (ext : Service.ExtHandler) (r : Request) (token : string) (sent : Playlist)
  (W : World) :
  authorized ext r token →
  json_Decode_Playlist P (Body r) = Ok sent →
  faults E PlaylistInsertOne = None →
  playlists (db W) !! ObjectID_at E (oidCounter W) = None →
  status (addPlaylist E P ext r) W = Some 200%Z ∧
  store_after (addPlaylist E P ext r) W
  = set_playlists
      (insert (ObjectID_at E (oidCounter W))
         (mkPlaylistDoc (Playlist_Name sent) (Tracks sent))) (db W).
Proof.
  intros Hauth Hbody Hc Hfresh.
  unfold status, store_after, final, addPlaylist, Dao.AddPlaylist, InsertOne.
  authorized_run Hauth. rewrite Hbody. cbn. rewrite Hc, Hfresh. cbn.
  split; reflexivity.
Qed.

Lemma addPlaylist_draws_its_own_id_witness :
  status (addPlaylist Examples.env0 MoreExamples.process0 Examples.ext_ok
            (Examples.with_Body "mix" Examples.request0)) Examples.world0
  = Some 200%Z ∧
  store_after (addPlaylist Examples.env0 MoreExamples.process0
                 Examples.ext_ok
                 (Examples.with_Body "mix" Examples.request0))
    Examples.world0
  = set_playlists (insert 1000%N (mkPlaylistDoc "Road" [1%N; 9%N]))
      Examples.store0.
Proof.
  apply (addPlaylist_draws_its_own_id Examples.env0 MoreExamples.process0
           Examples.ext_ok (Examples.with_Body "mix" Examples.request0)
           "test" (mkPlaylist 5%N "Road" [1%N; 9%N]) Examples.world0).
  - split; reflexivity.
  - reflexivity.
  - reflexivity.
  - reflexivity.
Defined.

(** ** From a video to its audio *)

Lemma temp_files_removed (fs : gmap string (list Byte.byte))
  (created video audio : list Byte.byte) :
  delete "video.mp3"
    (delete "video.mp4"
       (<["video.mp3" := audio]>
          (<["video.mp4" := video]> (<["video.mp4" := created]> fs))))
  = delete "video.mp3" (delete "video.mp4" fs).
Proof.
  apply map_eq. intros name.
  destruct (decide (name = "video.mp3")) as [->|Hmp3].
  - rewrite !lookup_delete_eq. reflexivity.
  - rewrite !(lookup_delete_ne _ "video.mp3") by congruence.
    destruct (decide (name = "video.mp4")) as [->|Hmp4].
    + rewrite !lookup_delete_eq. reflexivity.
    + rewrite !(lookup_delete_ne _ "video.mp4") by congruence.
      rewrite !lookup_insert_ne by congruence. reflexivity.
Qed.

Lemma convertStreamToAudio_run (E : Env) (ext : Service.ExtHandler)
  (r : Request) (token : string) (video audio : list Byte.byte) (V : World) :
  authorized ext r token →
  (∀ c, os_faults E c = None) →
  files V !! "video.mp4" = Some video →
  ffmpeg E video = Ok audio →
  serve (convertStreamToAudio E ext r) V =
    (Next (),
     mkHState
       (with_files (λ fs, delete "video.mp3"
                            (delete "video.mp4" (<["video.mp3" := audio]> fs)))
          V)
       (mkResponseWriter (Some 200%Z)
          [ValueJSON (PString (Base64.EncodeToString audio))])
       [CallValidateToken token]).
Proof.
  intros Hauth Hos Hvideo Hffmpeg.
  unfold convertStreamToAudio, respondWithSuccessBytes, Os.LookPath, Os.Run,
    Os.ReadFile, Os.Remove.
  authorized_run Hauth. rewrite !Hos. cbn. rewrite Hvideo, Hffmpeg. cbn.
  rewrite lookup_insert_eq. cbn.
  rewrite lookup_insert_ne, Hvideo by discriminate. cbn.
  rewrite lookup_delete_ne, lookup_insert_eq by discriminate. reflexivity.
Qed.

(** X15. The two steps from a video to its audio, one request after the
other. [getStream] writes the bytes of the stream to the file video.mp4 and
answers 200; [convertStreamToAudio] then runs the converter on that file
and answers 200 with the converter's output in base64. Afterwards neither
video.mp4 nor video.mp3 is left, every other file is as it was, and the
database has not changed. *)
Theorem stream_then_convert (E : Env) (ext : Service.ExtHandler)
  (client : YoutubeClient) (r r' : Request) (token token' : string)
  (video : Video) (format : Format) (stream : Stream)
  (audio : list Byte.byte) (W : World) :
  authorized ext r token →
  json_Decode_Video E (Body r) = Ok video →
  Formats video !! Api.formatIndex (Formats video) = Some format →
  GetStream client video format = Ok stream →
  stream_read_err stream = None →
  (∀ c, os_faults E c = None) →
  ffmpeg E (stream_bytes stream) = Ok audio →
  authorized ext r' token' →
  w (final (Api.getStream E ext client r) W)
  = mkResponseWriter (Some 200%Z)
      [ValueJSON (PString "Stream file created successfully")] ∧
  files (world (final (Api.getStream E ext client r) W))
  = <["video.mp4" := stream_bytes stream]> (<["video.mp4" := []]> (files W)) ∧
  w (final (convertStreamToAudio E ext r')
       (world (final (Api.getStream E ext client r) W)))
  = mkResponseWriter (Some 200%Z)
      [ValueJSON (PString (Base64.EncodeToString audio))] ∧
  files (world (final (convertStreamToAudio E ext r')
                  (world (final (Api.getStream E ext client r) W))))
  = delete "video.mp3" (delete "video.mp4" (files W)) ∧
  store_after (convertStreamToAudio E ext r')
    (world (final (Api.getStream E ext client r) W)) = db W.
Proof.
  intros Hauth Hbody Hformat Hstream Hread Hos Hffmpeg Hauth'.
  assert (∃ s, serve (Api.getStream E ext client r) W = (Next (), s) ∧
               w s = mkResponseWriter (Some 200%Z)
                       [ValueJSON
                          (PString "Stream file created successfully")] ∧
               files (world s)
               = <["video.mp4" := stream_bytes stream]>
                   (<["video.mp4" := []]> (files W)) ∧
               db (world s) = db W)
    as (s & Hrun & Hw & Hfiles & Hdb).
  { unfold Api.getStream, index, call_GetStream, Os.Create, Os.CopyToFile.
    authorized_run Hauth. rewrite Hbody. cbn. rewrite Hformat. cbn.
    rewrite Hstream. cbn. rewrite !Hos, Hread. cbn.
    eexists. repeat split. }
  unfold store_after, final. rewrite Hrun. cbn [snd].
  split; [exact Hw|]. split; [exact Hfiles|].
  rewrite (convertStreamToAudio_run E ext r' token' (stream_bytes stream)
             audio (world s) Hauth' Hos)
    by (first [ rewrite Hfiles; apply lookup_insert_eq | exact Hffmpeg ]).
  cbn. rewrite Hfiles, temp_files_removed, Hdb. repeat split.
Qed.

Lemma stream_then_convert_witness :
  w (final (convertStreamToAudio Examples.env_video Examples.ext_ok
              Examples.request0)
       (world (final (Api.getStream Examples.env_video Examples.ext_ok
                        Examples.client0 Examples.request0)
                 Examples.world0)))
  = mkResponseWriter (Some 200%Z) [ValueJSON (PString "AQI=")].
Proof.
  apply (stream_then_convert Examples.env_video Examples.ext_ok
           Examples.client0 Examples.request0 Examples.request0
           "test" "test" Examples.video0
           (mkFormat 140 "audio/mp4; codecs=mp4a")
           (mkStream [Byte.x01; Byte.x02] None) [Byte.x01; Byte.x02]
           Examples.world0).
  - split; reflexivity.
  - reflexivity.
  - reflexivity.
  - reflexivity.
  - reflexivity.
  - intros c. reflexivity.
  - reflexivity.
  - split; reflexivity.
Defined.

(** X16. [convertStreamToAudio] without a usable video: when the file
video.mp4 is missing, or the converter fails on it, the handler answers 500
and changes no file, so a video.mp4 that could not be converted stays where
it is. *)
Theorem convert_failure_changes_no_file (E : Env) (ext : Service.ExtHandler)
  (r : Request) (token : string) (W : World) :
  authorized ext r token →
  (files W !! "video.mp4" = None ∨
   ∃ video err, files W !! "video.mp4" = Some video ∧
                ffmpeg E video = Err err) →
  answers_unchanged 500 [CallValidateToken token]
    (convertStreamToAudio E ext r) W.
Proof.
  intros Hauth Hvideo.
  unfold answers_unchanged, convertStreamToAudio, Os.LookPath, Os.Run.
  authorized_run Hauth.
  destruct (os_faults E OsLookPath) as [err|]; cbn.
  { destruct (String.eqb (Error err) ""); cbn; eexists; repeat split. }
  destruct (os_faults E OsRun) as [err|]; cbn.
  { destruct (String.eqb (Error err) ""); cbn; eexists; repeat split. }
  destruct Hvideo as [Hnone | (video & err & Hsome & Hfail)].
  - rewrite Hnone. cbn. eexists; repeat split.
  - rewrite Hsome, Hfail. cbn.
    destruct (String.eqb (Error err) ""); cbn; eexists; repeat split.
Qed.

Lemma convert_failure_changes_no_file_witness :
  answers_unchanged 500 [CallValidateToken "test"]
    (convertStreamToAudio Examples.env0 Examples.ext_ok Examples.request0)
    Examples.world0.
Proof.
  apply (convert_failure_changes_no_file Examples.env0 Examples.ext_ok
           Examples.request0 "test" Examples.world0).
  - split; reflexivity.
  - left. reflexivity.
Defined.

(** ** The link of a video *)

Lemma split_scan_no_separator (sep s cur : string) :
  GoStrings.Contains s sep = false →
  GoStrings.split_scan sep 0 cur s = [cur +:+ s].
Proof.
  revert cur. induction s as [|c s IH]; intros cur Hno.
  - cbn [GoStrings.split_scan]. rewrite append_empty. reflexivity.
  - cbn [GoStrings.Contains] in Hno. apply orb_false_iff in Hno as [Hhere Hno].
    cbn [GoStrings.split_scan]. rewrite Hhere, (IH _ Hno), append_String.
    reflexivity.
Qed.

(** X17. A link without "v=": [getVideo] and [uploadTrackFromYoutubeLink]
split the link at "v=" and take the second piece without a check, so the
run ends in an out-of-range panic after the token is validated. Nothing is
written to the response, the video client is not called and the world is as
it was. *)
Theorem link_without_video_id_panics (E : Env) (ext : Service.ExtHandler)
  (client : YoutubeClient) (r : Request) (token : string)
  (ytRequest : YoutubeRequest) (W : World) :
  authorized ext r token →
  json_Decode_YoutubeRequest E (Body r) = Ok ytRequest →
  GoStrings.Contains (YoutubeLink ytRequest) "v=" = false →
  serve (getVideo E ext client r) W =
    (Panicked "runtime error: index out of range",
     mkHState W (mkResponseWriter None []) [CallValidateToken token]) ∧
  serve (Api.uploadTrackFromYoutubeLink E client ext r) W =
    (Panicked "runtime error: index out of range",
     mkHState W (mkResponseWriter None []) [CallValidateToken token]).
Proof.
  intros Hauth Hbody Hlink.
  assert (GoStrings.split_scan "v=" 0 "" (YoutubeLink ytRequest) !! 1 = None)
    as Hsplit.
  { rewrite (split_scan_no_separator "v=" _ "" Hlink). reflexivity. }
  split.
  - unfold getVideo, index. pose proof Hauth as Hauth'.
    authorized_run Hauth'. rewrite Hbody. cbn. rewrite Hsplit.
    destruct W; reflexivity.
  - unfold Api.uploadTrackFromYoutubeLink, index.
    authorized_run Hauth. rewrite Hbody. cbn. rewrite Hsplit.
    destruct W; reflexivity.
Qed.

Lemma link_without_video_id_panics_witness :
  serve (getVideo MoreExamples.env_short_link Examples.ext_ok
           Examples.client0 Examples.request0) Examples.world0 =
    (Panicked "runtime error: index out of range",
     mkHState Examples.world0 (mkResponseWriter None [])
       [CallValidateToken "test"]) ∧
  serve (Api.uploadTrackFromYoutubeLink MoreExamples.env_short_link
           Examples.client0 Examples.ext_ok Examples.request0)
    Examples.world0 =
    (Panicked "runtime error: index out of range",
     mkHState Examples.world0 (mkResponseWriter None [])
       [CallValidateToken "test"]).
Proof.
  apply (link_without_video_id_panics MoreExamples.env_short_link
           Examples.ext_ok Examples.client0 Examples.request0 "test"
           (mkYoutubeRequest "https://youtu.be/abc" "" "" "")
           Examples.world0).
  - split; reflexivity.
  - reflexivity.
  - reflexivity.
Defined.

(** ** What a handler leaves alone *)

Lemma preserves_bind {X A B} (view : World → X) (m : H A) (k : A → H B) :
  preserves view m → (∀ a, preserves view (k a)) → preserves view (m ≫= k).
Proof.
  intros Hm Hk s. unfold mbind, H_bind. pose proof (Hm s) as Hms.
  destruct (m s) as [[a| |msg] s1]; cbn [snd] in *;
    [rewrite Hk|..]; exact Hms.
Qed.

Lemma preserves_dao {X A} (view : World → X) (op : World → A * World) :
  (∀ V, view (op V).2 = view V) → preserves view (dao op).
Proof.
  intros Hop s. unfold dao. specialize (Hop (world s)).
  destruct (op (world s)). exact Hop.
Qed.

Lemma preserves_pure {X A} (view : World → X) (m : H A) :
  (∀ s, world (m s).2 = world s) → preserves view m.
Proof. intros Hm s. rewrite Hm. reflexivity. Qed.

Lemma preserves_logrus_Error {X} (view : World → X) (msg : string) :
  (∀ V, view (logError msg V) = view V) → preserves view (logrus_Error msg).
Proof. intros Hlog s. apply Hlog. Qed.

#[local] Instance db_LogBlind : LogBlind db.
Proof. intros msg V. reflexivity. Qed.
#[local] Instance tracks_and_audio_LogBlind : LogBlind tracks_and_audio.
Proof. intros msg V. reflexivity. Qed.
#[local] Instance playlists_of_LogBlind : LogBlind playlists_of.
Proof. intros msg V. reflexivity. Qed.

Section Preserved.
Context {X : Type} (view : World → X) `{!LogBlind view}.

Lemma preserves_respondWithError (code : Z) (message : string) :
  preserves view (respondWithError code message).
Proof.
  unfold respondWithError. apply preserves_bind.
  - apply preserves_pure. reflexivity.
  - intros _. destruct (String.eqb message "").
    + apply preserves_logrus_Error, log_blind.
    + apply preserves_pure. reflexivity.
Qed.

Lemma preserves_failure (log message : string) (code : Z) :
  preserves view (logrus_Error log ;; respondWithError code message).
Proof.
  apply preserves_bind.
  - apply preserves_logrus_Error, log_blind.
  - intros _. apply preserves_respondWithError.
Qed.

Lemma preserves_respondWithSuccess (code : Z) (body : Payload) :
  preserves view (respondWithSuccess code body).
Proof.
  unfold respondWithSuccess. apply preserves_bind; [| intros _];
    apply preserves_pure; reflexivity.
Qed.

Lemma preserves_check {A} (r : result A) (onErr : error → H unit) :
  (∀ err, preserves view (onErr err)) → preserves view (check r onErr).
Proof.
  intros Hon. destruct r as [a|err]; cbn [check].
  - apply preserves_pure. reflexivity.
  - apply preserves_bind; [apply Hon|]. intros _. apply preserves_pure.
    reflexivity.
Qed.

Lemma preserves_check_err (r : option error) (onErr : error → H unit) :
  (∀ err, preserves view (onErr err)) → preserves view (check_err r onErr).
Proof.
  intros Hon. destruct r as [err|]; cbn [check_err].
  - apply preserves_bind; [apply Hon|]. intros _. apply preserves_pure.
    reflexivity.
  - apply preserves_pure. reflexivity.
Qed.

Lemma preserves_index {A} (l : list A) (i : nat) :
  preserves view (index l i).
Proof.
  unfold index. destruct (l !! i); apply preserves_pure; reflexivity.
Qed.

Lemma preserves_authenticate (ext : Service.ExtHandler) (r : Request) :
  preserves view (Api.authenticate ext r).
Proof.
  unfold Api.authenticate. apply preserves_bind.
  - apply preserves_check. intros err. apply preserves_failure.
  - intros token. apply preserves_bind.
    + apply preserves_pure. reflexivity.
    + intros err. apply preserves_check_err. intros err'.
      apply preserves_failure.
Qed.

Lemma preserves_query_filters (query : list (string * list string)) :
  preserves view (query_filters query).
Proof.
  induction query as [|[key val] query IH]; cbn [query_filters].
  - apply preserves_pure. reflexivity.
  - apply preserves_bind; [apply preserves_index|]. intros val0.
    apply preserves_bind; [exact IH|]. intros filters.
    apply preserves_pure. reflexivity.
Qed.

End Preserved.

(** The case analysis of an operation of the storage client or of the
operating system, down to its results. *)
Ltac outcomes :=
  cbn;
  repeat (match goal with
          | |- context [match ?scrutinee with _ => _ end] =>
              tryif has_match scrutinee then fail else destruct scrutinee
          end; cbn);
  try reflexivity.

Ltac preserved_steps :=
  repeat first
    [ progress intros
    | apply preserves_bind
    | apply preserves_authenticate
    | apply preserves_failure
    | apply preserves_respondWithError
    | apply preserves_respondWithSuccess
    | apply preserves_index
    | apply preserves_query_filters
    | apply preserves_check
    | apply preserves_check_err
    | apply preserves_logrus_Error, log_blind
    | apply preserves_pure; reflexivity
    | apply preserves_dao
    | match goal with
      | |- preserves _ (match ?x with _ => _ end) => destruct x
      end ].

(** X18. The requests that only read. Whatever the environment, the request
and the state of the store -- also when the run ends in an error answer or
in a panic -- the health check, the audio download, the two listings and
the three video steps leave the database exactly as they found it. *)
Theorem reading_handlers_keep_the_database (E : Env)
  (ext : Service.ExtHandler) (client : YoutubeClient) (r : Incoming)
  (W : World) :
  Forall (λ h, store_after h W = db W)
    [Api.checkHealth E; Api.getTrackAudio E ext r; getTracks E ext r;
     getPlaylists E ext r; getVideo E ext client r;
     Api.getStream E ext client r; convertStreamToAudio E ext r].
Proof.
  assert (∀ h : H unit, preserves db h → store_after h W = db W) as Hkeep.
  { intros h Hh. apply (Hh (start W)). }
  repeat apply Forall_cons_2; [..|apply Forall_nil_2]; apply Hkeep.
  - unfold Api.checkHealth. preserved_steps.
    all: reflexivity.
  - unfold Api.getTrackAudio. preserved_steps.
    all: unfold Dao.GetTracks, Dao.DownloadAudioFile; outcomes.
  - unfold getTracks. preserved_steps.
    all: unfold Dao.GetTracks; outcomes.
  - unfold getPlaylists. preserved_steps.
    all: unfold Dao.GetPlaylists; outcomes.
  - unfold getVideo. preserved_steps.
  - unfold Api.getStream. preserved_steps.
    all: unfold Os.Create, Os.CopyToFile; outcomes.
  - unfold convertStreamToAudio, respondWithSuccessBytes. preserved_steps.
    all: unfold Os.LookPath, Os.Run, Os.ReadFile, Os.Remove; outcomes.
Qed.

(** X19. The requests on playlists change the playlists alone, and the
uploads and the update of a track change no playlist: whatever the
environment, the request and the outcome, the first leave tracks, file
documents and chunks as they were, and the second leave every playlist as
it was. *)
Theorem playlists_and_tracks_are_kept_apart (E : Env) (P : Process)
  (ext : Service.ExtHandler) (client : YoutubeClient) (r : Request)
  (W : World) :
  Forall (λ h, tracks_and_audio (world (final h W)) = tracks_and_audio W)
    [addPlaylist E P ext r; Api.addTrackToPlaylist E ext r;
     Api.removeTrackFromPlaylist E ext r; Api.deletePlaylist E ext r] ∧
  Forall (λ h, playlists (store_after h W) = playlists (db W))
    [Api.uploadTrack E ext r; Api.updateTrack E ext r;
     uploadAudioBytes E P ext r;
     Api.uploadTrackFromYoutubeLink E client ext r].
Proof.
  split.
  - assert (∀ h : H unit, preserves tracks_and_audio h →
              tracks_and_audio (world (final h W)) = tracks_and_audio W)
      as Hkeep.
    { intros h Hh. apply (Hh (start W)). }
    repeat apply Forall_cons_2; [..|apply Forall_nil_2]; apply Hkeep.
    + unfold addPlaylist. preserved_steps.
      all: unfold NewObjectID, Dao.AddPlaylist, InsertOne; outcomes.
    + unfold Api.addTrackToPlaylist. preserved_steps.
      all: unfold Dao.GetTracks, Dao.UpdatePlaylist, FindOneByID; outcomes.
    + unfold Api.removeTrackFromPlaylist. preserved_steps.
      all: unfold Dao.GetTracks, Dao.UpdatePlaylist, FindOneByID; outcomes.
    + unfold Api.deletePlaylist. preserved_steps.
      all: unfold Dao.DeletePlaylist, DeleteOneByID; outcomes.
  - assert (∀ h : H unit, preserves playlists_of h →
              playlists (store_after h W) = playlists (db W)) as Hkeep.
    { intros h Hh. apply (Hh (start W)). }
    repeat apply Forall_cons_2; [..|apply Forall_nil_2]; apply Hkeep.
    + unfold Api.uploadTrack. preserved_steps.
      all: unfold NewObjectID, Dao.UploadAudioFile, Dao.uploadStream_Close,
          Dao.AddTrack,
          InsertOne; outcomes.
    + unfold Api.updateTrack. preserved_steps.
      all: unfold Dao.UpdateTrack, FindOneByID, set_track; outcomes.
    + unfold uploadAudioBytes. preserved_steps.
      all: unfold NewObjectID, Dao.UploadAudioFile, Dao.uploadStream_Close,
          Dao.AddTrack,
          InsertOne; outcomes.
    + unfold Api.uploadTrackFromYoutubeLink. preserved_steps.
      all: unfold NewObjectID, Dao.UploadAudioFile, Dao.uploadStream_Close,
          Dao.AddTrack,
          InsertOne, Os.Create, Os.CopyToFile, Os.LookPath, Os.Run,
          Os.ReadFile, Os.Remove; outcomes.
Qed.

(** ** Listing the tracks *)








(** ** The id of the video in a link *)

Lemma prefix_empty (s : string) : String.prefix "" s = true.
Proof. destruct s; reflexivity. Qed.

(** No "v=" starts at a byte of [p] when [p] holds none and what follows
does not begin with "=". *)
Lemma prefix_v_eq_before (c : ascii) (p rest : string) :
  String.prefix "v=" (String c p) = false →
  String.prefix "=" rest = false →
  String.prefix "v=" (String c (p +:+ rest)) = false.
Proof.
  intros Hp Hrest. cbn [String.prefix] in Hp |- *.
  destruct (ascii_dec "v" c) as [_|]; [|reflexivity].
  destruct p as [|d p].
  - exact Hrest.
  - rewrite append_cons. cbn [String.prefix] in Hp |- *.
    destruct (ascii_dec "=" d); [|reflexivity].
    rewrite prefix_empty in Hp. discriminate.
Qed.

Lemma split_scan_first_v_eq (pre rest cur : string) :
  GoStrings.Contains pre "v=" = false →
  GoStrings.split_scan "v=" 0 cur (pre +:+ "v=" +:+ rest)
  = (cur +:+ pre) :: GoStrings.split_scan "v=" 0 "" rest.
Proof.
  revert cur. induction pre as [|c pre IH]; intros cur Hpre.
  - rewrite append_empty.
    change ("" +:+ "v=" +:+ rest) with (String "v" (String "=" rest)).
    cbn [GoStrings.split_scan String.prefix String.length Nat.sub].
    destruct (ascii_dec "v" "v") as [_|Hne]; [|congruence].
    destruct (ascii_dec "=" "=") as [_|Hne]; [|congruence].
    rewrite prefix_empty. reflexivity.
  - cbn [GoStrings.Contains] in Hpre.
    apply orb_false_iff in Hpre as [Hhere Hpre].
    rewrite append_cons. cbn [GoStrings.split_scan].
    rewrite (prefix_v_eq_before c pre ("v=" +:+ rest) Hhere) by reflexivity.
    rewrite (IH _ Hpre), append_String. reflexivity.
Qed.

(** What follows the id in a link: nothing, or further parameters. *)
Lemma first_piece (sep s cur : string) :
  ∃ x, GoStrings.split_scan sep 0 cur s !! 0 = Some (cur +:+ x).
Proof.
  revert cur. induction s as [|c s IH]; intros cur.
  - exists "". rewrite append_empty. reflexivity.
  - cbn [GoStrings.split_scan]. destruct (String.prefix sep (String c s)).
    + exists "". rewrite append_empty. reflexivity.
    + destruct (IH (cur +:+ String c "")) as [x Hx].
      exists (String c x). rewrite Hx, append_String. reflexivity.
Qed.

Lemma first_piece_v_eq (id tail cur : string) :
  GoStrings.Contains id "v=" = false →
  link_tail tail →
  ∃ x, GoStrings.split_scan "v=" 0 cur (id +:+ tail) !! 0
       = Some (cur +:+ id +:+ x) ∧ link_tail x.
Proof.
  intros Hid Htail. revert cur.
  induction id as [|c id IH]; intros cur.
  - change ("" +:+ tail) with tail.
    destruct Htail as [-> | [t ->]].
    + exists "". change (cur +:+ "" +:+ "") with (cur +:+ "").
      rewrite append_empty. split; [reflexivity | left; reflexivity].
    + change ("&" +:+ t) with (String "&" t).
      cbn [GoStrings.split_scan String.prefix].
      destruct (ascii_dec "v" "&") as [Heq|_]; [discriminate Heq|].
      destruct (first_piece "v=" t (cur +:+ "&")) as [x Hx].
      exists (String "&" x).
      change (cur +:+ "" +:+ String "&" x) with (cur +:+ String "&" x).
      rewrite Hx, append_String.
      split; [reflexivity|]. right. exists x. reflexivity.
  - cbn [GoStrings.Contains] in Hid.
    apply orb_false_iff in Hid as [Hhere Hid].
    rewrite append_cons. cbn [GoStrings.split_scan].
    rewrite (prefix_v_eq_before c id tail Hhere)
      by (destruct Htail as [-> | [t ->]]; reflexivity).
    destruct (IH Hid (cur +:+ String c "")) as (x & Hx & Hshape).
    exists x. rewrite Hx, append_String, append_cons.
    split; [reflexivity | exact Hshape].
Qed.

Lemma first_piece_amp (id x cur : string) :
  GoStrings.Contains id "&" = false →
  link_tail x →
  GoStrings.split_scan "&" 0 cur (id +:+ x) !! 0 = Some (cur +:+ id).
Proof.
  intros Hid Hx. revert cur. induction id as [|c id IH]; intros cur.
  - change ("" +:+ x) with x. rewrite append_empty.
    destruct Hx as [-> | [t ->]]; [reflexivity|].
    change ("&" +:+ t) with (String "&" t).
    cbn [GoStrings.split_scan String.prefix].
    destruct (ascii_dec "&" "&") as [_|Hne]; [|congruence].
    rewrite prefix_empty. reflexivity.
  - cbn [GoStrings.Contains String.prefix] in Hid.
    apply orb_false_iff in Hid as [Hhere Hid].
    rewrite append_cons. cbn [GoStrings.split_scan String.prefix].
    destruct (ascii_dec "&" c) as [_|_].
    + rewrite prefix_empty in Hhere. discriminate.
    + rewrite (IH Hid), append_String. reflexivity.
Qed.

(** X21. The id [getVideo] asks the video client for. When the link reads
[pre], "v=", [id] and then either nothing or "&" and further text, where
neither [pre] nor [id] holds a "v=" and [id] holds no "&", the client is
called once, with exactly [id]; its video is answered with 200 and its
error with 500, and the world is as it was. *)
Theorem getVideo_asks_for_the_id_of_the_link (E : Env)
  (ext : Service.ExtHandler) (client : YoutubeClient) (r : Request)
  (token : string) (ytRequest : YoutubeRequest) (pre id tail : string)
  (W : World) :
  authorized ext r token →
  json_Decode_YoutubeRequest E (Body r) = Ok ytRequest →
  YoutubeLink ytRequest = pre +:+ "v=" +:+ id +:+ tail →
  GoStrings.Contains pre "v=" = false →
  GoStrings.Contains id "v=" = false →
  GoStrings.Contains id "&" = false →
  link_tail tail →
  calls (final (getVideo E ext client r) W)
  = [CallValidateToken token; CallGetVideo id] ∧
  status (getVideo E ext client r) W
  = Some (if GetVideo client id is Ok _ then 200%Z else 500%Z) ∧
  (∀ video, GetVideo client id = Ok video →
     Written (w (final (getVideo E ext client r) W))
     = [ValueJSON (PVideo video)]) ∧
  store_after (getVideo E ext client r) W = db W ∧
  files (world (final (getVideo E ext client r) W)) = files W.
Proof.
  intros Hauth Hbody Hlink Hpre Hid Hamp Htail.
  destruct (first_piece_v_eq id tail "" Hid Htail) as (x & Hpiece & Hx).
  assert (GoStrings.split_scan "v=" 0 "" (YoutubeLink ytRequest) !! 1
          = Some (id +:+ x)) as Hsecond.
  { rewrite Hlink, (split_scan_first_v_eq pre (id +:+ tail) "" Hpre).
    exact Hpiece. }
  pose proof (first_piece_amp id x "" Hamp Hx) as Hfirst.
  change ("" +:+ id) with id in Hfirst.
  unfold status, store_after, final, getVideo, index, call_GetVideo.
  authorized_run Hauth. rewrite Hbody. cbn. rewrite Hsecond. cbn.
  rewrite Hfirst. cbn.
  destruct (GetVideo client id) as [video|err]; cbn.
  - split; [reflexivity|]. split; [reflexivity|].
    split; [| split; reflexivity].
    intros video' Hvideo. injection Hvideo as <-. reflexivity.
  - destruct (String.eqb (Error err) ""); cbn;
      (split; [reflexivity|]); (split; [reflexivity|]);
      (split; [| split; reflexivity]); intros video Hvideo;
      discriminate Hvideo.
Qed.

Lemma getVideo_asks_for_the_id_of_the_link_witness :
  calls (final (getVideo Examples.env_video Examples.ext_ok Examples.client0
                  Examples.request0) Examples.world0)
  = [CallValidateToken "test"; CallGetVideo "abc"] ∧
  status (getVideo Examples.env_video Examples.ext_ok Examples.client0
            Examples.request0) Examples.world0
  = Some 200%Z.
Proof.
  split;
    apply (getVideo_asks_for_the_id_of_the_link Examples.env_video
             Examples.ext_ok Examples.client0 Examples.request0 "test"
             (mkYoutubeRequest "https://www.youtube.com/watch?v=abc&t=1"
                "" "" "")
             "https://www.youtube.com/watch?" "abc" "&t=1" Examples.world0);
    first [ split; reflexivity | reflexivity
          | right; exists "t=1"; reflexivity ].
Defined.

(** ** The headers that are accepted *)

Lemma split_scan_not_empty (sep s cur : string) (skip : nat) :
  (1 <= length (GoStrings.split_scan sep skip cur s))%nat.
Proof.
  revert skip cur. induction s as [|c s IH]; intros skip cur.
  - cbn. lia.
  - cbn [GoStrings.split_scan]. destruct skip as [|skip]; [|apply IH].
    destruct (String.prefix sep (String c s)); [cbn; lia | apply IH].
Qed.

Lemma split_scan_one_piece (s cur : string) :
  length (GoStrings.split_scan " " 0 cur s) = 1%nat → no_space s = true.
Proof.
  revert cur. induction s as [|c s IH]; intros cur Hone; [reflexivity|].
  cbn [GoStrings.split_scan String.prefix String.length Nat.sub] in Hone.
  cbn [no_space]. destruct (ascii_dec " " c) as [<-|Hne].
  - rewrite prefix_empty in Hone. cbn [length] in Hone.
    pose proof (split_scan_not_empty " " s "" 0). lia.
  - apply Ascii.eqb_neq in Hne. rewrite Ascii.eqb_sym, Hne. cbn.
    exact (IH _ Hone).
Qed.

Lemma starts_with_Bearer (h : string) :
  GoStrings.slice_to h 7 = "Bearer " → ∃ rest, h = "Bearer " +:+ rest.
Proof.
  unfold GoStrings.slice_to. intros Hslice.
  do 7 (destruct h as [|? h]; [discriminate Hslice|]).
  cbn in Hslice. exists h.
  assert (substring 0 0 h = "") as Hnil by (destruct h; reflexivity).
  rewrite Hnil in Hslice.
  injection Hslice as -> -> -> -> -> -> ->. reflexivity.
Qed.

(** X22. The Authorization headers of seven bytes or more that are
accepted: exactly those that read "Bearer " and then a token without a
space, and the token is what is returned. (The token may be empty: the
header "Bearer " alone is accepted, with the empty token.) *)
Theorem getAuthToken_accepts_Bearer_only (r : Request) (token : string) :
  (7 <= String.length (Header_Get r "Authorization"))%nat →
  Api.getAuthToken r = Ok token ↔
  Header_Get r "Authorization" = "Bearer " +:+ token ∧ no_space token = true.
Proof.
  intros Hlen. split.
  - unfold Api.getAuthToken.
    destruct (String.eqb (Header_Get r "Authorization") "");
      [discriminate|].
    apply Nat.leb_le in Hlen. rewrite Hlen. cbn [andb].
    destruct (String.eqb_spec
                (GoStrings.slice_to (Header_Get r "Authorization") 7)
                "Bearer ") as [Hslice|]; [|discriminate].
    destruct (starts_with_Bearer _ Hslice) as [rest ->].
    cbn [negb orb]. unfold GoStrings.Split.
    change ("Bearer " +:+ rest) with ("Bearer" +:+ String " " rest).
    rewrite split_scan_word by reflexivity. cbn [length].
    destruct (Nat.eqb_spec
                (S (length (GoStrings.split_scan " " 0 "" rest))) 2)
      as [Htwo|]; [|discriminate].
    cbn [negb]. assert (no_space rest = true) as Hrest.
    { apply (split_scan_one_piece rest ""). lia. }
    rewrite (split_scan_no_space rest "" Hrest). cbn.
    intros [= <-]. split; [reflexivity | exact Hrest].
  - intros [Hheader Htoken]. exact (getAuthToken_Bearer r token Hheader Htoken).
Qed.

Lemma getAuthToken_accepts_Bearer_only_witness :
  Api.getAuthToken Examples.request0 = Ok "test" ↔
  Header_Get Examples.request0 "Authorization" = "Bearer " +:+ "test" ∧
  no_space "test" = true.
Proof.
  apply (getAuthToken_accepts_Bearer_only Examples.request0 "test").
  apply Nat.leb_le. reflexivity.
Defined.

(** ** Uploads of converted audio *)

(** X23. [uploadAudioBytes] on a working store: the bytes of the request
are stored as a file under the second id drawn, and a track that refers to
it under the first, with the name, artist and album of the request where
they are not empty and the defaults where they are; the answer is 200. *)
Theorem uploadAudioBytes_stores_track_and_audio (E : Env) (P : Process)
  (ext : Service.ExtHandler) (r : Request) (token : string)
  (uploadRequest : UploadRequest) (W : World) :
  authorized ext r token →
  json_Decode_UploadRequest P (Body r) = Ok uploadRequest →
  succeed E [GridfsNewBucket; GridfsOpenUploadStream; UploadStreamWrite;
             UploadStreamClose] →
  faults E TrackInsertOne = None →
  songs (db W) !! ObjectID_at E (oidCounter W) = None →
  w (final (uploadAudioBytes E P ext r) W)
  = mkResponseWriter (Some 200%Z)
      [ValueJSON (PString "Track added successfully")] ∧
  uploaded E (ObjectID_at E (oidCounter W))
    (ObjectID_at E (S (oidCounter W)))
    (requested (Upload_YoutubeRequest uploadRequest))
    (AudioBytes uploadRequest) (db W)
    (store_after (uploadAudioBytes E P ext r) W).
Proof.
  intros Hauth Hbody Hup Hinsert Hfresh.
  unfold store_after, final, uploadAudioBytes.
  authorized_run Hauth. rewrite Hbody. cbn.
  rewrite (UploadAudioFile_succeeds E _ _ _ Hup). cbn.
  rewrite AddTrack_succeeds by assumption. cbn.
  split; [reflexivity|]. repeat split.
Qed.

Lemma uploadAudioBytes_stores_track_and_audio_witness :
  w (final (uploadAudioBytes Examples.env0 MoreExamples.process0
              Examples.ext_ok (Examples.with_Body "upload" Examples.request0))
       Examples.world0)
  = mkResponseWriter (Some 200%Z)
      [ValueJSON (PString "Track added successfully")] ∧
  uploaded Examples.env0 1000%N 1001%N
    (requested (mkYoutubeRequest "" "Tune" "" ""))
    [Byte.x01; Byte.x02; Byte.x03; Byte.x04; Byte.x05] Examples.store0
    (store_after (uploadAudioBytes Examples.env0 MoreExamples.process0
                    Examples.ext_ok
                    (Examples.with_Body "upload" Examples.request0))
       Examples.world0).
Proof.
  apply (uploadAudioBytes_stores_track_and_audio Examples.env0
           MoreExamples.process0 Examples.ext_ok
           (Examples.with_Body "upload" Examples.request0) "test"
           (mkUploadRequest (mkYoutubeRequest "" "Tune" "" "")
              [Byte.x01; Byte.x02; Byte.x03; Byte.x04; Byte.x05])
           Examples.world0).
  - split; reflexivity.
  - reflexivity.
  - repeat constructor.
  - reflexivity.
  - reflexivity.
Defined.

(** X24. [uploadTrackFromYoutubeLink] from the link to the stored track,
when every step succeeds: the video client is asked for the id of the link
and then for the stream of the format the loop selects; the stream is
converted; the converter's output is stored as the audio of a new track
made from the fields of the request, with the defaults for the empty ones;
the answer is 200, and neither video.mp4 nor video.mp3 is left behind. *)
Theorem uploadTrackFromYoutubeLink_stores_converted_audio (E : Env)
  (ext : Service.ExtHandler) (client : YoutubeClient) (r : Request)
  (token : string) (ytRequest : YoutubeRequest) (pre id tail : string)
  (video : Video) (format : Format) (stream : Stream)
  (audio : list Byte.byte) (W : World) :
  authorized ext r token →
  json_Decode_YoutubeRequest E (Body r) = Ok ytRequest →
  YoutubeLink ytRequest = pre +:+ "v=" +:+ id +:+ tail →
  GoStrings.Contains pre "v=" = false →
  GoStrings.Contains id "v=" = false →
  GoStrings.Contains id "&" = false →
  link_tail tail →
  GetVideo client id = Ok video →
  Formats video !! Api.formatIndex (Formats video) = Some format →
  GetStream client video format = Ok stream →
  stream_read_err stream = None →
  (∀ c, os_faults E c = None) →
  ffmpeg E (stream_bytes stream) = Ok audio →
  succeed E [GridfsNewBucket; GridfsOpenUploadStream; UploadStreamWrite;
             UploadStreamClose] →
  faults E TrackInsertOne = None →
  songs (db W) !! ObjectID_at E (oidCounter W) = None →
  calls (final (Api.uploadTrackFromYoutubeLink E client ext r) W)
  = [CallValidateToken token; CallGetVideo id; CallGetStream video format] ∧
  w (final (Api.uploadTrackFromYoutubeLink E client ext r) W)
  = mkResponseWriter (Some 200%Z)
      [ValueJSON (PString "Track added successfully")] ∧
  uploaded E (ObjectID_at E (oidCounter W))
    (ObjectID_at E (S (oidCounter W))) (requested ytRequest) audio (db W)
    (store_after (Api.uploadTrackFromYoutubeLink E client ext r) W) ∧
  files (world (final (Api.uploadTrackFromYoutubeLink E client ext r) W))
  = delete "video.mp3" (delete "video.mp4" (files W)).
Proof.
  intros Hauth Hbody Hlink Hpre Hid Hamp Htail Hvideo Hformat Hstream Hread
    Hos Hffmpeg Hup Hinsert Hfresh.
  destruct (first_piece_v_eq id tail "" Hid Htail) as (x & Hpiece & Hx).
  assert (GoStrings.split_scan "v=" 0 "" (YoutubeLink ytRequest) !! 1
          = Some (id +:+ x)) as Hsecond.
  { rewrite Hlink, (split_scan_first_v_eq pre (id +:+ tail) "" Hpre).
    exact Hpiece. }
  pose proof (first_piece_amp id x "" Hamp Hx) as Hfirst.
  change ("" +:+ id) with id in Hfirst.
  unfold store_after, final, Api.uploadTrackFromYoutubeLink, index,
    call_GetVideo, call_GetStream, Os.Create, Os.CopyToFile, Os.LookPath,
    Os.Run, Os.ReadFile, Os.Remove.
  authorized_run Hauth. rewrite Hbody. cbn. rewrite Hsecond. cbn.
  rewrite Hfirst. cbn. rewrite Hvideo. cbn. rewrite Hformat. cbn.
  rewrite Hstream. cbn. rewrite !Hos, Hread. cbn.
  rewrite lookup_insert_eq, Hffmpeg. cbn.
  rewrite lookup_insert_eq. cbn.
  rewrite lookup_insert_ne, lookup_insert_eq by discriminate. cbn.
  rewrite lookup_delete_ne, lookup_insert_eq by discriminate. cbn.
  rewrite (UploadAudioFile_succeeds E _ _ _ Hup). cbn.
  rewrite AddTrack_succeeds by assumption. cbn.
  rewrite temp_files_removed. repeat split.
Qed.

Lemma uploadTrackFromYoutubeLink_stores_converted_audio_witness :
  calls (final (Api.uploadTrackFromYoutubeLink Examples.env_video
                  Examples.client0 Examples.ext_ok Examples.request0)
           Examples.world0)
  = [CallValidateToken "test"; CallGetVideo "abc";
     CallGetStream Examples.video0 (mkFormat 140 "audio/mp4; codecs=mp4a")] ∧
  w (final (Api.uploadTrackFromYoutubeLink Examples.env_video
              Examples.client0 Examples.ext_ok Examples.request0)
       Examples.world0)
  = mkResponseWriter (Some 200%Z)
      [ValueJSON (PString "Track added successfully")].
Proof.
  split;
    apply (uploadTrackFromYoutubeLink_stores_converted_audio
             Examples.env_video Examples.ext_ok Examples.client0
             Examples.request0 "test"
             (mkYoutubeRequest "https://www.youtube.com/watch?v=abc&t=1"
                "" "" "")
             "https://www.youtube.com/watch?" "abc" "&t=1" Examples.video0
             (mkFormat 140 "audio/mp4; codecs=mp4a")
             (mkStream [Byte.x01; Byte.x02] None) [Byte.x01; Byte.x02]
             Examples.world0);
    first [ split; reflexivity | reflexivity
          | right; exists "t=1"; reflexivity
          | intros c; reflexivity
          | repeat constructor ].
Defined.

(** ** Requests that are refused change nothing *)

Ltac run_cases :=
  cbn;
  repeat (match goal with
          | |- context [match ?scrutinee with _ => _ end] =>
              tryif has_match scrutinee then fail
              else destruct scrutinee eqn:?
          end; cbn).

Ltac unchanged_or_200 :=
  intros Hstatus;
  first [ reflexivity | apply db_eta | destruct Hstatus; reflexivity ].

(** X25. The update of a track and the four requests on playlists do all
or nothing: whatever the environment, the request and the store, when the
answer is not 200 the database is exactly as it was. *)
Theorem refused_requests_change_nothing (E : Env) (P : Process)
  (ext : Service.ExtHandler) (r : Request) (W : World) :
  Forall (λ h, status h W ≠ Some 200%Z → store_after h W = db W)
    [Api.updateTrack E ext r; addPlaylist E P ext r;
     Api.addTrackToPlaylist E ext r; Api.removeTrackFromPlaylist E ext r;
     Api.deletePlaylist E ext r].
Proof.
  repeat apply Forall_cons_2; [..|apply Forall_nil_2];
    unfold status, store_after, final.
  - unfold Api.updateTrack, Dao.UpdateTrack, FindOneByID, set_track.
    handler_steps. run_cases; unchanged_or_200.
  - unfold addPlaylist, NewObjectID, Dao.AddPlaylist, InsertOne.
    handler_steps. run_cases; unchanged_or_200.
  - unfold Api.addTrackToPlaylist, Dao.GetTracks, Dao.UpdatePlaylist,
      FindOneByID.
    handler_steps. run_cases; unchanged_or_200.
  - unfold Api.removeTrackFromPlaylist, Dao.GetTracks, Dao.UpdatePlaylist,
      FindOneByID.
    handler_steps. run_cases; unchanged_or_200.
  - unfold Api.deletePlaylist, Dao.DeletePlaylist, DeleteOneByID.
    handler_steps. run_cases; unchanged_or_200.
Qed.

(** ** A new playlist is listed *)

(** X26. A playlist made with [addPlaylist] is found by [getPlaylists]:
after the first request succeeded, a listing that asks for the name of the
playlist is answered 200 with a list that holds the new playlist, under
the id that was drawn for it and with the track ids of the first request's
body. *)
Theorem added_playlist_is_listed (E : Env) (P : Process)
  (ext : Service.ExtHandler) (r : Request) (r' : Incoming)
  (token token' : string) (sent : Playlist) (W : World) :
  authorized ext r token →
  json_Decode_Playlist P (Body r) = Ok sent →
  succeed E [PlaylistInsertOne; PlaylistFind; PlaylistCursorAll] →
  playlists (db W) !! ObjectID_at E (oidCounter W) = None →
  authorized ext r' token' →
  ParseForm r' = None →
  URL_Query r' = {[ "name" := [Playlist_Name sent] ]} →
  ∃ listed,
    w (final (getPlaylists E ext r')
         (world (final (addPlaylist E P ext r) W)))
    = mkResponseWriter (Some 200%Z) [ValueJSON (PPlaylists listed)] ∧
    mkPlaylist (ObjectID_at E (oidCounter W)) (Playlist_Name sent)
      (Tracks sent) ∈ listed.
Proof.
  intros Hauth Hbody Hs Hfresh Hauth' Hform Hquery. working.
  assert (∃ s, serve (addPlaylist E P ext r) W = (Returned, s) ∧
               playlists (db (world s)) !! ObjectID_at E (oidCounter W)
               = Some (mkPlaylistDoc (Playlist_Name sent) (Tracks sent)))
    as (s & Hadd & Hstored).
  { unfold addPlaylist, Dao.AddPlaylist, InsertOne.
    authorized_run Hauth. rewrite Hbody. cbn. no_faults. rewrite Hfresh. cbn.
    eexists. split; [reflexivity|]. cbn. apply lookup_insert_eq. }
  unfold final at 2. rewrite Hadd. cbn [snd].
  exists (decode_playlist <$>
            Find match_playlist [("name", VString (Playlist_Name sent))]
              (playlists (db (world s)))).
  split.
  - unfold final, getPlaylists, Dao.GetPlaylists.
    authorized_run Hauth'. rewrite Hform, Hquery, map_to_list_singleton. cbn.
    no_faults. reflexivity.
  - apply list_elem_of_fmap.
    exists (ObjectID_at E (oidCounter W),
            mkPlaylistDoc (Playlist_Name sent) (Tracks sent)).
    split; [reflexivity|]. unfold Find.
    apply list_elem_of_In, filter_In. split.
    + apply list_elem_of_In, elem_of_map_to_list. exact Hstored.
    + unfold match_playlist. cbn. rewrite String.eqb_refl. reflexivity.
Qed.

Lemma added_playlist_is_listed_witness :
  ∃ listed,
    w (final (getPlaylists Examples.env0 Examples.ext_ok
                MoreExamples.by_name)
         (world (final (addPlaylist Examples.env0 MoreExamples.process0
                          Examples.ext_ok
                          (Examples.with_Body "mix" Examples.request0))
                   Examples.world0)))
    = mkResponseWriter (Some 200%Z) [ValueJSON (PPlaylists listed)] ∧
    mkPlaylist 1000%N "Road" [1%N; 9%N] ∈ listed.
Proof.
  apply (added_playlist_is_listed Examples.env0 MoreExamples.process0
           Examples.ext_ok (Examples.with_Body "mix" Examples.request0)
           MoreExamples.by_name "test" "test"
           (mkPlaylist 5%N "Road" [1%N; 9%N]) Examples.world0).
  - split; reflexivity.
  - reflexivity.
  - repeat constructor.
  - reflexivity.
  - split; reflexivity.
  - reflexivity.
  - reflexivity.
Defined.
